(** * FFmpegWriter: a shallow embedding of libopenshot's encode-and-mux writer

    The development follows [src/FFmpegWriter.cpp].  The writer object is a
    record, every member function is a state transformer that also returns
    how the call ended (normal return, a C++ exception, undefined behaviour,
    or an exhausted iteration budget), and the FFmpeg library the writer
    drives is a record of oracle functions ([LibAV]) over which all
    definitions are parametric. *)

From Stdlib Require Import ZArith String List Bool Lia.
From stdpp Require Import base option list.

Open Scope Z_scope.

(** ** Machine integers

    A C++ [int] is a [Z]; where the source multiplies or increments values
    that a caller controls, the 32-bit two's complement wrap-around is
    written out ([int_mul], [int_succ]).  The counters of the accumulation
    loop are added and subtracted as they are: a copy that would leave the
    accumulator is flagged as undefined before they can grow. *)

Definition INT_MIN : Z := -2147483648.
Definition INT_MAX : Z := 2147483647.

Definition wrap_int (z : Z) : Z := (z - INT_MIN) mod 2 ^ 32 + INT_MIN.
Definition int_mul (a b : Z) : Z := wrap_int (a * b).
Definition int_succ (a : Z) : Z := wrap_int (a + 1).

(** ** FFmpeg constants used by the writer *)

Definition AVFMT_NOFILE : Z := 1.
Definition AVFMT_RAWPICTURE : Z := 32.
Definition AVFMT_GLOBALHEADER : Z := 64.
Definition CODEC_FLAG_GLOBAL_HEADER : Z := 4194304.
Definition AV_PKT_FLAG_KEY : Z := 1.
Definition AV_CH_LAYOUT_MONO : Z := 4.
Definition AV_CH_LAYOUT_STEREO : Z := 3.
Definition AV_NOPTS_VALUE : Z := - 2 ^ 63.

Inductive CodecID :=
| CODEC_ID_NONE
| CODEC_ID_MPEG1VIDEO
| CODEC_ID_MPEG2VIDEO
| CODEC_ID_PCM_S16LE
| CODEC_ID_PCM_S16BE
| CODEC_ID_PCM_U16LE
| CODEC_ID_PCM_U16BE
| CODEC_ID_OTHER (tag : nat).

Definition codec_id_eqb (a b : CodecID) : bool :=
  match a, b with
  | CODEC_ID_NONE, CODEC_ID_NONE
  | CODEC_ID_MPEG1VIDEO, CODEC_ID_MPEG1VIDEO
  | CODEC_ID_MPEG2VIDEO, CODEC_ID_MPEG2VIDEO
  | CODEC_ID_PCM_S16LE, CODEC_ID_PCM_S16LE
  | CODEC_ID_PCM_S16BE, CODEC_ID_PCM_S16BE
  | CODEC_ID_PCM_U16LE, CODEC_ID_PCM_U16LE
  | CODEC_ID_PCM_U16BE, CODEC_ID_PCM_U16BE => true
  | CODEC_ID_OTHER n, CODEC_ID_OTHER m => Nat.eqb n m
  | _, _ => false
  end.

Inductive AVMediaType := AVMEDIA_TYPE_UNKNOWN | AVMEDIA_TYPE_VIDEO | AVMEDIA_TYPE_AUDIO.

Inductive SampleFormat :=
| AV_SAMPLE_FMT_NONE
| AV_SAMPLE_FMT_U8
| AV_SAMPLE_FMT_S16
| AV_SAMPLE_FMT_S32
| AV_SAMPLE_FMT_FLT
| AV_SAMPLE_FMT_DBL.

Definition sample_fmt_eqb (a b : SampleFormat) : bool :=
  match a, b with
  | AV_SAMPLE_FMT_NONE, AV_SAMPLE_FMT_NONE
  | AV_SAMPLE_FMT_U8, AV_SAMPLE_FMT_U8
  | AV_SAMPLE_FMT_S16, AV_SAMPLE_FMT_S16
  | AV_SAMPLE_FMT_S32, AV_SAMPLE_FMT_S32
  | AV_SAMPLE_FMT_FLT, AV_SAMPLE_FMT_FLT
  | AV_SAMPLE_FMT_DBL, AV_SAMPLE_FMT_DBL => true
  | _, _ => false
  end.

(** FFmpeg's [av_get_bytes_per_sample]: the width of one sample, 0 for an
    unknown format. *)
Definition av_get_bytes_per_sample (f : SampleFormat) : Z :=
  match f with
  | AV_SAMPLE_FMT_NONE => 0
  | AV_SAMPLE_FMT_U8 => 1
  | AV_SAMPLE_FMT_S16 => 2
  | AV_SAMPLE_FMT_S32 => 4
  | AV_SAMPLE_FMT_FLT => 4
  | AV_SAMPLE_FMT_DBL => 8
  end.

Inductive PixelFormat := PIX_FMT_NONE | PIX_FMT_YUV420P | PIX_FMT_RGB24 | PIX_FMT_OTHER (tag : nat).

Inductive Stream_Type := VIDEO_STREAM | AUDIO_STREAM.

Definition stream_type_eqb (a b : Stream_Type) : bool :=
  match a, b with
  | VIDEO_STREAM, VIDEO_STREAM | AUDIO_STREAM, AUDIO_STREAM => true
  | _, _ => false
  end.

(** ** Exceptions and call outcomes *)

Inductive Exception :=
| InvalidFile
| InvalidFormat
| InvalidCodec
| InvalidOptions
| OutOfMemory
| BadAlloc
| InvalidSampleRate
| InvalidChannels
| ResampleError
| ErrorEncodingAudio (frame_number : Z)
| ErrorEncodingVideo (frame_number : Z).

(** How a call ends.  [Throw] is a C++ exception; the object keeps whatever
    was assigned before the throw.  [Undefined] marks behaviour the C++
    standard leaves undefined (a null [AVCodecContext] dereferenced, a
    [memcpy] outside its buffer).  [OutOfFuel] is the model's iteration
    budget running out. *)
Inductive Result (A : Type) :=
| Ok (a : A)
| Throw (e : Exception)
| Undefined
| OutOfFuel.
Arguments Ok {A} a.
Arguments Throw {A} e.
Arguments Undefined {A}.
Arguments OutOfFuel {A}.

(** ** Data model *)

Module Fraction.
Record t := mk { num : Z; den : Z }.
End Fraction.

(** Modelled from the spec: [Fraction::Reduce] (Fraction.cpp is not under
    src/).  The spec describes it as an exact integer GCD reduction of the
    numerator/denominator pair that preserves the represented value. *)
Definition Reduce (f : Fraction.t) : Fraction.t :=
  let g := Z.gcd (Fraction.num f) (Fraction.den f) in
  Fraction.mk (Fraction.num f ÷ g) (Fraction.den f ÷ g).

Module FileInfo.
Record t := mk {
    has_video : bool;
    has_audio : bool;
    vcodec : string;
    acodec : string;
    fps : Fraction.t;
    video_timebase : Fraction.t;
    width : Z;
    height : Z;
    pixel_ratio : Fraction.t;
    display_ratio : Fraction.t;
    video_bit_rate : Z;
    interlaced_frame : bool;
    top_field_first : bool;
    sample_rate : Z;
    channels : Z;
    audio_bit_rate : Z
  }.

Definition set_has_video v (i : t) : t :=
  let 'mk _ a2 a3 a4 a5 a6 a7 a8 a9 a10 a11 a12 a13 a14 a15 a16 := i in
  mk v a2 a3 a4 a5 a6 a7 a8 a9 a10 a11 a12 a13 a14 a15 a16.
Definition set_has_audio v (i : t) : t :=
  let 'mk a1 _ a3 a4 a5 a6 a7 a8 a9 a10 a11 a12 a13 a14 a15 a16 := i in
  mk a1 v a3 a4 a5 a6 a7 a8 a9 a10 a11 a12 a13 a14 a15 a16.
Definition set_vcodec v (i : t) : t :=
  let 'mk a1 a2 _ a4 a5 a6 a7 a8 a9 a10 a11 a12 a13 a14 a15 a16 := i in
  mk a1 a2 v a4 a5 a6 a7 a8 a9 a10 a11 a12 a13 a14 a15 a16.
Definition set_acodec v (i : t) : t :=
  let 'mk a1 a2 a3 _ a5 a6 a7 a8 a9 a10 a11 a12 a13 a14 a15 a16 := i in
  mk a1 a2 a3 v a5 a6 a7 a8 a9 a10 a11 a12 a13 a14 a15 a16.
Definition set_fps v (i : t) : t :=
  let 'mk a1 a2 a3 a4 _ a6 a7 a8 a9 a10 a11 a12 a13 a14 a15 a16 := i in
  mk a1 a2 a3 a4 v a6 a7 a8 a9 a10 a11 a12 a13 a14 a15 a16.
Definition set_video_timebase v (i : t) : t :=
  let 'mk a1 a2 a3 a4 a5 _ a7 a8 a9 a10 a11 a12 a13 a14 a15 a16 := i in
  mk a1 a2 a3 a4 a5 v a7 a8 a9 a10 a11 a12 a13 a14 a15 a16.
Definition set_width v (i : t) : t :=
  let 'mk a1 a2 a3 a4 a5 a6 _ a8 a9 a10 a11 a12 a13 a14 a15 a16 := i in
  mk a1 a2 a3 a4 a5 a6 v a8 a9 a10 a11 a12 a13 a14 a15 a16.
Definition set_height v (i : t) : t :=
  let 'mk a1 a2 a3 a4 a5 a6 a7 _ a9 a10 a11 a12 a13 a14 a15 a16 := i in
  mk a1 a2 a3 a4 a5 a6 a7 v a9 a10 a11 a12 a13 a14 a15 a16.
Definition set_pixel_ratio v (i : t) : t :=
  let 'mk a1 a2 a3 a4 a5 a6 a7 a8 _ a10 a11 a12 a13 a14 a15 a16 := i in
  mk a1 a2 a3 a4 a5 a6 a7 a8 v a10 a11 a12 a13 a14 a15 a16.
Definition set_display_ratio v (i : t) : t :=
  let 'mk a1 a2 a3 a4 a5 a6 a7 a8 a9 _ a11 a12 a13 a14 a15 a16 := i in
  mk a1 a2 a3 a4 a5 a6 a7 a8 a9 v a11 a12 a13 a14 a15 a16.
Definition set_video_bit_rate v (i : t) : t :=
  let 'mk a1 a2 a3 a4 a5 a6 a7 a8 a9 a10 _ a12 a13 a14 a15 a16 := i in
  mk a1 a2 a3 a4 a5 a6 a7 a8 a9 a10 v a12 a13 a14 a15 a16.
Definition set_interlaced_frame v (i : t) : t :=
  let 'mk a1 a2 a3 a4 a5 a6 a7 a8 a9 a10 a11 _ a13 a14 a15 a16 := i in
  mk a1 a2 a3 a4 a5 a6 a7 a8 a9 a10 a11 v a13 a14 a15 a16.
Definition set_top_field_first v (i : t) : t :=
  let 'mk a1 a2 a3 a4 a5 a6 a7 a8 a9 a10 a11 a12 _ a14 a15 a16 := i in
  mk a1 a2 a3 a4 a5 a6 a7 a8 a9 a10 a11 a12 v a14 a15 a16.
Definition set_sample_rate v (i : t) : t :=
  let 'mk a1 a2 a3 a4 a5 a6 a7 a8 a9 a10 a11 a12 a13 _ a15 a16 := i in
  mk a1 a2 a3 a4 a5 a6 a7 a8 a9 a10 a11 a12 a13 v a15 a16.
Definition set_channels v (i : t) : t :=
  let 'mk a1 a2 a3 a4 a5 a6 a7 a8 a9 a10 a11 a12 a13 a14 _ a16 := i in
  mk a1 a2 a3 a4 a5 a6 a7 a8 a9 a10 a11 a12 a13 a14 v a16.
Definition set_audio_bit_rate v (i : t) : t :=
  let 'mk a1 a2 a3 a4 a5 a6 a7 a8 a9 a10 a11 a12 a13 a14 a15 _ := i in
  mk a1 a2 a3 a4 a5 a6 a7 a8 a9 a10 a11 a12 a13 a14 a15 v.
End FileInfo.

Module AVOutputFormat.
Record t := mk { video_codec : CodecID; audio_codec : CodecID; flags : Z }.
Definition set_video_codec v (f : t) : t := mk v (audio_codec f) (flags f).
Definition set_audio_codec v (f : t) : t := mk (video_codec f) v (flags f).
End AVOutputFormat.

(** An encoder description.  The three capability arrays are [None] for a
    null pointer; a present array is the C array as laid out in memory, its
    sentinel ([0], resp. [AV_SAMPLE_FMT_NONE]) included. *)
Module AVCodec.
Record t := mk {
    name : string;
    id : CodecID;
    supported_samplerates : option (list Z);
    channel_layouts : option (list Z);
    sample_fmts : option (list SampleFormat)
  }.
End AVCodec.

(** [c->coded_frame] *)
Module AVFrame.
Record t := mk { pts : Z; key_frame : Z }.
End AVFrame.

Module AVCodecContext.
Record t := mk {
    codec_id : CodecID;
    codec_type : AVMediaType;
    bit_rate : Z;
    channels : Z;
    time_base : Fraction.t;
    sample_rate : Z;
    channel_layout : Z;
    sample_fmt : SampleFormat;
    flags : Z;
    width : Z;
    height : Z;
    gop_size : Z;
    pix_fmt : PixelFormat;
    max_b_frames : Z;
    mb_decision : Z;
    qmin : Z;
    qmax : Z;
    frame_size : Z;
    coded_frame : option AVFrame.t;
    priv_data : list (string * string)
  }.

Definition set_codec_id v (c : t) : t :=
  let 'mk _ a2 a3 a4 a5 a6 a7 a8 a9 a10 a11 a12 a13 a14 a15 a16 a17 a18 a19 a20 := c in
  mk v a2 a3 a4 a5 a6 a7 a8 a9 a10 a11 a12 a13 a14 a15 a16 a17 a18 a19 a20.
Definition set_codec_type v (c : t) : t :=
  let 'mk a1 _ a3 a4 a5 a6 a7 a8 a9 a10 a11 a12 a13 a14 a15 a16 a17 a18 a19 a20 := c in
  mk a1 v a3 a4 a5 a6 a7 a8 a9 a10 a11 a12 a13 a14 a15 a16 a17 a18 a19 a20.
Definition set_bit_rate v (c : t) : t :=
  let 'mk a1 a2 _ a4 a5 a6 a7 a8 a9 a10 a11 a12 a13 a14 a15 a16 a17 a18 a19 a20 := c in
  mk a1 a2 v a4 a5 a6 a7 a8 a9 a10 a11 a12 a13 a14 a15 a16 a17 a18 a19 a20.
Definition set_channels v (c : t) : t :=
  let 'mk a1 a2 a3 _ a5 a6 a7 a8 a9 a10 a11 a12 a13 a14 a15 a16 a17 a18 a19 a20 := c in
  mk a1 a2 a3 v a5 a6 a7 a8 a9 a10 a11 a12 a13 a14 a15 a16 a17 a18 a19 a20.
Definition set_time_base v (c : t) : t :=
  let 'mk a1 a2 a3 a4 _ a6 a7 a8 a9 a10 a11 a12 a13 a14 a15 a16 a17 a18 a19 a20 := c in
  mk a1 a2 a3 a4 v a6 a7 a8 a9 a10 a11 a12 a13 a14 a15 a16 a17 a18 a19 a20.
Definition set_sample_rate v (c : t) : t :=
  let 'mk a1 a2 a3 a4 a5 _ a7 a8 a9 a10 a11 a12 a13 a14 a15 a16 a17 a18 a19 a20 := c in
  mk a1 a2 a3 a4 a5 v a7 a8 a9 a10 a11 a12 a13 a14 a15 a16 a17 a18 a19 a20.
Definition set_channel_layout v (c : t) : t :=
  let 'mk a1 a2 a3 a4 a5 a6 _ a8 a9 a10 a11 a12 a13 a14 a15 a16 a17 a18 a19 a20 := c in
  mk a1 a2 a3 a4 a5 a6 v a8 a9 a10 a11 a12 a13 a14 a15 a16 a17 a18 a19 a20.
Definition set_sample_fmt v (c : t) : t :=
  let 'mk a1 a2 a3 a4 a5 a6 a7 _ a9 a10 a11 a12 a13 a14 a15 a16 a17 a18 a19 a20 := c in
  mk a1 a2 a3 a4 a5 a6 a7 v a9 a10 a11 a12 a13 a14 a15 a16 a17 a18 a19 a20.
Definition set_flags v (c : t) : t :=
  let 'mk a1 a2 a3 a4 a5 a6 a7 a8 _ a10 a11 a12 a13 a14 a15 a16 a17 a18 a19 a20 := c in
  mk a1 a2 a3 a4 a5 a6 a7 a8 v a10 a11 a12 a13 a14 a15 a16 a17 a18 a19 a20.
Definition set_width v (c : t) : t :=
  let 'mk a1 a2 a3 a4 a5 a6 a7 a8 a9 _ a11 a12 a13 a14 a15 a16 a17 a18 a19 a20 := c in
  mk a1 a2 a3 a4 a5 a6 a7 a8 a9 v a11 a12 a13 a14 a15 a16 a17 a18 a19 a20.
Definition set_height v (c : t) : t :=
  let 'mk a1 a2 a3 a4 a5 a6 a7 a8 a9 a10 _ a12 a13 a14 a15 a16 a17 a18 a19 a20 := c in
  mk a1 a2 a3 a4 a5 a6 a7 a8 a9 a10 v a12 a13 a14 a15 a16 a17 a18 a19 a20.
Definition set_gop_size v (c : t) : t :=
  let 'mk a1 a2 a3 a4 a5 a6 a7 a8 a9 a10 a11 _ a13 a14 a15 a16 a17 a18 a19 a20 := c in
  mk a1 a2 a3 a4 a5 a6 a7 a8 a9 a10 a11 v a13 a14 a15 a16 a17 a18 a19 a20.
Definition set_pix_fmt v (c : t) : t :=
  let 'mk a1 a2 a3 a4 a5 a6 a7 a8 a9 a10 a11 a12 _ a14 a15 a16 a17 a18 a19 a20 := c in
  mk a1 a2 a3 a4 a5 a6 a7 a8 a9 a10 a11 a12 v a14 a15 a16 a17 a18 a19 a20.
Definition set_max_b_frames v (c : t) : t :=
  let 'mk a1 a2 a3 a4 a5 a6 a7 a8 a9 a10 a11 a12 a13 _ a15 a16 a17 a18 a19 a20 := c in
  mk a1 a2 a3 a4 a5 a6 a7 a8 a9 a10 a11 a12 a13 v a15 a16 a17 a18 a19 a20.
Definition set_mb_decision v (c : t) : t :=
  let 'mk a1 a2 a3 a4 a5 a6 a7 a8 a9 a10 a11 a12 a13 a14 _ a16 a17 a18 a19 a20 := c in
  mk a1 a2 a3 a4 a5 a6 a7 a8 a9 a10 a11 a12 a13 a14 v a16 a17 a18 a19 a20.
Definition set_qmin v (c : t) : t :=
  let 'mk a1 a2 a3 a4 a5 a6 a7 a8 a9 a10 a11 a12 a13 a14 a15 _ a17 a18 a19 a20 := c in
  mk a1 a2 a3 a4 a5 a6 a7 a8 a9 a10 a11 a12 a13 a14 a15 v a17 a18 a19 a20.
Definition set_qmax v (c : t) : t :=
  let 'mk a1 a2 a3 a4 a5 a6 a7 a8 a9 a10 a11 a12 a13 a14 a15 a16 _ a18 a19 a20 := c in
  mk a1 a2 a3 a4 a5 a6 a7 a8 a9 a10 a11 a12 a13 a14 a15 a16 v a18 a19 a20.
Definition set_coded_frame v (c : t) : t :=
  let 'mk a1 a2 a3 a4 a5 a6 a7 a8 a9 a10 a11 a12 a13 a14 a15 a16 a17 a18 _ a20 := c in
  mk a1 a2 a3 a4 a5 a6 a7 a8 a9 a10 a11 a12 a13 a14 a15 a16 a17 a18 v a20.
Definition set_priv_data v (c : t) : t :=
  let 'mk a1 a2 a3 a4 a5 a6 a7 a8 a9 a10 a11 a12 a13 a14 a15 a16 a17 a18 a19 _ := c in
  mk a1 a2 a3 a4 a5 a6 a7 a8 a9 a10 a11 a12 a13 a14 a15 a16 a17 a18 a19 v.
End AVCodecContext.

Module AVStream.
Record t := mk { index : Z; time_base : Fraction.t; codec : AVCodecContext.t }.
Definition set_codec v (s : t) : t := mk (index s) (time_base s) v.
End AVStream.

(** A picture buffer ([AVFrame] used as [AVPicture]). *)
Module AVPicture.
Record t := mk { pix_fmt : PixelFormat; width : Z; height : Z; data : list Z }.
End AVPicture.

Inductive PacketData :=
| OutBuf (bytes : list Z)
| RawPicture (p : AVPicture.t).

Module AVPacket.
Record t := mk { pts : Z; flags : Z; stream_index : Z; data : PacketData; size : Z }.
Definition set_pts v (p : t) : t := mk v (flags p) (stream_index p) (data p) (size p).
Definition set_flags v (p : t) : t := mk (pts p) v (stream_index p) (data p) (size p).
Definition set_stream_index v (p : t) : t := mk (pts p) (flags p) v (data p) (size p).
Definition set_data v (p : t) : t := mk (pts p) (flags p) (stream_index p) v (size p).
Definition set_size v (p : t) : t := mk (pts p) (flags p) (stream_index p) (data p) v.
End AVPacket.

(** FFmpeg's [av_init_packet]: timestamps unset, no flags, no payload. *)
Definition av_init_packet : AVPacket.t :=
  AVPacket.mk AV_NOPTS_VALUE 0 0 (OutBuf []) 0.

Module PixelPacket.
Record t := mk { red : Z; green : Z; blue : Z }.
End PixelPacket.

(** An openshot [Frame], seen through the accessors the writer calls.
    [GetInterleavedAudioSamples] hands back floating-point samples and the
    (possibly resampled) per-channel sample count; the scaling
    [int(x * (1 << 15))] of lines 582-584 is a floating-point computation,
    so the frame carries its outcome: [samples16 s] is the value the loop
    stores in [frame_samples[s]]. *)
Module Frame.
Record t := mk {
    number : Z;
    GetWidth : Z;
    GetHeight : Z;
    GetPixels : list PixelPacket.t;
    GetAudioChannelsCount : Z;
    samples_in_frame : Z;
    samples16 : nat -> Z
  }.
End Frame.

(** ** The library behind the writer

    Every call into FFmpeg (and the one use of [std::stringstream]) is an
    oracle.  The calls whose effect depends on what the encoder or the
    container has already seen receive the history of calls made so far. *)

Inductive Event :=
| EvNewStream (codec : AVCodec.t)
| EvOpenCodec (id : CodecID)
| EvResample (total_frame_samples : Z)
| EvEncodeAudio (chunk : list Z)
| EvScale (src : AVPicture.t)
| EvEncodeVideo (pic : AVPicture.t)
| EvWriteFrame (pkt : AVPacket.t)
| EvGetFrame (number : Z).

Record EncoderOutput := mkEncoderOutput {
  out_size : Z;
  out_bytes : list Z;
  out_coded_frame : option AVFrame.t
}.

Record LibAV := mkLibAV {
  avcodec_find_encoder_by_name : string -> option AVCodec.t;
  avcodec_find_encoder : CodecID -> option AVCodec.t;
  (* the defaults of a freshly allocated stream, [None] when allocation fails *)
  avformat_new_stream : list AVStream.t -> AVCodec.t -> option (Fraction.t * AVCodecContext.t);
  (* the opened context, [None] for a negative return value *)
  avcodec_open2 : AVCodecContext.t -> AVCodec.t -> option AVCodecContext.t;
  av_find_opt : list (string * string) -> string -> bool;
  av_set_string3 : list (string * string) -> string -> string -> list (string * string);
  (* [convert >> field]: the field's new value, given the text and the old value *)
  stream_extract : string -> Z -> Z;
  av_audio_resample_init : Z -> Z -> Z -> Z -> SampleFormat -> SampleFormat -> bool;
  audio_resample : (nat -> Z) -> Z -> nat -> Z;
  avcodec_encode_audio : list Event -> AVCodecContext.t -> list Z -> EncoderOutput;
  avcodec_encode_video : list Event -> AVCodecContext.t -> AVPicture.t -> EncoderOutput;
  avpicture_get_size : PixelFormat -> Z -> Z -> Z;
  sws_getContext : Z -> Z -> PixelFormat -> Z -> Z -> PixelFormat -> bool;
  sws_scale : AVPicture.t -> PixelFormat -> Z -> Z -> AVPicture.t;
  av_interleaved_write_frame : list Event -> AVPacket.t -> Z;
  (* [false] when the allocation returns a null pointer *)
  avcodec_alloc_frame : list Event -> bool;
  sizeof_AVPicture : Z;
  (* AVCODEC_MAX_AUDIO_FRAME_SIZE + FF_INPUT_BUFFER_PADDING_SIZE *)
  AUDIO_BUFFER_SIZE : nat
}.

(** ** The writer object

    [oc_streams] is [oc->streams]; [audio_st] and [video_st] point into it
    ([None] is the null pointer), so a write through [video_st->codec] is a
    write to the stream the container owns.  [samples] is the accumulator
    array, [resampler] tells whether the resampler object exists, and
    [events] records the calls made into the library, oldest first.  The
    members no modelled function reads ([path], [audio_pts], [video_pts],
    [audio_outbuf_size], the scratch array [converted_audio]) are left
    out. *)

Record FFmpegWriter := mkWriter {
  info : FileInfo.t;
  fmt : AVOutputFormat.t;
  oc_streams : list AVStream.t;
  audio_st : option nat;
  video_st : option nat;
  samples : list Z;
  audio_outbuf : list Z;
  audio_input_frame_size : Z;
  audio_input_position : Z;
  initial_audio_input_frame_size : Z;
  resampler : bool;
  events : list Event
}.

Definition set_info v (w : FFmpegWriter) : FFmpegWriter :=
  let 'mkWriter _ a2 a3 a4 a5 a6 a7 a8 a9 a10 a11 a12 := w in
  mkWriter v a2 a3 a4 a5 a6 a7 a8 a9 a10 a11 a12.
Definition set_fmt v (w : FFmpegWriter) : FFmpegWriter :=
  let 'mkWriter a1 _ a3 a4 a5 a6 a7 a8 a9 a10 a11 a12 := w in
  mkWriter a1 v a3 a4 a5 a6 a7 a8 a9 a10 a11 a12.
Definition set_oc_streams v (w : FFmpegWriter) : FFmpegWriter :=
  let 'mkWriter a1 a2 _ a4 a5 a6 a7 a8 a9 a10 a11 a12 := w in
  mkWriter a1 a2 v a4 a5 a6 a7 a8 a9 a10 a11 a12.
Definition set_audio_st v (w : FFmpegWriter) : FFmpegWriter :=
  let 'mkWriter a1 a2 a3 _ a5 a6 a7 a8 a9 a10 a11 a12 := w in
  mkWriter a1 a2 a3 v a5 a6 a7 a8 a9 a10 a11 a12.
Definition set_video_st v (w : FFmpegWriter) : FFmpegWriter :=
  let 'mkWriter a1 a2 a3 a4 _ a6 a7 a8 a9 a10 a11 a12 := w in
  mkWriter a1 a2 a3 a4 v a6 a7 a8 a9 a10 a11 a12.
Definition set_samples v (w : FFmpegWriter) : FFmpegWriter :=
  let 'mkWriter a1 a2 a3 a4 a5 _ a7 a8 a9 a10 a11 a12 := w in
  mkWriter a1 a2 a3 a4 a5 v a7 a8 a9 a10 a11 a12.
Definition set_audio_outbuf v (w : FFmpegWriter) : FFmpegWriter :=
  let 'mkWriter a1 a2 a3 a4 a5 a6 _ a8 a9 a10 a11 a12 := w in
  mkWriter a1 a2 a3 a4 a5 a6 v a8 a9 a10 a11 a12.
Definition set_audio_input_frame_size v (w : FFmpegWriter) : FFmpegWriter :=
  let 'mkWriter a1 a2 a3 a4 a5 a6 a7 _ a9 a10 a11 a12 := w in
  mkWriter a1 a2 a3 a4 a5 a6 a7 v a9 a10 a11 a12.
Definition set_audio_input_position v (w : FFmpegWriter) : FFmpegWriter :=
  let 'mkWriter a1 a2 a3 a4 a5 a6 a7 a8 _ a10 a11 a12 := w in
  mkWriter a1 a2 a3 a4 a5 a6 a7 a8 v a10 a11 a12.
Definition set_initial_audio_input_frame_size v (w : FFmpegWriter) : FFmpegWriter :=
  let 'mkWriter a1 a2 a3 a4 a5 a6 a7 a8 a9 _ a11 a12 := w in
  mkWriter a1 a2 a3 a4 a5 a6 a7 a8 a9 v a11 a12.
Definition set_resampler v (w : FFmpegWriter) : FFmpegWriter :=
  let 'mkWriter a1 a2 a3 a4 a5 a6 a7 a8 a9 a10 _ a12 := w in
  mkWriter a1 a2 a3 a4 a5 a6 a7 a8 a9 a10 v a12.
Definition set_events v (w : FFmpegWriter) : FFmpegWriter :=
  let 'mkWriter a1 a2 a3 a4 a5 a6 a7 a8 a9 a10 a11 _ := w in
  mkWriter a1 a2 a3 a4 a5 a6 a7 a8 a9 a10 a11 v.

(** ** Member functions as state transformers with exceptions *)

Definition M (A : Type) : Type := FFmpegWriter -> FFmpegWriter * Result A.

Definition ret {A} (a : A) : M A := fun w => (w, Ok a).
Definition throw {A} (e : Exception) : M A := fun w => (w, Throw e).
Definition undefined {A} : M A := fun w => (w, Undefined).
Definition out_of_fuel {A} : M A := fun w => (w, OutOfFuel).

Definition bind {A B} (m : M A) (k : A -> M B) : M B :=
  fun w =>
    match m w with
    | (w', Ok a) => k a w'
    | (w', Throw e) => (w', Throw e)
    | (w', Undefined) => (w', Undefined)
    | (w', OutOfFuel) => (w', OutOfFuel)
    end.

Definition get : M FFmpegWriter := fun w => (w, Ok w).
Definition modify (f : FFmpegWriter -> FFmpegWriter) : M unit := fun w => (f w, Ok tt).
Definition when (b : bool) (m : M unit) : M unit := if b then m else ret tt.

Declare Scope writer_scope.
Delimit Scope writer_scope with writer.
Notation "x <- m ;; k" := (bind m (fun x => k))
  (at level 100, m at next level, right associativity) : writer_scope.
Notation "m ;; k" := (bind m (fun _ => k))
  (at level 100, right associativity) : writer_scope.
Open Scope writer_scope.

Definition modify_info (f : FileInfo.t -> FileInfo.t) : M unit :=
  modify (fun w => set_info (f (info w)) w).
Definition modify_fmt (f : AVOutputFormat.t -> AVOutputFormat.t) : M unit :=
  modify (fun w => set_fmt (f (fmt w)) w).
Definition log (e : Event) : M unit :=
  modify (fun w => set_events (events w ++ [e]) w).

(** [st->codec] for a stream pointer [st]; dereferencing a null or dangling
    pointer is undefined. *)
Definition stream_codec (st : option nat) : M AVCodecContext.t :=
  fun w =>
    match st with
    | Some i =>
        match oc_streams w !! i with
        | Some s => (w, Ok (AVStream.codec s))
        | None => (w, Undefined)
        end
    | None => (w, Undefined)
    end.

(** An assignment through [st->codec]. *)
Definition modify_codec (st : option nat) (f : AVCodecContext.t -> AVCodecContext.t) : M unit :=
  fun w =>
    match st with
    | Some i =>
        match oc_streams w !! i with
        | Some s =>
            (set_oc_streams (<[i := AVStream.set_codec (f (AVStream.codec s)) s]> (oc_streams w)) w, Ok tt)
        | None => (w, Undefined)
        end
    | None => (w, Undefined)
    end.

Section Writer.

Context (av : LibAV).

(** *** SetVideoOptions (lines 92-146) *)
Definition SetVideoOptions (has_video : bool) (codec : string) (fps : Fraction.t)
    (width height : Z) (pixel_ratio : Fraction.t) (interlaced top_field_first : bool)
    (bit_rate : Z) : M unit :=
  when (0 <? String.length codec)%nat
    (match avcodec_find_encoder_by_name av codec with
     | None => throw InvalidCodec
     | Some new_codec =>
         modify_info (FileInfo.set_vcodec (AVCodec.name new_codec)) ;;
         modify_fmt (AVOutputFormat.set_video_codec (AVCodec.id new_codec))
     end) ;;
  when (Fraction.num fps >? 0)
    (modify_info (FileInfo.set_fps (Fraction.mk (Fraction.num fps) (Fraction.den fps))) ;;
     modify_info (fun i =>
       FileInfo.set_video_timebase
         (Fraction.mk (Fraction.den (FileInfo.fps i)) (Fraction.num (FileInfo.fps i))) i)) ;;
  when (width >=? 1) (modify_info (FileInfo.set_width width)) ;;
  when (height >=? 1) (modify_info (FileInfo.set_height height)) ;;
  when (Fraction.num pixel_ratio >? 0)
    (modify_info (FileInfo.set_pixel_ratio
       (Fraction.mk (Fraction.num pixel_ratio) (Fraction.den pixel_ratio)))) ;;
  when (bit_rate >=? 1000) (modify_info (FileInfo.set_video_bit_rate bit_rate)) ;;
  modify_info (FileInfo.set_interlaced_frame interlaced) ;;
  modify_info (FileInfo.set_top_field_first top_field_first) ;;
  modify_info (fun i =>
    let size :=
      Fraction.mk (int_mul (FileInfo.width i) (Fraction.num (FileInfo.pixel_ratio i)))
                  (int_mul (FileInfo.height i) (Fraction.den (FileInfo.pixel_ratio i))) in
    let size := Reduce size in
    FileInfo.set_display_ratio (Fraction.mk (Fraction.num size) (Fraction.den size)) i) ;;
  modify_info (FileInfo.set_has_video has_video).

(** *** SetAudioOptions (lines 149-175) *)
Definition SetAudioOptions (has_audio : bool) (codec : string) (sample_rate channels bit_rate : Z)
    : M unit :=
  when (0 <? String.length codec)%nat
    (match avcodec_find_encoder_by_name av codec with
     | None => throw InvalidCodec
     | Some new_codec =>
         modify_info (FileInfo.set_acodec (AVCodec.name new_codec)) ;;
         modify_fmt (AVOutputFormat.set_audio_codec (AVCodec.id new_codec))
     end) ;;
  when (sample_rate >? 7999) (modify_info (FileInfo.set_sample_rate sample_rate)) ;;
  when (channels >? 0) (modify_info (FileInfo.set_channels channels)) ;;
  when (bit_rate >? 999) (modify_info (FileInfo.set_audio_bit_rate bit_rate)) ;;
  modify_info (FileInfo.set_has_audio has_audio).

(** *** add_audio_stream (lines 349-432) *)

(** [avformat_new_stream(oc, codec)]: on success the stream is appended to
    [oc->streams] and its position returned. *)
Definition new_stream (codec : AVCodec.t) : M (option nat) :=
  fun w =>
    match avformat_new_stream av (oc_streams w) codec with
    | None => (w, Ok None)
    | Some (tb, c) =>
        let i := length (oc_streams w) in
        (set_events (events w ++ [EvNewStream codec])
           (set_oc_streams (oc_streams w ++ [AVStream.mk (Z.of_nat i) tb c]) w),
         Ok (Some i))
    end.

(** The scan [for (i = 0; arr[i] != 0; i++) if (wanted == arr[i]) break;]
    followed by the test [arr[i] == 0]: [Some true] when the scan stopped on
    a match, [Some false] when it stopped on the sentinel, [None] when it
    ran past the end of the array. *)
Fixpoint scan_array (wanted : Z) (arr : list Z) : option bool :=
  match arr with
  | [] => None
  | x :: rest =>
      if x =? 0 then Some false
      else if wanted =? x then Some true
      else scan_array wanted rest
  end.

Definition stream_ptr (st : option nat) : M AVStream.t :=
  fun w =>
    match st with
    | Some i =>
        match oc_streams w !! i with
        | Some s => (w, Ok s)
        | None => (w, Undefined)
        end
    | None => (w, Undefined)
    end.

Definition add_audio_stream : M (option nat) :=
  w <- get ;;
  match avcodec_find_encoder_by_name av (FileInfo.acodec (info w)) with
  | None => throw InvalidCodec
  | Some codec =>
      st <- new_stream codec ;;
      match st with
      | None => throw OutOfMemory
      | Some _ =>
          modify_codec st (AVCodecContext.set_codec_id (AVCodec.id codec)) ;;
          modify_codec st (AVCodecContext.set_codec_type AVMEDIA_TYPE_AUDIO) ;;
          modify_codec st (AVCodecContext.set_bit_rate (FileInfo.audio_bit_rate (info w))) ;;
          modify_codec st (AVCodecContext.set_channels (FileInfo.channels (info w))) ;;
          s <- stream_ptr st ;;
          when ((Fraction.den (AVCodecContext.time_base (AVStream.codec s)) =? 0)
                || (Fraction.num (AVCodecContext.time_base (AVStream.codec s)) =? 0))
            (modify_codec st (AVCodecContext.set_time_base
               (Fraction.mk (Fraction.num (AVStream.time_base s))
                            (Fraction.den (AVStream.time_base s))))) ;;
          match AVCodec.supported_samplerates codec with
          | Some arr =>
              match scan_array (FileInfo.sample_rate (info w)) arr with
              | Some true =>
                  modify_codec st (AVCodecContext.set_sample_rate (FileInfo.sample_rate (info w)))
              | Some false => throw InvalidSampleRate
              | None => undefined
              end
          | None =>
              modify_codec st (AVCodecContext.set_sample_rate (FileInfo.sample_rate (info w)))
          end ;;
          let channel_layout :=
            if FileInfo.channels (info w) =? 1 then AV_CH_LAYOUT_MONO else AV_CH_LAYOUT_STEREO in
          match AVCodec.channel_layouts codec with
          | Some arr =>
              match scan_array channel_layout arr with
              | Some true => modify_codec st (AVCodecContext.set_channel_layout channel_layout)
              | Some false => throw InvalidChannels
              | None => undefined
              end
          | None => modify_codec st (AVCodecContext.set_channel_layout channel_layout)
          end ;;
          match AVCodec.sample_fmts codec with
          | Some (f :: _) =>
              when (negb (sample_fmt_eqb f AV_SAMPLE_FMT_NONE))
                (modify_codec st (AVCodecContext.set_sample_fmt f))
          | Some [] => undefined
          | None => ret tt
          end ;;
          c <- stream_codec st ;;
          when (sample_fmt_eqb (AVCodecContext.sample_fmt c) AV_SAMPLE_FMT_NONE)
            (modify_codec st (AVCodecContext.set_sample_fmt AV_SAMPLE_FMT_S16)) ;;
          when (negb (Z.land (AVOutputFormat.flags (fmt w)) AVFMT_GLOBALHEADER =? 0))
            (modify_codec st (fun c =>
               AVCodecContext.set_flags
                 (Z.lor (AVCodecContext.flags c) CODEC_FLAG_GLOBAL_HEADER) c)) ;;
          ret st
      end
  end.

(** *** add_video_stream (lines 435-484) *)
Definition add_video_stream : M (option nat) :=
  w <- get ;;
  match avcodec_find_encoder_by_name av (FileInfo.vcodec (info w)) with
  | None => throw InvalidCodec
  | Some codec =>
      st <- new_stream codec ;;
      match st with
      | None => throw OutOfMemory
      | Some _ =>
          modify_codec st (AVCodecContext.set_codec_id (AVCodec.id codec)) ;;
          modify_codec st (AVCodecContext.set_codec_type AVMEDIA_TYPE_VIDEO) ;;
          modify_codec st (AVCodecContext.set_bit_rate (FileInfo.video_bit_rate (info w))) ;;
          modify_codec st (AVCodecContext.set_width (FileInfo.width (info w))) ;;
          modify_codec st (AVCodecContext.set_height (FileInfo.height (info w))) ;;
          modify_codec st (AVCodecContext.set_time_base
            (Fraction.mk (Fraction.num (FileInfo.video_timebase (info w)))
                         (Fraction.den (FileInfo.video_timebase (info w))))) ;;
          modify_codec st (AVCodecContext.set_gop_size 12) ;;
          modify_codec st (AVCodecContext.set_pix_fmt PIX_FMT_YUV420P) ;;
          c <- stream_codec st ;;
          when (codec_id_eqb (AVCodecContext.codec_id c) CODEC_ID_MPEG2VIDEO)
            (modify_codec st (AVCodecContext.set_max_b_frames 2)) ;;
          when (codec_id_eqb (AVCodecContext.codec_id c) CODEC_ID_MPEG1VIDEO)
            (modify_codec st (AVCodecContext.set_mb_decision 2)) ;;
          when (negb (Z.land (AVOutputFormat.flags (fmt w)) AVFMT_GLOBALHEADER =? 0))
            (modify_codec st (fun c =>
               AVCodecContext.set_flags
                 (Z.lor (AVCodecContext.flags c) CODEC_FLAG_GLOBAL_HEADER) c)) ;;
          ret st
      end
  end.

(** *** initialize_streams (lines 77-89) *)
Definition initialize_streams : M unit :=
  modify (set_video_st None) ;;
  modify (set_audio_st None) ;;
  w <- get ;;
  when (negb (codec_id_eqb (AVOutputFormat.video_codec (fmt w)) CODEC_ID_NONE)
        && FileInfo.has_video (info w))
    (st <- add_video_stream ;; modify (set_video_st st)) ;;
  w <- get ;;
  when (negb (codec_id_eqb (AVOutputFormat.audio_codec (fmt w)) CODEC_ID_NONE)
        && FileInfo.has_audio (info w))
    (st <- add_audio_stream ;; modify (set_audio_st st)).

(** *** open_audio (lines 487-536) and open_video (lines 539-554)

    [new int16_t[n]] leaves the cells of [samples] indeterminate; they are
    zeros here.  Starting from fill position 0, the loop never hands a cell
    to the encoder that it has not written first. *)
Definition is_pcm16 (id : CodecID) : bool :=
  match id with
  | CODEC_ID_PCM_S16LE | CODEC_ID_PCM_S16BE | CODEC_ID_PCM_U16LE | CODEC_ID_PCM_U16BE => true
  | _ => false
  end.

Definition open_codec (st : option nat) : M unit :=
  c <- stream_codec st ;;
  match avcodec_find_encoder av (AVCodecContext.codec_id c) with
  | None => throw InvalidCodec
  | Some codec =>
      log (EvOpenCodec (AVCodecContext.codec_id c)) ;;
      match avcodec_open2 av c codec with
      | None => throw InvalidCodec
      | Some c' => modify_codec st (fun _ => c')
      end
  end.

Definition open_audio (st : option nat) : M unit :=
  open_codec st ;;
  c <- stream_codec st ;;
  w <- get ;;
  (if AVCodecContext.frame_size c <=? 1 then
     (if FileInfo.channels (info w) =? 0 then undefined
      else modify (set_audio_input_frame_size (50000 ÷ FileInfo.channels (info w)))) ;;
     when (is_pcm16 (AVCodecContext.codec_id c))
       (modify (fun w => set_audio_input_frame_size (Z.shiftr (audio_input_frame_size w) 1) w))
   else
     modify (set_audio_input_frame_size
               (int_mul (AVCodecContext.frame_size c) (FileInfo.channels (info w))))) ;;
  modify (fun w => set_initial_audio_input_frame_size (audio_input_frame_size w) w) ;;
  modify (set_samples (replicate (AUDIO_BUFFER_SIZE av) 0)) ;;
  modify (set_audio_outbuf (replicate (AUDIO_BUFFER_SIZE av) 0)).

Definition open_video (st : option nat) : M unit := open_codec st.

(** *** PrepareStreams (lines 231-244) *)
Definition PrepareStreams : M unit :=
  w <- get ;;
  when (negb (FileInfo.has_audio (info w)) && negb (FileInfo.has_video (info w)))
    (throw InvalidOptions) ;;
  initialize_streams ;;
  w <- get ;;
  when (FileInfo.has_video (info w) && bool_decide (is_Some (video_st w)))
    (open_video (video_st w)) ;;
  w <- get ;;
  when (FileInfo.has_audio (info w) && bool_decide (is_Some (audio_st w)))
    (open_audio (audio_st w)).

(** *** SetOption (lines 178-228) *)

Definition is_named_option (name : string) : bool :=
  String.eqb name "g" || String.eqb name "qmin" || String.eqb name "qmax"
  || String.eqb name "max_b_frames" || String.eqb name "mb_decision".

(** [c] is a pointer to a codec context: the stream that holds it, or null.
    Taking [video_st->codec] already reads through [video_st]. *)
Definition SetOption (stream : Stream_Type) (name value : string) : M unit :=
  w <- get ;;
  c <- (if FileInfo.has_video (info w) && stream_type_eqb stream VIDEO_STREAM then
          stream_codec (video_st w) ;; ret (video_st w)
        else if FileInfo.has_audio (info w) && stream_type_eqb stream AUDIO_STREAM then
          stream_codec (audio_st w) ;; ret (audio_st w)
        else ret None) ;;
  found <- (match c with
             | Some _ =>
                 ctx <- stream_codec c ;;
                 ret (av_find_opt av (AVCodecContext.priv_data ctx) name)
             | None => ret false
             end) ;;
  if found || is_named_option name then
    if String.eqb name "g" then
      modify_codec c (fun ctx =>
        AVCodecContext.set_gop_size (stream_extract av value (AVCodecContext.gop_size ctx)) ctx)
    else if String.eqb name "qmin" then
      modify_codec c (fun ctx =>
        AVCodecContext.set_qmin (stream_extract av value (AVCodecContext.qmin ctx)) ctx)
    else if String.eqb name "qmax" then
      modify_codec c (fun ctx =>
        AVCodecContext.set_qmax (stream_extract av value (AVCodecContext.qmax ctx)) ctx)
    else if String.eqb name "max_b_frames" then
      modify_codec c (fun ctx =>
        AVCodecContext.set_max_b_frames
          (stream_extract av value (AVCodecContext.max_b_frames ctx)) ctx)
    else if String.eqb name "mb_decision" then
      modify_codec c (fun ctx =>
        AVCodecContext.set_mb_decision
          (stream_extract av value (AVCodecContext.mb_decision ctx)) ctx)
    else
      modify_codec c (fun ctx =>
        AVCodecContext.set_priv_data
          (av_set_string3 av (AVCodecContext.priv_data ctx) name value) ctx)
  else throw InvalidOptions.

(** *** write_audio_packet (lines 557-676) *)

(** [memcpy(samples + audio_input_position, frame_samples + samples_position,
    diff * av_get_bytes_per_sample(AV_SAMPLE_FMT_S16))]: [diff] 16-bit cells
    are overwritten in place.  A negative count (an enormous [size_t]) or a
    destination range that leaves the buffer is undefined. *)
Definition memcpy_samples (frame_samples : nat -> Z) (samples_position diff : Z) : M unit :=
  fun w =>
    let pos := audio_input_position w in
    if (diff <? 0) || (pos <? 0) || (samples_position <? 0)
       || (Z.of_nat (length (samples w)) <? pos + diff)
    then (w, Undefined)
    else
      (set_samples
         (take (Z.to_nat pos) (samples w)
          ++ map frame_samples (seq (Z.to_nat samples_position) (Z.to_nat diff))
          ++ drop (Z.to_nat (pos + diff)) (samples w)) w,
       Ok tt).

(** The loop of lines 618-670.  The encoder is handed the pointer
    [samples] and consumes one chunk of [audio_input_frame_size] 16-bit
    cells from it; that chunk is what the [EvEncodeAudio] event records. *)
Fixpoint audio_loop (fuel : nat) (frame : Frame.t) (frame_samples : nat -> Z)
    (samples_position remaining_frame_samples : Z) : M unit :=
  match fuel with
  | O => out_of_fuel
  | S fuel' =>
      if remaining_frame_samples >? 0 then
        w <- get ;;
        let remaining_packet_samples := audio_input_frame_size w - audio_input_position w in
        let diff :=
          if remaining_frame_samples >=? remaining_packet_samples then remaining_packet_samples
          else if remaining_frame_samples <? remaining_packet_samples then remaining_frame_samples
          else 0 in
        memcpy_samples frame_samples samples_position diff ;;
        modify (fun w => set_audio_input_position (audio_input_position w + diff) w) ;;
        let samples_position := samples_position + diff in
        let remaining_frame_samples := remaining_frame_samples - diff in
        w <- get ;;
        if audio_input_position w <? audio_input_frame_size w then ret tt
        else
          let pkt := av_init_packet in
          c <- stream_codec (audio_st w) ;;
          let chunk := take (Z.to_nat (audio_input_frame_size w)) (samples w) in
          let enc := avcodec_encode_audio av (events w) c chunk in
          log (EvEncodeAudio chunk) ;;
          modify (set_audio_outbuf (out_bytes enc)) ;;
          modify_codec (audio_st w) (AVCodecContext.set_coded_frame (out_coded_frame enc)) ;;
          let pkt := AVPacket.set_size (out_size enc) pkt in
          c <- stream_codec (audio_st w) ;;
          let pkt :=
            match AVCodecContext.coded_frame c with
            | Some cf =>
                if negb (AVFrame.pts cf =? AV_NOPTS_VALUE)
                then AVPacket.set_pts (AVFrame.pts cf) pkt else pkt
            | None => pkt
            end in
          let pkt := AVPacket.set_flags (Z.lor (AVPacket.flags pkt) AV_PKT_FLAG_KEY) pkt in
          st <- stream_ptr (audio_st w) ;;
          let pkt := AVPacket.set_stream_index (AVStream.index st) pkt in
          w <- get ;;
          let pkt := AVPacket.set_data (OutBuf (audio_outbuf w)) pkt in
          let averror := av_interleaved_write_frame av (events w) pkt in
          log (EvWriteFrame pkt) ;;
          if negb (averror =? 0) then throw (ErrorEncodingAudio (Frame.number frame))
          else
            modify (set_audio_input_position 0) ;;
            audio_loop fuel' frame frame_samples samples_position remaining_frame_samples
      else ret tt
  end.

(** Whether lines 588-616 run: the encoder's format is not S16, or the
    frame's channel count differs from the configured one. *)
Definition needs_conversion (c : AVCodecContext.t) (i : FileInfo.t) (frame : Frame.t) : bool :=
  negb (sample_fmt_eqb (AVCodecContext.sample_fmt c) AV_SAMPLE_FMT_S16)
  || negb (FileInfo.channels i =? Frame.GetAudioChannelsCount frame).

(** Lines 559-616: everything before the loop.  The result is the
    [frame_samples] buffer and [total_frame_samples] the loop starts from.

    [frame_samples] (line 574) and [converted_audio] (line 535) are arrays
    of [AVCODEC_MAX_AUDIO_FRAME_SIZE + FF_INPUT_BUFFER_PADDING_SIZE] 16-bit
    cells, the [AUDIO_BUFFER_SIZE] of the library.  The loop of lines
    582-584 stores [total_frame_samples] cells into the first: with more
    samples than cells it writes past the array, which is undefined.  The
    [memcpy] of line 611 copies [total_frame_samples] cells from the second
    over the first: a negative count (an enormous [size_t]), a count above
    the size of the arrays, or a byte count that overflows [int] is
    undefined.  A count of zero or below leaves the fill loop without an
    iteration. *)
Definition prepare_audio (frame : Frame.t) : M ((nat -> Z) * Z) :=
  w <- get ;;
  c <- stream_codec (audio_st w) ;;
  when (negb (resampler w)) (modify (set_resampler true)) ;;
  let sample_rate_in_frame := FileInfo.sample_rate (info w) in
  let samples_in_frame := Frame.samples_in_frame frame in
  let channels_in_frame := Frame.GetAudioChannelsCount frame in
  let frame_samples := Frame.samples16 frame in
  let total_frame_samples := int_mul samples_in_frame channels_in_frame in
  if Z.of_nat (AUDIO_BUFFER_SIZE av) <? total_frame_samples then undefined
  else if needs_conversion c (info w) frame then
    if av_audio_resample_init av
         (FileInfo.channels (info w)) channels_in_frame
         (FileInfo.sample_rate (info w)) sample_rate_in_frame
         (AVCodecContext.sample_fmt c) AV_SAMPLE_FMT_S16
    then
      let converted_audio := audio_resample av frame_samples total_frame_samples in
      log (EvResample total_frame_samples) ;;
      let ratio :=
        av_get_bytes_per_sample (AVCodecContext.sample_fmt c)
        ÷ av_get_bytes_per_sample AV_SAMPLE_FMT_S16 in
      let total_frame_samples := int_mul total_frame_samples ratio in
      modify (fun w =>
        set_audio_input_frame_size (int_mul (initial_audio_input_frame_size w) ratio) w) ;;
      if (total_frame_samples <? 0)
         || (Z.of_nat (AUDIO_BUFFER_SIZE av) <? total_frame_samples)
         || (INT_MAX <? total_frame_samples * av_get_bytes_per_sample AV_SAMPLE_FMT_S16)
      then undefined
      else
        ret (fun s => if (Z.of_nat s <? total_frame_samples) then converted_audio s
                      else frame_samples s,
             total_frame_samples)
    else throw ResampleError
  else ret (frame_samples, total_frame_samples).

Definition write_audio_packet (fuel : nat) (frame : Frame.t) : M unit :=
  prepared <- prepare_audio frame ;;
  audio_loop fuel frame (fst prepared) 0 (snd prepared).

(** *** allocate_avframe (lines 679-699) and write_video_packet (lines 702-805) *)

(** [new uint8_t[*buffer_size]] (line 692) with the negative size that
    avpicture_get_size returns for dimensions it refuses: the size converts
    to an enormous [size_t] and the allocation throws std::bad_alloc, which
    nothing in the writer catches. *)
Definition allocate_avframe (pix_fmt : PixelFormat) (width height : Z) : M (AVPicture.t * Z) :=
  w <- get ;;
  if avcodec_alloc_frame av (events w) then
    let buffer_size := avpicture_get_size av pix_fmt width height in
    if buffer_size <? 0 then throw BadAlloc
    else
      ret (AVPicture.mk pix_fmt width height (replicate (Z.to_nat buffer_size) 0), buffer_size)
  else throw OutOfMemory.

(** A colour channel stored into a [uint8_t] cell (lines 721-723): the
    value modulo 256. *)
Definition to_uint8 (channel : Z) : Z := channel mod 256.

Definition rgb_bytes (px : PixelPacket.t) : list Z :=
  [to_uint8 (PixelPacket.red px); to_uint8 (PixelPacket.green px);
   to_uint8 (PixelPacket.blue px)].

(** The loop of lines 718-724: one pixel per three bytes of the source
    buffer.  Reading past the pixel array or writing past the buffer is
    undefined. *)
Definition fill_rgb (pixels : list PixelPacket.t) (bytes_source : Z) (p : AVPicture.t)
    : M AVPicture.t :=
  let n := Z.to_nat ((bytes_source + 2) ÷ 3) in
  if (length pixels <? n)%nat || (bytes_source <? 3 * Z.of_nat n) then undefined
  else
    ret (AVPicture.mk (AVPicture.pix_fmt p) (AVPicture.width p) (AVPicture.height p)
           (flat_map rgb_bytes (take n pixels))).

Definition write_video_packet (frame : Frame.t) : M unit :=
  w <- get ;;
  c <- stream_codec (video_st w) ;;
  src <- allocate_avframe PIX_FMT_RGB24 (Frame.GetWidth frame) (Frame.GetHeight frame) ;;
  final <- allocate_avframe (AVCodecContext.pix_fmt c)
             (FileInfo.width (info w)) (FileInfo.height (info w)) ;;
  let bytes_source := snd src in
  frame_source <- fill_rgb (Frame.GetPixels frame) bytes_source (fst src) ;;
  if sws_getContext av (Frame.GetWidth frame) (Frame.GetHeight frame) PIX_FMT_RGB24
       (FileInfo.width (info w)) (FileInfo.height (info w)) (AVCodecContext.pix_fmt c)
  then
    let frame_final :=
      sws_scale av frame_source (AVCodecContext.pix_fmt c)
        (FileInfo.width (info w)) (FileInfo.height (info w)) in
    log (EvScale frame_source) ;;
    if negb (Z.land (AVOutputFormat.flags (fmt w)) AVFMT_RAWPICTURE =? 0) then
      let pkt := av_init_packet in
      let pkt := AVPacket.set_flags (Z.lor (AVPacket.flags pkt) AV_PKT_FLAG_KEY) pkt in
      st <- stream_ptr (video_st w) ;;
      let pkt := AVPacket.set_stream_index (AVStream.index st) pkt in
      let pkt := AVPacket.set_data (RawPicture frame_final) pkt in
      let pkt := AVPacket.set_size (sizeof_AVPicture av) pkt in
      w <- get ;;
      let averror := av_interleaved_write_frame av (events w) pkt in
      log (EvWriteFrame pkt) ;;
      when (negb (averror =? 0)) (throw (ErrorEncodingVideo (Frame.number frame)))
    else
      w <- get ;;
      let enc := avcodec_encode_video av (events w) c frame_final in
      log (EvEncodeVideo frame_final) ;;
      modify_codec (video_st w) (AVCodecContext.set_coded_frame (out_coded_frame enc)) ;;
      let out_size := out_size enc in
      when (out_size >? 0)
        (let pkt := av_init_packet in
         c <- stream_codec (video_st w) ;;
         match AVCodecContext.coded_frame c with
         | None => undefined
         | Some cf =>
             let pkt :=
               if negb (AVFrame.pts cf =? AV_NOPTS_VALUE)
               then AVPacket.set_pts (AVFrame.pts cf) pkt else pkt in
             let pkt :=
               if negb (AVFrame.key_frame cf =? 0)
               then AVPacket.set_flags (Z.lor (AVPacket.flags pkt) AV_PKT_FLAG_KEY) pkt
               else pkt in
             st <- stream_ptr (video_st w) ;;
             let pkt := AVPacket.set_stream_index (AVStream.index st) pkt in
             let pkt := AVPacket.set_data (OutBuf (out_bytes enc)) pkt in
             let pkt := AVPacket.set_size out_size pkt in
             w <- get ;;
             let averror := av_interleaved_write_frame av (events w) pkt in
             log (EvWriteFrame pkt) ;;
             when (negb (averror =? 0)) (throw (ErrorEncodingVideo (Frame.number frame)))
         end)
  else throw OutOfMemory.

(** *** WriteFrame, single frame (lines 264-272) and range (lines 275-286) *)

Definition WriteFrame (fuel : nat) (frame : Frame.t) : M unit :=
  w <- get ;;
  when (FileInfo.has_video (info w) && bool_decide (is_Some (video_st w)))
    (write_video_packet frame) ;;
  w <- get ;;
  when (FileInfo.has_audio (info w) && bool_decide (is_Some (audio_st w)))
    (write_audio_packet fuel frame).

(** [for (int number = start; number <= length; number++)]; [fuel] bounds
    the iterations of this loop, [audio_fuel] those of the audio loop inside
    each [WriteFrame]. *)
Fixpoint WriteFrame_loop (fuel audio_fuel : nat) (reader : Z -> Frame.t) (number length : Z)
    : M unit :=
  match fuel with
  | O => out_of_fuel
  | S fuel' =>
      if number <=? length then
        log (EvGetFrame number) ;;
        let f := reader number in
        WriteFrame audio_fuel f ;;
        WriteFrame_loop fuel' audio_fuel reader (int_succ number) length
      else ret tt
  end.

Definition WriteFrame_range (fuel audio_fuel : nat) (reader : Z -> Frame.t) (start length : Z)
    : M unit :=
  WriteFrame_loop fuel audio_fuel reader start length.

End Writer.

(** ** Observations on a run *)

(** The chunks handed to the audio encoder, oldest first. *)
Definition encoded_chunks (evs : list Event) : list (list Z) :=
  flat_map (fun e => match e with EvEncodeAudio chunk => [chunk] | _ => [] end) evs.

(** The packets written into the container, oldest first. *)
Definition written_packets (evs : list Event) : list AVPacket.t :=
  flat_map (fun e => match e with EvWriteFrame pkt => [pkt] | _ => [] end) evs.

(** The frame numbers requested from the reader, oldest first. *)
Definition pulled_frames (evs : list Event) : list Z :=
  flat_map (fun e => match e with EvGetFrame n => [n] | _ => [] end) evs.

(** Calls that only the video path makes: the pixel converter and the video
    encoder. *)
Definition is_video_work (e : Event) : bool :=
  match e with
  | EvScale _ | EvEncodeVideo _ => true
  | EvWriteFrame pkt => match AVPacket.data pkt with RawPicture _ => true | OutBuf _ => false end
  | _ => false
  end.

Definition key_flagged (pkt : AVPacket.t) : bool :=
  negb (Z.land (AVPacket.flags pkt) AV_PKT_FLAG_KEY =? 0).

(** The entries of a zero-terminated array: what precedes the sentinel. *)
Fixpoint entries (arr : list Z) : list Z :=
  match arr with
  | [] => []
  | x :: rest => if x =? 0 then [] else x :: entries rest
  end.

(** The codec context behind [audio_st], when the pointer is valid. *)
Definition audio_codec (w : FFmpegWriter) : option AVCodecContext.t :=
  i ← audio_st w; s ← oc_streams w !! i; Some (AVStream.codec s).

Definition video_codec (w : FFmpegWriter) : option AVCodecContext.t :=
  i ← video_st w; s ← oc_streams w !! i; Some (AVStream.codec s).

(** The byte-width ratio of lines 604-605 for the audio encoder's format. *)
Definition width_ratio (w : FFmpegWriter) : Z :=
  match audio_codec w with
  | Some c =>
      av_get_bytes_per_sample (AVCodecContext.sample_fmt c)
      ÷ av_get_bytes_per_sample AV_SAMPLE_FMT_S16
  | None => 0
  end.

(** The chunk size write_audio_packet settles on for this writer. *)
Definition target_chunk_size (w : FFmpegWriter) : Z :=
  int_mul (initial_audio_input_frame_size w) (width_ratio w).

(** The number of interleaved samples a frame carries: its per-channel
    sample count times its channel count, in [int] arithmetic. *)
Definition frame_sample_count (frame : Frame.t) : Z :=
  int_mul (Frame.samples_in_frame frame) (Frame.GetAudioChannelsCount frame).

(** Whether a frame has to go through the converter for this writer. *)
Definition converts (w : FFmpegWriter) (frame : Frame.t) : bool :=
  match audio_codec w with
  | Some c => needs_conversion c (info w) frame
  | None => false
  end.

(** The number of 16-bit cells a frame's audio takes once converted for
    this writer's encoder. *)
Definition converted_sample_count (w : FFmpegWriter) (frame : Frame.t) : Z :=
  int_mul (frame_sample_count frame) (width_ratio w).

(** The samples a frame submits for encoding, read off the frame and the
    library alone: the frame's own 16-bit samples when no conversion is
    needed, and otherwise the converter's output for them, as many 16-bit
    cells as the converted audio takes. *)
Definition submitted (av : LibAV) (w : FFmpegWriter) (frame : Frame.t) : list Z :=
  if converts w frame then
    map (audio_resample av (Frame.samples16 frame) (frame_sample_count frame))
      (seq 0 (Z.to_nat (converted_sample_count w frame)))
  else map (Frame.samples16 frame) (seq 0 (Z.to_nat (frame_sample_count frame))).

(** A frame's audio fits the fixed conversion arrays of the writer: its
    samples are no more than the cells of [frame_samples] and, when the
    frame is converted, the converted audio takes a number of cells that is
    not negative, no more than the arrays hold, and whose byte count is an
    [int]. *)
Definition frame_fits (av : LibAV) (w : FFmpegWriter) (frame : Frame.t) : bool :=
  (frame_sample_count frame <=? Z.of_nat (AUDIO_BUFFER_SIZE av))
  && (negb (converts w frame)
      || ((0 <=? converted_sample_count w frame)
          && (converted_sample_count w frame <=? Z.of_nat (AUDIO_BUFFER_SIZE av))
          && (converted_sample_count w frame * av_get_bytes_per_sample AV_SAMPLE_FMT_S16
              <=? INT_MAX))).

(** A sequence of calls; a call is made only if the previous one returned. *)
Fixpoint write_audio_packets (av : LibAV) (fuel : nat) (frames : list Frame.t) : M unit :=
  match frames with
  | [] => ret tt
  | f :: rest => write_audio_packet av fuel f ;; write_audio_packets av fuel rest
  end.

(** A caller that keeps calling WriteFrame whatever the previous call did. *)
Definition WriteFrames (av : LibAV) (fuel : nat) (frames : list Frame.t) (w : FFmpegWriter)
    : FFmpegWriter :=
  fold_left (fun w f => fst (WriteFrame av fuel f w)) frames w.

(** The state the accumulator is in between calls. *)
Definition accumulator_ready (w : FFmpegWriter) : Prop :=
  is_Some (audio_codec w)
  /\ 0 < target_chunk_size w <= Z.of_nat (length (samples w))
  /\ 0 <= audio_input_position w < audio_input_frame_size w
  /\ (audio_input_frame_size w = target_chunk_size w
      \/ (width_ratio w <> 1 /\ audio_input_position w = 0)).

Definition writes_succeed (av : LibAV) : Prop :=
  forall history pkt, av_interleaved_write_frame av history pkt = 0.

Definition resampler_available (av : LibAV) : Prop :=
  forall a b c d e f, av_audio_resample_init av a b c d e f = true.

Definition stream_disabled (w : FFmpegWriter) (stream : Stream_Type) : Prop :=
  match stream with
  | VIDEO_STREAM => FileInfo.has_video (info w) = false
  | AUDIO_STREAM => FileInfo.has_audio (info w) = false
  end.

(** ** A small concrete library and writer, for running the model *)

Definition demo_context : AVCodecContext.t :=
  AVCodecContext.mk CODEC_ID_NONE AVMEDIA_TYPE_UNKNOWN 0 0 (Fraction.mk 0 0) 0 0
    AV_SAMPLE_FMT_NONE 0 0 0 0 PIX_FMT_NONE 0 0 0 0 0 None [].

Definition demo_mp3 : AVCodec.t :=
  AVCodec.mk "libmp3lame" (CODEC_ID_OTHER 1) (Some [44100; 48000; 32000; 0]) None
    (Some [AV_SAMPLE_FMT_S16; AV_SAMPLE_FMT_NONE]).
Definition demo_pcm : AVCodec.t :=
  AVCodec.mk "pcm_s16le" CODEC_ID_PCM_S16LE None None None.
Definition demo_mpeg4 : AVCodec.t :=
  AVCodec.mk "mpeg4" (CODEC_ID_OTHER 2) None None None.

Definition demo_av : LibAV := {|
  avcodec_find_encoder_by_name := fun n =>
    if String.eqb n "libmp3lame" then Some demo_mp3
    else if String.eqb n "pcm_s16le" then Some demo_pcm
    else if String.eqb n "mpeg4" then Some demo_mpeg4
    else None;
  avcodec_find_encoder := fun id =>
    if codec_id_eqb id (CODEC_ID_OTHER 1) then Some demo_mp3
    else if codec_id_eqb id CODEC_ID_PCM_S16LE then Some demo_pcm
    else if codec_id_eqb id (CODEC_ID_OTHER 2) then Some demo_mpeg4
    else None;
  avformat_new_stream := fun _ _ => Some (Fraction.mk 1 90000, demo_context);
  avcodec_open2 := fun c codec =>
    Some (let 'AVCodecContext.mk a1 a2 a3 a4 a5 a6 a7 a8 a9 a10 a11 a12 a13 a14 a15 a16 a17 _ a19 a20 := c in
          AVCodecContext.mk a1 a2 a3 a4 a5 a6 a7 a8 a9 a10 a11 a12 a13 a14 a15 a16 a17 2 a19 a20);
  av_find_opt := fun _ _ => false;
  av_set_string3 := fun p n v => (n, v) :: p;
  stream_extract := fun _ old => old;
  av_audio_resample_init := fun _ _ _ _ _ _ => true;
  audio_resample := fun src _ => src;
  avcodec_encode_audio := fun _ _ chunk => mkEncoderOutput 1 [0] None;
  avcodec_encode_video := fun _ _ _ => mkEncoderOutput 1 [0] (Some (AVFrame.mk 0 1));
  avpicture_get_size := fun _ w h => 3 * w * h;
  sws_getContext := fun _ _ _ _ _ _ => true;
  sws_scale := fun p f w h => AVPicture.mk f w h [];
  av_interleaved_write_frame := fun _ _ => 0;
  avcodec_alloc_frame := fun _ => true;
  sizeof_AVPicture := 64;
  AUDIO_BUFFER_SIZE := 16
|}.

Definition demo_info : FileInfo.t :=
  FileInfo.mk true true "mpeg4" "libmp3lame" (Fraction.mk 30 1) (Fraction.mk 1 30) 640 480
    (Fraction.mk 1 1) (Fraction.mk 4 3) 400000 true true 44100 2 128000.

Definition demo_writer : FFmpegWriter :=
  mkWriter demo_info (AVOutputFormat.mk (CODEC_ID_OTHER 2) (CODEC_ID_OTHER 1) 0)
    [] None None [] [] 0 0 0 false [].

(** The same writer with audio only. *)
Definition demo_audio_only : FFmpegWriter :=
  set_info (FileInfo.set_has_video false demo_info) demo_writer.

(** Audio only, in a container format that names no audio codec. *)
Definition demo_no_audio_codec : FFmpegWriter :=
  set_fmt (AVOutputFormat.mk (CODEC_ID_OTHER 2) CODEC_ID_NONE 0) demo_audio_only.

(** A writer whose audio stream is open: S16 encoder, chunks of 4 samples,
    an empty accumulator of capacity 16. *)
Definition demo_opened : FFmpegWriter :=
  mkWriter (FileInfo.set_has_video false demo_info)
    (AVOutputFormat.mk (CODEC_ID_OTHER 2) (CODEC_ID_OTHER 1) 0)
    [AVStream.mk 0 (Fraction.mk 1 90000)
       (AVCodecContext.set_sample_fmt AV_SAMPLE_FMT_S16 demo_context)]
    (Some 0%nat) None (replicate 16 0) [] 4 0 4 true [].


(** A stereo frame of [n] samples per channel whose cell [s] holds [s + 1]. *)
Definition demo_frame (n : Z) : Frame.t :=
  Frame.mk 1 2 1 [PixelPacket.mk 1 2 3; PixelPacket.mk 4 5 6] 2 n (fun s => Z.of_nat s + 1).

(** The demo library with a container that refuses every packet. *)
Definition demo_av_failing : LibAV :=
  let 'mkLibAV a1 a2 a3 a4 a5 a6 a7 a8 a9 a10 a11 a12 a13 a14 _ a16 a17 a18 := demo_av in
  mkLibAV a1 a2 a3 a4 a5 a6 a7 a8 a9 a10 a11 a12 a13 a14 (fun _ _ => -1) a16 a17 a18.

(** [keeps P m]: running [m] from a state in [P] ends in a state in [P],
    however the run ends. *)
Definition keeps {A} (P : FFmpegWriter -> Prop) (m : M A) : Prop :=
  forall w, P w -> P (fst (m w)).

(** The stream at position [n] holds sample rate [v]. *)
Definition stream_rate_is (n : nat) (v : Z) (w : FFmpegWriter) : Prop :=
  (fun s => AVCodecContext.sample_rate (AVStream.codec s)) <$> oc_streams w !! n = Some v.

(** The calls write_audio_packet makes into the library: the resampler, the
    audio encoder, and container writes of key-flagged packets whose payload
    is the encoder's output buffer. *)
Definition is_audio_event (e : Event) : Prop :=
  match e with
  | EvResample _ | EvEncodeAudio _ => True
  | EvWriteFrame pkt => key_flagged pkt = true /\ exists bytes, AVPacket.data pkt = OutBuf bytes
  | _ => False
  end.

(** A state predicate that none of the assignments of the accumulation
    loop can break. *)
Record loop_stable (P : FFmpegWriter -> Prop) : Prop := mk_loop_stable {
  stable_events : forall w e, is_audio_event e -> P w -> P (set_events (events w ++ [e]) w);
  stable_samples : forall w v, length v = length (samples w) -> P w -> P (set_samples v w);
  stable_position : forall w v, P w -> P (set_audio_input_position v w);
  stable_outbuf : forall w v, P w -> P (set_audio_outbuf v w);
  stable_coded_frame : forall w i s cf,
    oc_streams w !! i = Some s -> P w ->
    P (set_oc_streams
         (<[i := AVStream.set_codec (AVCodecContext.set_coded_frame cf (AVStream.codec s)) s]>
            (oc_streams w)) w)
}.

(** ... nor those of the rest of write_audio_packet. *)
Record audio_stable (P : FFmpegWriter -> Prop) : Prop := mk_audio_stable {
  stable_loop : loop_stable P;
  stable_resampler : forall w v, P w -> P (set_resampler v w);
  stable_frame_size : forall w v, P w -> P (set_audio_input_frame_size v w)
}.

(** [w] is [w0] with more calls logged, all of them audio calls. *)
Definition audio_events_added (w0 w : FFmpegWriter) : Prop :=
  exists added, events w = events w0 ++ added /\ Forall is_audio_event added.

(** [w] has the configuration of [w0]: same options, same stream pointers,
    same initial chunk size, same accumulator capacity, and an audio encoder
    of the same sample format. *)
Definition same_config (w0 w : FFmpegWriter) : Prop :=
  info w = info w0
  /\ fmt w = fmt w0
  /\ audio_st w = audio_st w0
  /\ video_st w = video_st w0
  /\ initial_audio_input_frame_size w = initial_audio_input_frame_size w0
  /\ length (samples w) = length (samples w0)
  /\ length (oc_streams w) = length (oc_streams w0)
  /\ (AVCodecContext.sample_fmt <$> audio_codec w) = (AVCodecContext.sample_fmt <$> audio_codec w0).

(** A state predicate that no assignment to a stream's codec context and
    none of the assignments of open_audio can break. *)
Record codec_stable (P : FFmpegWriter -> Prop) : Prop := mk_codec_stable {
  stable_codec : forall w i s c,
    oc_streams w !! i = Some s -> P w ->
    P (set_oc_streams (<[i := AVStream.set_codec c s]> (oc_streams w)) w);
  stable_open_event : forall w id, P w -> P (set_events (events w ++ [EvOpenCodec id]) w);
  stable_open_frame_size : forall w v, P w -> P (set_audio_input_frame_size v w);
  stable_open_initial : forall w v, P w -> P (set_initial_audio_input_frame_size v w);
  stable_open_samples : forall w v, P w -> P (set_samples v w);
  stable_open_outbuf : forall w v, P w -> P (set_audio_outbuf v w)
}.

(** [returns R m]: whenever [m] returns normally, its value is in [R]. *)
Definition returns {A} (R : A -> Prop) (m : M A) : Prop :=
  forall w w' a, m w = (w', Ok a) -> R a.

(** The state right after [avformat_new_stream] succeeded. *)
Definition with_new_stream (codec : AVCodec.t) (tb : Fraction.t) (c : AVCodecContext.t)
    (w : FFmpegWriter) : FFmpegWriter :=
  set_events (events w ++ [EvNewStream codec])
    (set_oc_streams
       (oc_streams w ++ [AVStream.mk (Z.of_nat (length (oc_streams w))) tb c]) w).

(** What PrepareStreams may touch when video is disabled: the video stream
    pointer is null, options and container format are those of [w0]. *)
Definition video_untouched (w0 w : FFmpegWriter) : Prop :=
  video_st w = None /\ info w = info w0 /\ fmt w = fmt w0.

(** ** Closed forms of the option setters

    What a SetVideoOptions call that gets past the codec lookup leaves in
    the option store and in the container format, written as one record
    per structure. *)

Definition video_options_info (new_codec : option AVCodec.t) (has_video : bool)
    (fps : Fraction.t) (width height : Z) (pixel_ratio : Fraction.t)
    (interlaced top_field_first : bool) (bit_rate : Z) (i : FileInfo.t) : FileInfo.t :=
  let fps' :=
    if Fraction.num fps >? 0 then Fraction.mk (Fraction.num fps) (Fraction.den fps)
    else FileInfo.fps i in
  let width' := if width >=? 1 then width else FileInfo.width i in
  let height' := if height >=? 1 then height else FileInfo.height i in
  let pixel_ratio' :=
    if Fraction.num pixel_ratio >? 0
    then Fraction.mk (Fraction.num pixel_ratio) (Fraction.den pixel_ratio)
    else FileInfo.pixel_ratio i in
  let size :=
    Reduce (Fraction.mk (int_mul width' (Fraction.num pixel_ratio'))
                        (int_mul height' (Fraction.den pixel_ratio'))) in
  FileInfo.mk has_video (FileInfo.has_audio i)
    (match new_codec with Some c => AVCodec.name c | None => FileInfo.vcodec i end)
    (FileInfo.acodec i)
    fps'
    (if Fraction.num fps >? 0 then Fraction.mk (Fraction.den fps) (Fraction.num fps)
     else FileInfo.video_timebase i)
    width' height' pixel_ratio'
    (Fraction.mk (Fraction.num size) (Fraction.den size))
    (if bit_rate >=? 1000 then bit_rate else FileInfo.video_bit_rate i)
    interlaced top_field_first
    (FileInfo.sample_rate i) (FileInfo.channels i) (FileInfo.audio_bit_rate i).

Definition audio_options_info (new_codec : option AVCodec.t) (has_audio : bool)
    (sample_rate channels bit_rate : Z) (i : FileInfo.t) : FileInfo.t :=
  FileInfo.mk (FileInfo.has_video i) has_audio (FileInfo.vcodec i)
    (match new_codec with Some c => AVCodec.name c | None => FileInfo.acodec i end)
    (FileInfo.fps i) (FileInfo.video_timebase i) (FileInfo.width i) (FileInfo.height i)
    (FileInfo.pixel_ratio i) (FileInfo.display_ratio i) (FileInfo.video_bit_rate i)
    (FileInfo.interlaced_frame i) (FileInfo.top_field_first i)
    (if sample_rate >? 7999 then sample_rate else FileInfo.sample_rate i)
    (if channels >? 0 then channels else FileInfo.channels i)
    (if bit_rate >? 999 then bit_rate else FileInfo.audio_bit_rate i).

(** The encoder a Set...Options call resolves: none for an empty name. *)
Definition resolved_codec (av : LibAV) (codec : string) : option AVCodec.t :=
  if (0 <? String.length codec)%nat then avcodec_find_encoder_by_name av codec else None.

(** The codec name is accepted: empty, or known to the library. *)
Definition codec_accepted (av : LibAV) (codec : string) : Prop :=
  (0 <? String.length codec)%nat = true -> is_Some (avcodec_find_encoder_by_name av codec).

(** The stored time base is the reciprocal of the stored frame rate. *)
Definition timebase_reciprocal (i : FileInfo.t) : Prop :=
  Fraction.num (FileInfo.video_timebase i) = Fraction.den (FileInfo.fps i)
  /\ Fraction.den (FileInfo.video_timebase i) = Fraction.num (FileInfo.fps i).

(** ** Closed forms of the stream builders *)

(** The channel layout add_audio_stream derives from the channel count:
    mono for one channel, stereo for every other count. *)
Definition mapped_layout (channels : Z) : Z :=
  if channels =? 1 then AV_CH_LAYOUT_MONO else AV_CH_LAYOUT_STEREO.

(** A capability array lets the wanted value through: the encoder has no
    such array, or the scan of the array stops on a match. *)
Definition array_accepts (arr : option (list Z)) (wanted : Z) : Prop :=
  match arr with
  | None => True
  | Some l => scan_array wanted l = Some true
  end.

(** The codec context add_audio_stream leaves in the new stream when it
    returns, from the context [c0] and time base [tb] the stream was
    allocated with. *)
Definition configured_audio_context (codec : AVCodec.t) (i : FileInfo.t)
    (f : AVOutputFormat.t) (tb : Fraction.t) (c0 : AVCodecContext.t) : AVCodecContext.t :=
  let c :=
    AVCodecContext.set_channels (FileInfo.channels i)
      (AVCodecContext.set_bit_rate (FileInfo.audio_bit_rate i)
         (AVCodecContext.set_codec_type AVMEDIA_TYPE_AUDIO
            (AVCodecContext.set_codec_id (AVCodec.id codec) c0))) in
  let c :=
    if (Fraction.den (AVCodecContext.time_base c) =? 0)
       || (Fraction.num (AVCodecContext.time_base c) =? 0)
    then AVCodecContext.set_time_base (Fraction.mk (Fraction.num tb) (Fraction.den tb)) c
    else c in
  let c := AVCodecContext.set_sample_rate (FileInfo.sample_rate i) c in
  let c := AVCodecContext.set_channel_layout (mapped_layout (FileInfo.channels i)) c in
  let c :=
    match AVCodec.sample_fmts codec with
    | Some (first :: _) =>
        if negb (sample_fmt_eqb first AV_SAMPLE_FMT_NONE)
        then AVCodecContext.set_sample_fmt first c else c
    | _ => c
    end in
  let c :=
    if sample_fmt_eqb (AVCodecContext.sample_fmt c) AV_SAMPLE_FMT_NONE
    then AVCodecContext.set_sample_fmt AV_SAMPLE_FMT_S16 c else c in
  if negb (Z.land (AVOutputFormat.flags f) AVFMT_GLOBALHEADER =? 0)
  then AVCodecContext.set_flags (Z.lor (AVCodecContext.flags c) CODEC_FLAG_GLOBAL_HEADER) c
  else c.

(** The same for add_video_stream. *)
Definition configured_video_context (codec : AVCodec.t) (i : FileInfo.t)
    (f : AVOutputFormat.t) (c0 : AVCodecContext.t) : AVCodecContext.t :=
  let c :=
    AVCodecContext.set_pix_fmt PIX_FMT_YUV420P
      (AVCodecContext.set_gop_size 12
         (AVCodecContext.set_time_base
            (Fraction.mk (Fraction.num (FileInfo.video_timebase i))
                         (Fraction.den (FileInfo.video_timebase i)))
            (AVCodecContext.set_height (FileInfo.height i)
               (AVCodecContext.set_width (FileInfo.width i)
                  (AVCodecContext.set_bit_rate (FileInfo.video_bit_rate i)
                     (AVCodecContext.set_codec_type AVMEDIA_TYPE_VIDEO
                        (AVCodecContext.set_codec_id (AVCodec.id codec) c0))))))) in
  let c :=
    if codec_id_eqb (AVCodec.id codec) CODEC_ID_MPEG2VIDEO
    then AVCodecContext.set_max_b_frames 2 c else c in
  let c :=
    if codec_id_eqb (AVCodec.id codec) CODEC_ID_MPEG1VIDEO
    then AVCodecContext.set_mb_decision 2 c else c in
  if negb (Z.land (AVOutputFormat.flags f) AVFMT_GLOBALHEADER =? 0)
  then AVCodecContext.set_flags (Z.lor (AVCodecContext.flags c) CODEC_FLAG_GLOBAL_HEADER) c
  else c.

(** [triple P m Q E]: run from a state in [P], [m] stays within its
    budget; when it returns [a] the final state is in [Q a], and when it
    throws [e] the final state is in [E e].  Nothing is said of a run that
    reaches undefined behaviour. *)
Definition triple {A} (P : FFmpegWriter -> Prop) (m : M A)
    (Q : A -> FFmpegWriter -> Prop) (E : Exception -> FFmpegWriter -> Prop) : Prop :=
  forall w, P w ->
    match m w with
    | (w', Ok a) => Q a w'
    | (w', Throw e) => E e w'
    | (_, Undefined) => True
    | (_, OutOfFuel) => False
    end.

(** ** What PrepareStreams does to the container *)

(** Whether initialize_streams adds a stream of each kind: the kind is
    enabled and the container format names a default codec for it. *)
Definition wants_video (w : FFmpegWriter) : bool :=
  negb (codec_id_eqb (AVOutputFormat.video_codec (fmt w)) CODEC_ID_NONE)
  && FileInfo.has_video (info w).

Definition wants_audio (w : FFmpegWriter) : bool :=
  negb (codec_id_eqb (AVOutputFormat.audio_codec (fmt w)) CODEC_ID_NONE)
  && FileInfo.has_audio (info w).

(** What is kept of the writer [w0] a call started from: the options, the
    container format, and the streams already in the container, unchanged
    and in front of any new one. *)
Definition streams_kept (w0 w : FFmpegWriter) : Prop :=
  info w = info w0 /\ fmt w = fmt w0
  /\ take (length (oc_streams w0)) (oc_streams w) = oc_streams w0.

(** The stream pointers of [w] are null or point to streams that were not
    in [w0], and not both to the same one; at most two streams are new. *)
Definition fresh_streams (w0 w : FFmpegWriter) : Prop :=
  let n := length (oc_streams w0) in
  (n <= length (oc_streams w) <= n + 2)%nat
  /\ (forall i, video_st w = Some i -> (n <= i < length (oc_streams w))%nat)
  /\ (forall j, audio_st w = Some j -> (n <= j < length (oc_streams w))%nat)
  /\ (forall i j, video_st w = Some i -> audio_st w = Some j -> i <> j).

(** The exceptions of the two stream builders and of the codec openers. *)
Definition stream_exception (e : Exception) : Prop :=
  e = InvalidCodec \/ e = OutOfMemory \/ e = InvalidSampleRate \/ e = InvalidChannels.

(** An encoder whose only channel layout is mono, and the demo library
    resolving the configured audio codec name to it. *)
Definition demo_mono_codec : AVCodec.t :=
  AVCodec.mk "libmp3lame" (CODEC_ID_OTHER 1) None (Some [AV_CH_LAYOUT_MONO; 0])
    (Some [AV_SAMPLE_FMT_S16; AV_SAMPLE_FMT_NONE]).

Definition demo_av_mono : LibAV :=
  let 'mkLibAV _ a2 a3 a4 a5 a6 a7 a8 a9 a10 a11 a12 a13 a14 a15 a16 a17 a18 := demo_av in
  mkLibAV (fun _ => Some demo_mono_codec) a2 a3 a4 a5 a6 a7 a8 a9 a10 a11 a12 a13 a14 a15 a16
    a17 a18.

(** How the check of a requested value against a capability array ends. *)
Inductive ArrayCheck := Accepted | Rejected | Malformed.

Definition check_array (arr : option (list Z)) (wanted : Z) : ArrayCheck :=
  match arr with
  | None => Accepted
  | Some l =>
      match scan_array wanted l with
      | Some true => Accepted
      | Some false => Rejected
      | None => Malformed
      end
  end.

(** What a PrepareStreams call that returns leaves behind: one new stream
    per wanted kind, the video stream first, each pointer on its stream. *)
Definition prepared (w0 w : FFmpegWriter) : Prop :=
  let n := length (oc_streams w0) in
  streams_kept w0 w
  /\ video_st w = (if wants_video w0 then Some n else None)
  /\ audio_st w
     = (if wants_audio w0 then Some (n + Nat.b2n (wants_video w0))%nat else None)
  /\ length (oc_streams w)
     = (n + Nat.b2n (wants_video w0) + Nat.b2n (wants_audio w0))%nat.

(** ** SetOption on a prepared stream *)

(** The kind SetOption is asked about is enabled. *)
Definition stream_enabled (w : FFmpegWriter) (stream : Stream_Type) : Prop :=
  match stream with
  | VIDEO_STREAM => FileInfo.has_video (info w) = true
  | AUDIO_STREAM => FileInfo.has_audio (info w) = true
  end.

(** The stream pointer of a kind. *)
Definition option_stream (w : FFmpegWriter) (stream : Stream_Type) : option nat :=
  match stream with
  | VIDEO_STREAM => video_st w
  | AUDIO_STREAM => audio_st w
  end.

(** The assignment SetOption makes to the codec context for an option it
    accepts. *)
Definition apply_option (av : LibAV) (name value : string) (ctx : AVCodecContext.t)
    : AVCodecContext.t :=
  if String.eqb name "g" then
    AVCodecContext.set_gop_size (stream_extract av value (AVCodecContext.gop_size ctx)) ctx
  else if String.eqb name "qmin" then
    AVCodecContext.set_qmin (stream_extract av value (AVCodecContext.qmin ctx)) ctx
  else if String.eqb name "qmax" then
    AVCodecContext.set_qmax (stream_extract av value (AVCodecContext.qmax ctx)) ctx
  else if String.eqb name "max_b_frames" then
    AVCodecContext.set_max_b_frames
      (stream_extract av value (AVCodecContext.max_b_frames ctx)) ctx
  else if String.eqb name "mb_decision" then
    AVCodecContext.set_mb_decision
      (stream_extract av value (AVCodecContext.mb_decision ctx)) ctx
  else
    AVCodecContext.set_priv_data
      (av_set_string3 av (AVCodecContext.priv_data ctx) name value) ctx.

(** The writer after PrepareStreams on the demo writer: video stream 0,
    audio stream 1. *)
Definition demo_prepared : FFmpegWriter := fst (PrepareStreams demo_av demo_writer).

(** ** The video path *)

(** The RGB picture write_video_packet fills from a frame's pixels, each
    colour channel reduced to the byte that is stored, and the picture the
    converter makes of it for an encoder context [c]. *)
Definition source_picture (av : LibAV) (frame : Frame.t) : AVPicture.t :=
  let bytes :=
    avpicture_get_size av PIX_FMT_RGB24 (Frame.GetWidth frame) (Frame.GetHeight frame) in
  AVPicture.mk PIX_FMT_RGB24 (Frame.GetWidth frame) (Frame.GetHeight frame)
    (flat_map
       (fun px => [PixelPacket.red px mod 256; PixelPacket.green px mod 256;
                   PixelPacket.blue px mod 256])
       (take (Z.to_nat ((bytes + 2) ÷ 3)) (Frame.GetPixels frame))).

Definition final_picture (av : LibAV) (frame : Frame.t) (w : FFmpegWriter)
    (c : AVCodecContext.t) : AVPicture.t :=
  sws_scale av (source_picture av frame) (AVCodecContext.pix_fmt c)
    (FileInfo.width (info w)) (FileInfo.height (info w)).

(** The frame gets as far as the encoder: both pictures are allocated,
    the library giving a size that is not negative for each of the two
    buffers, the frame has a pixel for every three bytes of the source
    buffer, whose size is a multiple of three, and the converter is
    created. *)
Definition reaches_encoder (av : LibAV) (frame : Frame.t) (w : FFmpegWriter)
    (c : AVCodecContext.t) : Prop :=
  let bytes :=
    avpicture_get_size av PIX_FMT_RGB24 (Frame.GetWidth frame) (Frame.GetHeight frame) in
  let n := Z.to_nat ((bytes + 2) ÷ 3) in
  avcodec_alloc_frame av (events w) = true
  /\ 0 <= bytes
  /\ 0 <= avpicture_get_size av (AVCodecContext.pix_fmt c)
            (FileInfo.width (info w)) (FileInfo.height (info w))
  /\ (n <= length (Frame.GetPixels frame))%nat
  /\ 3 * Z.of_nat n <= bytes
  /\ sws_getContext av (Frame.GetWidth frame) (Frame.GetHeight frame) PIX_FMT_RGB24
       (FileInfo.width (info w)) (FileInfo.height (info w)) (AVCodecContext.pix_fmt c)
     = true.

(** The calls the video path logs. *)
Definition is_video_event (e : Event) : Prop :=
  match e with
  | EvScale _ | EvEncodeVideo _ | EvWriteFrame _ => True
  | _ => False
  end.

(** [w'] is [w] after a video step: nothing but the log and the contents
    of the streams' codec contexts may differ. *)
Definition video_step (w w' : FFmpegWriter) : Prop :=
  info w' = info w /\ fmt w' = fmt w
  /\ audio_st w' = audio_st w /\ video_st w' = video_st w
  /\ samples w' = samples w /\ audio_outbuf w' = audio_outbuf w
  /\ audio_input_frame_size w' = audio_input_frame_size w
  /\ audio_input_position w' = audio_input_position w
  /\ initial_audio_input_frame_size w' = initial_audio_input_frame_size w
  /\ resampler w' = resampler w
  /\ length (oc_streams w') = length (oc_streams w)
  /\ exists added,
       events w' = events w ++ added
       /\ Forall is_video_event added
       /\ (length (written_packets added) <= 1)%nat.

(** ** The audio path when the container refuses a packet *)

(** The state write_audio_packet leaves when it throws ErrorEncodingAudio:
    the accumulator is full, and the last two calls logged are the
    encoding of the chunk it holds and the refused write. *)
Definition chunk_refused (w : FFmpegWriter) : Prop :=
  audio_input_position w = audio_input_frame_size w
  /\ exists earlier pkt,
       events w
       = earlier ++ [EvEncodeAudio (take (Z.to_nat (audio_input_frame_size w)) (samples w));
                     EvWriteFrame pkt].

(** ** The life cycle: constructor, header, trailer, Close

    The members and the library calls that only these functions use are
    added around the writer record: the output path, whether the format
    context [oc] is allocated, whether [oc->pb] is an open file, and a log of
    the calls that open, finish and release the output. *)

Inductive FileEvent :=
| FeRegisterAll
| FeOpen (path : string)
| FeWriteHeader (streams : list AVStream.t)
| FeWriteTrailer
| FeCloseCodec (c : AVCodecContext.t)
| FeFreeStream (s : AVStream.t)
| FeCloseFile
| FeFreeContext
| FeDumpFormat (path : string).

Record LibAVFormat := mkLibAVFormat {
  (* the format deduced from the file name, [None] for a null pointer *)
  av_guess_format : string -> option AVOutputFormat.t;
  (* [false] when the allocation returns a null pointer *)
  avformat_alloc_context : bool;
  (* the return value of [avio_open] *)
  avio_open : list FileEvent -> string -> Z
}.

Record Output := mkOutput {
  path : string;
  writer : FFmpegWriter;
  (* [oc] points to a format context that has not been freed *)
  oc_live : bool;
  (* [oc->pb] is an open file *)
  pb_open : bool;
  calls : list FileEvent
}.

Definition set_writer v (o : Output) : Output :=
  mkOutput (path o) v (oc_live o) (pb_open o) (calls o).
Definition set_oc_live v (o : Output) : Output :=
  mkOutput (path o) (writer o) v (pb_open o) (calls o).
Definition set_pb_open v (o : Output) : Output :=
  mkOutput (path o) (writer o) (oc_live o) v (calls o).
Definition called (e : FileEvent) (o : Output) : Output :=
  mkOutput (path o) (writer o) (oc_live o) (pb_open o) (calls o ++ [e]).

Section LifeCycle.
Context (avf : LibAVFormat) (av : LibAV).

(** *** auto_detect_format (lines 51-74)

    [avcodec_find_encoder(id)->name] reads through the encoder pointer: a
    default codec the library has no encoder for is a null pointer
    dereferenced. *)
Definition default_codec_name (id : CodecID) (current : string) : Result string :=
  if negb (codec_id_eqb id CODEC_ID_NONE) then
    match avcodec_find_encoder av id with
    | Some codec => Ok (AVCodec.name codec)
    | None => Undefined
    end
  else Ok current.

Definition auto_detect_format (path : string) (i : FileInfo.t)
    : Result (AVOutputFormat.t * FileInfo.t) :=
  match av_guess_format avf path with
  | None => Throw InvalidFormat
  | Some fmt =>
      if avformat_alloc_context avf then
        match default_codec_name (AVOutputFormat.video_codec fmt) (FileInfo.vcodec i) with
        | Ok vcodec =>
            let i := FileInfo.set_vcodec vcodec i in
            match default_codec_name (AVOutputFormat.audio_codec fmt) (FileInfo.acodec i) with
            | Ok acodec => Ok (fmt, FileInfo.set_acodec acodec i)
            | Throw e => Throw e
            | Undefined => Undefined
            | OutOfFuel => OutOfFuel
            end
        | Throw e => Throw e
        | Undefined => Undefined
        | OutOfFuel => OutOfFuel
        end
      else Throw OutOfMemory
  end.

(** *** The constructor (lines 30-48)

    [cleared] is the option store as [InitFileInfo], a member of the base
    class, leaves it.  A constructor that throws constructs nothing. *)
Definition FFmpegWriter_new (cleared : FileInfo.t) (path : string) : Result Output :=
  let i := FileInfo.set_has_video false (FileInfo.set_has_audio false cleared) in
  match auto_detect_format path i with
  | Ok (fmt, i) =>
      Ok (mkOutput path (mkWriter i fmt [] None None [] [] 0 0 0 false []) true false
            [FeRegisterAll])
  | Throw e => Throw e
  | Undefined => Undefined
  | OutOfFuel => OutOfFuel
  end.

(** *** WriteHeader (lines 247-261) *)
Definition WriteHeader (o : Output) : Output * Result unit :=
  let w := writer o in
  if negb (FileInfo.has_audio (info w)) && negb (FileInfo.has_video (info w))
  then (o, Throw InvalidOptions)
  else if negb (oc_live o) then (o, Undefined)
  else
    let write_header (o : Output) :=
      (called (FeWriteHeader (oc_streams (writer o))) o, Ok tt) in
    if Z.land (AVOutputFormat.flags (fmt w)) AVFMT_NOFILE =? 0 then
      let opened := avio_open avf (calls o) (path o) in
      let o := called (FeOpen (path o)) o in
      if opened <? 0 then (set_pb_open false o, Throw InvalidFile)
      else write_header (set_pb_open true o)
    else write_header o.

(** *** WriteTrailer (lines 289-296) *)
Definition WriteTrailer (o : Output) : Output * Result unit :=
  if negb (oc_live o) then (o, Undefined)
  else (called FeWriteTrailer o, Ok tt).

(** *** close_video (lines 299-310) and close_audio (lines 313-322)

    [delete[]] frees the two buffers and leaves the pointers as they are;
    the accumulator then has no cell that may be written. *)
Definition close_video (st : option nat) (o : Output) : Output * Result unit :=
  match st ≫= (oc_streams (writer o) !!.) with
  | Some s => (called (FeCloseCodec (AVStream.codec s)) o, Ok tt)
  | None => (o, Undefined)
  end.

Definition close_audio (st : option nat) (o : Output) : Output * Result unit :=
  match st ≫= (oc_streams (writer o) !!.) with
  | Some s =>
      (set_writer (set_audio_outbuf [] (set_samples [] (writer o)))
         (called (FeCloseCodec (AVStream.codec s)) o),
       Ok tt)
  | None => (o, Undefined)
  end.

(** *** Close (lines 325-346)

    The loop frees every stream of the container; afterwards no stream
    pointer can be read through.  Neither stream pointer is reset. *)
Definition free_streams (o : Output) : Output :=
  set_writer (set_oc_streams [] (writer o))
    (mkOutput (path o) (writer o) (oc_live o) (pb_open o)
       (calls o ++ map FeFreeStream (oc_streams (writer o)))).

Definition Close (o : Output) : Output * Result unit :=
  match (if bool_decide (is_Some (video_st (writer o)))
         then close_video (video_st (writer o)) o else (o, Ok tt)) with
  | (o, Ok _) =>
      match (if bool_decide (is_Some (audio_st (writer o)))
             then close_audio (audio_st (writer o)) o else (o, Ok tt)) with
      | (o, Ok _) =>
          if negb (oc_live o) then (o, Undefined)
          else
            let o := free_streams o in
            let o :=
              if Z.land (AVOutputFormat.flags (fmt (writer o))) AVFMT_NOFILE =? 0
              then set_pb_open false (called FeCloseFile o) else o in
            (set_oc_live false (called FeFreeContext o), Ok tt)
      | other => other
      end
  | other => other
  end.

(** *** OutputStreamInfo (lines 808-812) *)
Definition OutputStreamInfo (o : Output) : Output * Result unit :=
  if negb (oc_live o) then (o, Undefined)
  else (called (FeDumpFormat (path o)) o, Ok tt).

End LifeCycle.

(** The codecs closed and the streams freed, oldest first. *)
Definition closed_codecs (l : list FileEvent) : list AVCodecContext.t :=
  flat_map (fun e => match e with FeCloseCodec c => [c] | _ => [] end) l.

Definition freed_streams (l : list FileEvent) : list AVStream.t :=
  flat_map (fun e => match e with FeFreeStream s => [s] | _ => [] end) l.

Definition file_closes (l : list FileEvent) : nat :=
  length (flat_map (fun e => match e with FeCloseFile => [tt] | _ => [] end) l).

(** A demo library for the container: every file name is an MP4-like
    format with the demo codecs as defaults, and every file opens. *)
Definition demo_avf : LibAVFormat := {|
  av_guess_format := fun _ => Some (AVOutputFormat.mk (CODEC_ID_OTHER 2) (CODEC_ID_OTHER 1) 0);
  avformat_alloc_context := true;
  avio_open := fun _ _ => 0
|}.

(** The same library when no format can be deduced from the file name,
    and when the format context cannot be allocated. *)
Definition demo_avf_unknown : LibAVFormat :=
  mkLibAVFormat (fun _ => None) true (fun _ _ => 0).

Definition demo_avf_no_memory : LibAVFormat :=
  mkLibAVFormat (av_guess_format demo_avf) false (fun _ _ => 0).

(** Whether auto_detect_format finds the name of a container's default
    codec: no encoder is looked up for CODEC_ID_NONE, and otherwise the
    library has to have one. *)
Definition encoder_found (av : LibAV) (id : CodecID) : bool :=
  codec_id_eqb id CODEC_ID_NONE
  || match avcodec_find_encoder av id with Some _ => true | None => false end.

(** The demo writer of the earlier sections as an output that has just
    been prepared. *)
Definition demo_output : Output := mkOutput "out.mp4" demo_prepared true false [FeRegisterAll].

(** * Properties *)

Lemma wrap_int_id z : INT_MIN <= z <= INT_MAX -> wrap_int z = z.
Proof.
  unfold wrap_int, INT_MIN, INT_MAX. intros H.
  rewrite Z.mod_small; lia.
Qed.

Ltac unfold_monad :=
  unfold when, modify_info, modify_fmt, log, modify, bind, ret, throw, undefined, get in *.

(** ** The option store: SetVideoOptions and SetAudioOptions *)

(** What a width-only call to SetVideoOptions does to the stored options,
    field by field. *)
Lemma width_only_call_effect av has_video interlaced top_field_first width fd pd w :
  SetVideoOptions av has_video "" (Fraction.mk 0 fd) width 0 (Fraction.mk 0 pd)
    interlaced top_field_first 0 w
  = (set_info
       (let i := if width >=? 1 then FileInfo.set_width width (info w) else info w in
        let i := FileInfo.set_interlaced_frame interlaced i in
        let i := FileInfo.set_top_field_first top_field_first i in
        let i :=
          FileInfo.set_display_ratio
            (Reduce (Fraction.mk
               (int_mul (FileInfo.width i) (Fraction.num (FileInfo.pixel_ratio i)))
               (int_mul (FileInfo.height i) (Fraction.den (FileInfo.pixel_ratio i))))) i in
        FileInfo.set_has_video has_video i) w,
     Ok tt).
Proof.
  unfold SetVideoOptions. unfold_monad. simpl.
  destruct w as [i f s a v sm ob fs ps ifs r ev], i. simpl.
  destruct (width >=? 1); reflexivity.
Qed.

(** C4, as stated, fails: a width-only call that passes [false] for the
    interlace flags and the enable flag clears the stored ones. *)
Lemma width_only_call_overwrites_flags :
  let w' :=
    fst (SetVideoOptions demo_av false "" (Fraction.mk 0 0) 1280 0 (Fraction.mk 0 0)
           false false 0 demo_writer) in
  FileInfo.interlaced_frame (info demo_writer) = true
  /\ FileInfo.interlaced_frame (info w') = false
  /\ FileInfo.top_field_first (info demo_writer) = true
  /\ FileInfo.top_field_first (info w') = false
  /\ FileInfo.has_video (info demo_writer) = true
  /\ FileInfo.has_video (info w') = false.
Proof. vm_compute. repeat split. Qed.

(** C4 (amended): a call to SetVideoOptions that supplies only [width]
    (empty codec, zero frame rate, height, pixel ratio and bit rate) returns
    normally and leaves the codec name, frame rate, time base, height,
    pixel aspect ratio, bit rate, every audio option, the container format
    and the rest of the writer unchanged.  The two interlace flags and the
    video-enabled flag are set to the arguments of the call, the width is
    stored when it is at least 1, and the display ratio is recomputed from
    the resulting width. *)
Theorem SetVideoOptions_width_only av has_video interlaced top_field_first width fd pd w :
  let r := SetVideoOptions av has_video "" (Fraction.mk 0 fd) width 0 (Fraction.mk 0 pd)
             interlaced top_field_first 0 w in
  let i := info w in
  let i' := info (fst r) in
  snd r = Ok tt
  /\ FileInfo.vcodec i' = FileInfo.vcodec i
  /\ FileInfo.fps i' = FileInfo.fps i
  /\ FileInfo.video_timebase i' = FileInfo.video_timebase i
  /\ FileInfo.height i' = FileInfo.height i
  /\ FileInfo.pixel_ratio i' = FileInfo.pixel_ratio i
  /\ FileInfo.video_bit_rate i' = FileInfo.video_bit_rate i
  /\ FileInfo.has_audio i' = FileInfo.has_audio i
  /\ FileInfo.acodec i' = FileInfo.acodec i
  /\ FileInfo.sample_rate i' = FileInfo.sample_rate i
  /\ FileInfo.channels i' = FileInfo.channels i
  /\ FileInfo.audio_bit_rate i' = FileInfo.audio_bit_rate i
  /\ set_info i (fst r) = w
  /\ FileInfo.interlaced_frame i' = interlaced
  /\ FileInfo.top_field_first i' = top_field_first
  /\ FileInfo.has_video i' = has_video
  /\ FileInfo.width i' = (if width >=? 1 then width else FileInfo.width i)
  /\ FileInfo.display_ratio i'
     = Reduce (Fraction.mk
         (int_mul (FileInfo.width i') (Fraction.num (FileInfo.pixel_ratio i)))
         (int_mul (FileInfo.height i) (Fraction.den (FileInfo.pixel_ratio i)))).
Proof.
  cbv zeta. rewrite width_only_call_effect.
  destruct w as [i f s a v sm ob fs ps ifs r ev], i. simpl.
  destruct (width >=? 1); simpl; repeat split; reflexivity.
Qed.

Lemma Reduce_positive n d :
  0 < n -> 0 < d ->
  let r := Reduce (Fraction.mk n d) in
  0 < Fraction.num r /\ 0 < Fraction.den r
  /\ Z.gcd (Fraction.num r) (Fraction.den r) = 1
  /\ Fraction.num r * d = Fraction.den r * n.
Proof.
  intros Hn Hd. unfold Reduce. simpl.
  pose proof (Z.gcd_nonneg n d) as Hg0.
  assert (Hg : 0 < Z.gcd n d).
  { destruct (Z.eq_dec (Z.gcd n d) 0) as [E|E]; [|lia].
    apply Z.gcd_eq_0_l in E. lia. }
  destruct (Z.gcd_divide_l n d) as [a Ha].
  destruct (Z.gcd_divide_r n d) as [b Hb].
  set (g := Z.gcd n d) in *.
  assert (Hqa : n ÷ g = a) by (rewrite Ha at 1; apply Z.quot_mul; lia).
  assert (Hqb : d ÷ g = b) by (rewrite Hb at 1; apply Z.quot_mul; lia).
  rewrite Hqa, Hqb.
  assert (0 < a) by nia. assert (0 < b) by nia.
  repeat split; try lia.
  assert (Hmul : Z.gcd (a * g) (b * g) = Z.gcd a b * g).
  { rewrite Z.gcd_mul_mono_r_nonneg by lia. reflexivity. }
  rewrite <- Ha, <- Hb in Hmul. fold g in Hmul.
  pose proof (Z.gcd_nonneg a b). nia.
Qed.

Lemma Reduce_idempotent n d :
  0 < n -> 0 < d -> Reduce (Reduce (Fraction.mk n d)) = Reduce (Fraction.mk n d).
Proof.
  intros Hn Hd. destruct (Reduce_positive n d Hn Hd) as (_ & _ & Hg & _).
  destruct (Reduce (Fraction.mk n d)) as [a b]. simpl in *.
  unfold Reduce. simpl. rewrite Hg, !Z.quot_1_r. reflexivity.
Qed.

(** C5: for a width and a height of at least 1 and a pixel aspect ratio
    with positive numerator and denominator, whose products fit an [int],
    SetVideoOptions stores as display ratio the fraction
    (width * num) / (height * den) divided through by the GCD of its two
    terms: the stored pair is coprime with a positive denominator, it
    represents the same value (cross products agree), and reducing it again
    leaves it unchanged. *)
Theorem SetVideoOptions_display_ratio av has_video codec fps width height pixel_ratio
    interlaced top_field_first bit_rate w :
  ((0 <? String.length codec)%nat = true -> is_Some (avcodec_find_encoder_by_name av codec)) ->
  1 <= width -> 1 <= height ->
  0 < Fraction.num pixel_ratio -> 0 < Fraction.den pixel_ratio ->
  width * Fraction.num pixel_ratio <= INT_MAX ->
  height * Fraction.den pixel_ratio <= INT_MAX ->
  let r := SetVideoOptions av has_video codec fps width height pixel_ratio
             interlaced top_field_first bit_rate w in
  let dar := FileInfo.display_ratio (info (fst r)) in
  let g := Z.gcd (width * Fraction.num pixel_ratio) (height * Fraction.den pixel_ratio) in
  snd r = Ok tt
  /\ dar = Fraction.mk ((width * Fraction.num pixel_ratio) ÷ g)
                       ((height * Fraction.den pixel_ratio) ÷ g)
  /\ Z.gcd (Fraction.num dar) (Fraction.den dar) = 1
  /\ 0 < Fraction.den dar
  /\ Fraction.num dar * (height * Fraction.den pixel_ratio)
     = Fraction.den dar * (width * Fraction.num pixel_ratio)
  /\ Reduce dar = dar.
Proof.
  intros Hcodec Hw Hh Hn Hd Hwn Hhd. cbv zeta.
  assert (Hstored :
    snd (SetVideoOptions av has_video codec fps width height pixel_ratio
           interlaced top_field_first bit_rate w) = Ok tt
    /\ FileInfo.display_ratio
         (info (fst (SetVideoOptions av has_video codec fps width height pixel_ratio
                       interlaced top_field_first bit_rate w)))
       = Reduce (Fraction.mk (width * Fraction.num pixel_ratio)
                             (height * Fraction.den pixel_ratio))).
  { unfold SetVideoOptions. unfold_monad.
    replace (width >=? 1) with true by lia.
    replace (height >=? 1) with true by lia.
    replace (Fraction.num pixel_ratio >? 0) with true by lia.
    destruct pixel_ratio as [pn pd]. simpl in *.
    assert (Hm1 : int_mul width pn = width * pn)
      by (apply wrap_int_id; unfold INT_MIN, INT_MAX in *; nia).
    assert (Hm2 : int_mul height pd = height * pd)
      by (apply wrap_int_id; unfold INT_MIN, INT_MAX in *; nia).
    destruct w as [i f s a v sm ob fs ps ifs r ev], i.
    destruct (0 <? String.length codec)%nat eqn:Hc; simpl.
    - destruct (Hcodec eq_refl) as [nc Hnc]. rewrite Hnc. simpl.
      destruct (Fraction.num fps >? 0), (bit_rate >=? 1000); simpl;
        rewrite Hm1, Hm2; split; reflexivity.
    - destruct (Fraction.num fps >? 0), (bit_rate >=? 1000); simpl;
        rewrite Hm1, Hm2; split; reflexivity. }
  destruct Hstored as [Hok Hdar]. rewrite Hok, Hdar.
  assert (Hp1 : 0 < width * Fraction.num pixel_ratio) by nia.
  assert (Hp2 : 0 < height * Fraction.den pixel_ratio) by nia.
  destruct (Reduce_positive _ _ Hp1 Hp2) as (H1 & H2 & H3 & H4).
  repeat split; try assumption.
  apply Reduce_idempotent; assumption.
Qed.

Lemma SetVideoOptions_display_ratio_witness :
  let dar :=
    FileInfo.display_ratio
      (info (fst (SetVideoOptions demo_av true "mpeg4" (Fraction.mk 30 1) 640 480
                    (Fraction.mk 1 1) false false 400000 demo_writer))) in
  dar = Fraction.mk 4 3 /\ Reduce dar = dar.
Proof.
  pose proof (SetVideoOptions_display_ratio demo_av true "mpeg4" (Fraction.mk 30 1) 640 480
                (Fraction.mk 1 1) false false 400000 demo_writer) as H.
  simpl in H.
  destruct H as (_ & Hdar & _ & _ & _ & Hid); unfold INT_MAX; try lia.
  - intros _. eexists. reflexivity.
  - split; [exact Hdar | exact Hid].
Defined.

(** SetAudioOptions either throws on the codec lookup, before any field is
    written, or runs to its end. *)
Lemma SetAudioOptions_outcome av has_audio codec sample_rate channels bit_rate w :
  let r := SetAudioOptions av has_audio codec sample_rate channels bit_rate w in
  ((0 <? String.length codec)%nat = true
   /\ avcodec_find_encoder_by_name av codec = None
   /\ r = (w, Throw InvalidCodec))
  \/ (((0 <? String.length codec)%nat = true -> is_Some (avcodec_find_encoder_by_name av codec))
      /\ snd r = Ok tt
      /\ FileInfo.has_audio (info (fst r)) = has_audio
      /\ FileInfo.sample_rate (info (fst r))
         = (if sample_rate >? 7999 then sample_rate else FileInfo.sample_rate (info w))
      /\ FileInfo.channels (info (fst r))
         = (if channels >? 0 then channels else FileInfo.channels (info w))
      /\ FileInfo.audio_bit_rate (info (fst r))
         = (if bit_rate >? 999 then bit_rate else FileInfo.audio_bit_rate (info w))).
Proof.
  cbv zeta. unfold SetAudioOptions. unfold_monad.
  destruct w as [i f s a v sm ob fs ps ifs r ev], i.
  destruct (0 <? String.length codec)%nat eqn:Hc; simpl.
  - destruct (avcodec_find_encoder_by_name av codec) as [nc|] eqn:Hnc; simpl.
    + right. split; [intros _; eexists; reflexivity|].
      destruct (sample_rate >? 7999), (channels >? 0), (bit_rate >? 999); simpl;
        repeat split; reflexivity.
    + left. repeat split; reflexivity.
  - right. split; [intros; discriminate|].
    destruct (sample_rate >? 7999), (channels >? 0), (bit_rate >? 999); simpl;
      repeat split; reflexivity.
Qed.

(** C10: SetAudioOptions leaves the stored sample rate unchanged for every
    supplied rate below 8000 (and stores a rate of 8000 or more), leaves the
    stored audio bit rate unchanged for every bit rate below 1000 and the
    stored channel count unchanged for every count below 1, whereas the
    audio-enabled flag is overwritten with the argument by every call that
    gets past the codec lookup (empty codec name, or a name the library
    resolves), whatever the other arguments are. *)
Theorem SetAudioOptions_thresholds av has_audio codec sample_rate channels bit_rate w :
  let r := SetAudioOptions av has_audio codec sample_rate channels bit_rate w in
  (sample_rate < 8000 -> FileInfo.sample_rate (info (fst r)) = FileInfo.sample_rate (info w))
  /\ (bit_rate < 1000 ->
      FileInfo.audio_bit_rate (info (fst r)) = FileInfo.audio_bit_rate (info w))
  /\ (channels < 1 -> FileInfo.channels (info (fst r)) = FileInfo.channels (info w))
  /\ (((0 <? String.length codec)%nat = true ->
       is_Some (avcodec_find_encoder_by_name av codec)) ->
      snd r = Ok tt
      /\ FileInfo.has_audio (info (fst r)) = has_audio
      /\ (8000 <= sample_rate -> FileInfo.sample_rate (info (fst r)) = sample_rate)).
Proof.
  cbv zeta.
  destruct (SetAudioOptions_outcome av has_audio codec sample_rate channels bit_rate w)
    as [(Hc & Hnone & Hr) | (Hfound & Hok & Hha & Hsr & Hch & Hbr)].
  - rewrite Hr. simpl. split; [reflexivity|]. split; [reflexivity|]. split; [reflexivity|].
    intros Hf. destruct (Hf Hc) as [x Hx]. congruence.
  - rewrite Hsr, Hch, Hbr. repeat split; intros; try assumption.
    + replace (sample_rate >? 7999) with false by lia. reflexivity.
    + replace (bit_rate >? 999) with false by lia. reflexivity.
    + replace (channels >? 0) with false by lia. reflexivity.
    + replace (sample_rate >? 7999) with true by lia. reflexivity.
Qed.

Lemma SetAudioOptions_thresholds_witness :
  let w' := fst (SetAudioOptions demo_av false "" 7999 0 999 demo_writer) in
  FileInfo.sample_rate (info w') = 44100
  /\ FileInfo.audio_bit_rate (info w') = 128000
  /\ FileInfo.channels (info w') = 2
  /\ FileInfo.has_audio (info w') = false.
Proof.
  destruct (SetAudioOptions_thresholds demo_av false "" 7999 0 999 demo_writer)
    as (Hsr & Hbr & Hch & Hrest).
  destruct Hrest as (_ & Hha & _); [simpl; discriminate|].
  cbv zeta. split; [|split; [|split]].
  - apply Hsr. lia.
  - apply Hbr. lia.
  - apply Hch. lia.
  - exact Hha.
Defined.

(** ** Reasoning about state transformers *)

Arguments bind : simpl never.
Arguments modify_codec : simpl never.
Arguments stream_ptr : simpl never.
Arguments stream_codec : simpl never.

Lemma bind_ok {A B} (m : M A) (k : A -> M B) w w' a :
  m w = (w', Ok a) -> bind m k w = k a w'.
Proof. intros H. unfold bind. rewrite H. reflexivity. Qed.

Lemma bind_throw {A B} (m : M A) (k : A -> M B) w w' e :
  m w = (w', Throw e) -> bind m k w = (w', Throw e).
Proof. intros H. unfold bind. rewrite H. reflexivity. Qed.

Lemma bind_undefined {A B} (m : M A) (k : A -> M B) w w' :
  m w = (w', Undefined) -> bind m k w = (w', Undefined).
Proof. intros H. unfold bind. rewrite H. reflexivity. Qed.

Lemma keeps_ret {A} P (a : A) : keeps P (ret a).
Proof. intros w H. exact H. Qed.

Lemma keeps_throw {A} P e : keeps P (@throw A e).
Proof. intros w H. exact H. Qed.

Lemma keeps_undefined {A} P : keeps P (@undefined A).
Proof. intros w H. exact H. Qed.

Lemma keeps_out_of_fuel {A} P : keeps P (@out_of_fuel A).
Proof. intros w H. exact H. Qed.

Lemma keeps_get P : keeps P get.
Proof. intros w H. exact H. Qed.

Lemma keeps_bind {A B} P (m : M A) (k : A -> M B) :
  keeps P m -> (forall a, keeps P (k a)) -> keeps P (bind m k).
Proof.
  intros Hm Hk w H. unfold bind. specialize (Hm w H).
  destruct (m w) as [w' [a|e| |]]; simpl in *; try exact Hm.
  apply Hk, Hm.
Qed.

Lemma keeps_when P b m : keeps P m -> keeps P (when b m).
Proof. intros Hm. destruct b; [exact Hm | apply keeps_ret]. Qed.

Lemma keeps_modify P f : (forall w, P w -> P (f w)) -> keeps P (modify f).
Proof. intros Hf w H. apply Hf, H. Qed.

Lemma keeps_stream_codec P st : keeps P (stream_codec st).
Proof.
  intros w H. unfold stream_codec. destruct st as [i|]; [|exact H].
  destruct (oc_streams w !! i); exact H.
Qed.

Lemma keeps_stream_ptr P st : keeps P (stream_ptr st).
Proof.
  intros w H. unfold stream_ptr. destruct st as [i|]; [|exact H].
  destruct (oc_streams w !! i); exact H.
Qed.

Lemma keeps_modify_codec P st f :
  (forall w i s, st = Some i -> oc_streams w !! i = Some s -> P w ->
     P (set_oc_streams (<[i := AVStream.set_codec (f (AVStream.codec s)) s]> (oc_streams w)) w)) ->
  keeps P (modify_codec st f).
Proof.
  intros Hf w H. unfold modify_codec. destruct st as [i|]; [|exact H].
  destruct (oc_streams w !! i) as [s|] eqn:Hs; [|exact H].
  simpl. eapply Hf; eauto.
Qed.

(** ** The stream builder: add_audio_stream *)

Lemma scan_array_absent wanted arr :
  In 0 arr -> ~ In wanted (entries arr) -> scan_array wanted arr = Some false.
Proof.
  induction arr as [|x rest IH]; simpl; [tauto|].
  intros Hz Hnot. destruct (x =? 0) eqn:Hx; [reflexivity|].
  simpl in Hnot. destruct (wanted =? x) eqn:Hwx.
  - exfalso. apply Hnot. left. lia.
  - apply IH; [|tauto]. destruct Hz as [Hz|Hz]; [lia|exact Hz].
Qed.

Lemma scan_array_present wanted arr :
  In wanted (entries arr) -> scan_array wanted arr = Some true.
Proof.
  induction arr as [|x rest IH]; simpl; [tauto|].
  destruct (x =? 0) eqn:Hx; simpl; [tauto|].
  intros [Heq|Hin].
  - subst. rewrite Z.eqb_refl. reflexivity.
  - destruct (wanted =? x); [reflexivity|]. apply IH, Hin.
Qed.

(** Reads and writes through a pointer to the last stream of [oc->streams]. *)
Lemma modify_codec_snoc i fm l s a v sm ob fs ps ifs r ev f :
  modify_codec (Some (length l)) f (mkWriter i fm (l ++ [s]) a v sm ob fs ps ifs r ev)
  = (mkWriter i fm (l ++ [AVStream.set_codec (f (AVStream.codec s)) s]) a v sm ob fs ps ifs r ev,
     Ok tt).
Proof.
  unfold modify_codec. simpl.
  rewrite list_lookup_middle by reflexivity.
  rewrite insert_app_r_alt by lia.
  replace (length l - length l)%nat with 0%nat by lia. reflexivity.
Qed.

Lemma stream_ptr_snoc i fm l s a v sm ob fs ps ifs r ev :
  stream_ptr (Some (length l)) (mkWriter i fm (l ++ [s]) a v sm ob fs ps ifs r ev)
  = (mkWriter i fm (l ++ [s]) a v sm ob fs ps ifs r ev, Ok s).
Proof. unfold stream_ptr. simpl. rewrite list_lookup_middle by reflexivity. reflexivity. Qed.

Lemma stream_codec_snoc i fm l s a v sm ob fs ps ifs r ev :
  stream_codec (Some (length l)) (mkWriter i fm (l ++ [s]) a v sm ob fs ps ifs r ev)
  = (mkWriter i fm (l ++ [s]) a v sm ob fs ps ifs r ev, Ok (AVStream.codec s)).
Proof. unfold stream_codec. simpl. rewrite list_lookup_middle by reflexivity. reflexivity. Qed.

(** One statement of a straight-line prefix: rewrite [bind m k w] into
    [k a w'] once [m w] is known to return. *)
Ltac run_step :=
  erewrite bind_ok by
    first [ apply modify_codec_snoc | apply stream_ptr_snoc | apply stream_codec_snoc
          | reflexivity ];
  simpl.

Lemma keeps_stream_rate n v st f :
  (forall c, AVCodecContext.sample_rate (f c) = AVCodecContext.sample_rate c) ->
  keeps (stream_rate_is n v) (modify_codec st f).
Proof.
  intros Hf. apply keeps_modify_codec. intros w i s _ Hs H.
  unfold stream_rate_is in *. destruct w as [i0 fm l a v0 sm ob fs ps ifs r ev]. simpl in *.
  destruct (decide (i = n)) as [->|Hne].
  - rewrite Hs in H. simpl in H.
    rewrite list_lookup_insert_eq by (eapply lookup_lt_Some; eauto).
    simpl. rewrite Hf. exact H.
  - rewrite list_lookup_insert_ne by exact Hne. exact H.
Qed.

(** C2: once the encoder is resolved and its stream allocated,
    add_audio_stream fails with InvalidSampleRate (the sample-rate error the
    spec calls UnsupportedSampleRate) whenever the encoder has a
    supported-rate list and the requested rate is not among its entries, and
    the new stream's codec context keeps the rate it was allocated with: no
    other rate is put in its place.  When the encoder has no list, the
    requested rate is stored in the codec context as it is. *)
Theorem add_audio_stream_sample_rate av w codec tb c0 :
  avcodec_find_encoder_by_name av (FileInfo.acodec (info w)) = Some codec ->
  avformat_new_stream av (oc_streams w) codec = Some (tb, c0) ->
  let r := add_audio_stream av w in
  let stored :=
    (fun s => AVCodecContext.sample_rate (AVStream.codec s))
      <$> oc_streams (fst r) !! length (oc_streams w) in
  (forall arr,
     AVCodec.supported_samplerates codec = Some arr ->
     In 0 arr ->
     ~ In (FileInfo.sample_rate (info w)) (entries arr) ->
     snd r = Throw InvalidSampleRate
     /\ stored = Some (AVCodecContext.sample_rate c0))
  /\ (AVCodec.supported_samplerates codec = None ->
      stored = Some (FileInfo.sample_rate (info w))).
Proof.
  intros Hfind Hnew. cbv zeta.
  destruct w as [i fm l a v sm ob fs ps ifs r ev]. simpl in *.
  unfold add_audio_stream.
  run_step. rewrite Hfind.
  erewrite bind_ok by (unfold new_stream; simpl; rewrite Hnew; reflexivity).
  simpl. do 5 run_step.
  set (n := length l).
  assert (Htail : forall (tail : M (option nat)) s,
            (forall P : FFmpegWriter -> Prop,
               (forall st f, (forall c, AVCodecContext.sample_rate (f c)
                                        = AVCodecContext.sample_rate c) ->
                             keeps P (modify_codec st f)) ->
               keeps P tail) ->
            AVCodecContext.sample_rate (AVStream.codec s) = FileInfo.sample_rate i ->
            stream_rate_is n (FileInfo.sample_rate i)
              (fst (tail (mkWriter i fm (l ++ [s]) a v sm ob fs ps ifs r
                            (ev ++ [EvNewStream codec]))))).
  { intros tail s Hkeeps Hs. apply Hkeeps.
    - intros st f Hf. apply keeps_stream_rate, Hf.
    - unfold stream_rate_is. simpl. subst n.
      rewrite list_lookup_middle by reflexivity. simpl. rewrite Hs. reflexivity. }
  unfold stream_rate_is in Htail.
  assert (Hrest : forall P : FFmpegWriter -> Prop,
            (forall st f, (forall c, AVCodecContext.sample_rate (f c)
                                     = AVCodecContext.sample_rate c) ->
                          keeps P (modify_codec st f)) ->
            forall k : M (option nat),
            k = (match AVCodec.channel_layouts codec with
                 | Some arr =>
                     match scan_array (if FileInfo.channels i =? 1 then AV_CH_LAYOUT_MONO
                                       else AV_CH_LAYOUT_STEREO) arr with
                     | Some true =>
                         modify_codec (Some n)
                           (AVCodecContext.set_channel_layout
                              (if FileInfo.channels i =? 1 then AV_CH_LAYOUT_MONO
                               else AV_CH_LAYOUT_STEREO))
                     | Some false => throw InvalidChannels
                     | None => undefined
                     end
                 | None =>
                     modify_codec (Some n)
                       (AVCodecContext.set_channel_layout
                          (if FileInfo.channels i =? 1 then AV_CH_LAYOUT_MONO
                           else AV_CH_LAYOUT_STEREO))
                 end ;;
                 match AVCodec.sample_fmts codec with
                 | Some (f :: _) =>
                     when (negb (sample_fmt_eqb f AV_SAMPLE_FMT_NONE))
                       (modify_codec (Some n) (AVCodecContext.set_sample_fmt f))
                 | Some [] => undefined
                 | None => ret tt
                 end ;;
                 c <- stream_codec (Some n) ;;
                 when (sample_fmt_eqb (AVCodecContext.sample_fmt c) AV_SAMPLE_FMT_NONE)
                   (modify_codec (Some n) (AVCodecContext.set_sample_fmt AV_SAMPLE_FMT_S16)) ;;
                 when (negb (Z.land (AVOutputFormat.flags fm) AVFMT_GLOBALHEADER =? 0))
                   (modify_codec (Some n) (fun c =>
                      AVCodecContext.set_flags
                        (Z.lor (AVCodecContext.flags c) CODEC_FLAG_GLOBAL_HEADER) c)) ;;
                 ret (Some n)) ->
            keeps P k).
  { intros P HP k ->.
    repeat first
      [ apply keeps_bind | apply keeps_ret | apply keeps_throw | apply keeps_undefined
      | apply keeps_stream_codec | apply keeps_when
      | (apply HP; let c := fresh "c" in intros c; destruct c; reflexivity)
      | match goal with
        | |- forall _, _ => intro
        | |- keeps _ (match ?x with _ => _ end) => destruct x
        end ]. }
  assert (Hrate0 : forall c, AVCodecContext.sample_rate
                    (AVCodecContext.set_channels (FileInfo.channels i)
                       (AVCodecContext.set_bit_rate (FileInfo.audio_bit_rate i)
                          (AVCodecContext.set_codec_type AVMEDIA_TYPE_AUDIO
                             (AVCodecContext.set_codec_id (AVCodec.id codec) c))))
                    = AVCodecContext.sample_rate c)
    by (intros c; destruct c; reflexivity).
  assert (Htb : forall x c, AVCodecContext.sample_rate (AVCodecContext.set_time_base x c)
                            = AVCodecContext.sample_rate c)
    by (intros x c; destruct c; reflexivity).
  assert (Hset : forall x c, AVCodecContext.sample_rate (AVCodecContext.set_sample_rate x c) = x)
    by (intros x c; destruct c; reflexivity).
  match goal with |- context [when ?b _] => destruct b end; simpl; run_step.
  all: split;
    [ intros arr Harr Hz Hnot; rewrite Harr, (scan_array_absent _ _ Hz Hnot);
      erewrite bind_throw by reflexivity; simpl;
      rewrite list_lookup_middle by reflexivity; simpl;
      rewrite ?Htb, Hrate0; split; reflexivity
    | intros Hnone; rewrite Hnone; run_step;
      apply Htail;
      [ intros P HP; eapply Hrest; [exact HP | reflexivity]
      | simpl; apply Hset ] ].
Qed.

Lemma add_audio_stream_sample_rate_witness :
  let w := set_info (FileInfo.set_sample_rate 1 demo_info) demo_writer in
  snd (add_audio_stream demo_av w) = Throw InvalidSampleRate
  /\ (fun s => AVCodecContext.sample_rate (AVStream.codec s))
       <$> oc_streams (fst (add_audio_stream demo_av w)) !! 0%nat
     = Some 0.
Proof.
  cbv zeta.
  refine (proj1 (add_audio_stream_sample_rate demo_av
                   (set_info (FileInfo.set_sample_rate 1 demo_info) demo_writer)
                   demo_mp3 (Fraction.mk 1 90000) demo_context eq_refl eq_refl)
                [44100; 48000; 32000; 0] eq_refl _ _).
  - simpl. tauto.
  - simpl. intros H. decompose [or] H; try discriminate; assumption.
Defined.


(** ** SetOption on a stream whose media kind is disabled *)

(** With the media kind disabled no codec context is selected: [c] stays
    null and the private-option lookup is skipped. *)
Lemma SetOption_disabled av w stream name value :
  stream_disabled w stream ->
  SetOption av stream name value w
  = (if is_named_option name then (w, Undefined) else (w, Throw InvalidOptions)).
Proof.
  intros Hdis. unfold SetOption, bind, get, ret, throw. simpl.
  assert (Hsel :
    (FileInfo.has_video (info w) && stream_type_eqb stream VIDEO_STREAM = false)
    /\ (FileInfo.has_audio (info w) && stream_type_eqb stream AUDIO_STREAM = false)).
  { destruct stream; simpl in *; rewrite Hdis; simpl; split;
      rewrite ?andb_false_r; reflexivity. }
  destruct Hsel as [Hv Ha]. rewrite Hv, Ha. simpl.
  unfold is_named_option.
  destruct (String.eqb name "g") eqn:Hg; [reflexivity|].
  destruct (String.eqb name "qmin") eqn:Hqmin; [reflexivity|].
  destruct (String.eqb name "qmax") eqn:Hqmax; [reflexivity|].
  destruct (String.eqb name "max_b_frames") eqn:Hb; [reflexivity|].
  destruct (String.eqb name "mb_decision") eqn:Hmb; reflexivity.
Qed.

(** C3, as stated, fails: with video disabled, setting the video option
    [crf] raises InvalidOptions, and setting [g] dereferences the null codec
    context; neither call is a silent no-op. *)
Lemma disabled_stream_option_not_silent :
  stream_disabled demo_audio_only VIDEO_STREAM
  /\ snd (SetOption demo_av VIDEO_STREAM "crf" "20" demo_audio_only) = Throw InvalidOptions
  /\ snd (SetOption demo_av VIDEO_STREAM "g" "12" demo_audio_only) = Undefined.
Proof. vm_compute. repeat split. Qed.

(** C3 (amended): a SetOption call that names a stream whose media kind is
    disabled, with an option name other than the five well-known ones
    ([g], [qmin], [qmax], [max_b_frames], [mb_decision]), changes nothing in
    the writer and raises InvalidOptions. *)
Theorem SetOption_disabled_stream av w stream name value :
  stream_disabled w stream ->
  is_named_option name = false ->
  SetOption av stream name value w = (w, Throw InvalidOptions).
Proof.
  intros Hdis Hname. rewrite (SetOption_disabled av w stream name value Hdis).
  rewrite Hname. reflexivity.
Qed.

Lemma SetOption_disabled_stream_witness :
  SetOption demo_av VIDEO_STREAM "crf" "20" demo_audio_only
  = (demo_audio_only, Throw InvalidOptions).
Proof.
  apply (SetOption_disabled_stream demo_av demo_audio_only VIDEO_STREAM "crf" "20");
    reflexivity.
Defined.

(** ** The audio accumulator *)

Arguments memcpy_samples : simpl never.

Lemma keeps_log P e :
  (forall w, P w -> P (set_events (events w ++ [e]) w)) -> keeps P (log e).
Proof. intros H. unfold log. apply keeps_modify, H. Qed.

(** An in-range [memcpy] overwrites cells; the buffer keeps its size. *)
Lemma memcpy_length (buf src : list Z) (pos diff : Z) :
  0 <= pos -> 0 <= diff -> pos + diff <= Z.of_nat (length buf) ->
  length src = Z.to_nat diff ->
  length (take (Z.to_nat pos) buf ++ src ++ drop (Z.to_nat (pos + diff)) buf) = length buf.
Proof.
  intros Hp Hd Hle Hsrc. rewrite !length_app, length_take, length_drop, Hsrc. lia.
Qed.

Lemma keeps_memcpy_samples P frame_samples samples_position diff :
  (forall w v, length v = length (samples w) -> P w -> P (set_samples v w)) ->
  keeps P (memcpy_samples frame_samples samples_position diff).
Proof.
  intros H w Hw. unfold memcpy_samples.
  destruct (_ || _) eqn:Hguard; simpl; [exact Hw|].
  apply H; [|exact Hw].
  apply orb_false_iff in Hguard. destruct Hguard as [Hguard H4].
  apply orb_false_iff in Hguard. destruct Hguard as [Hguard H3].
  apply orb_false_iff in Hguard. destruct Hguard as [H1 H2].
  apply memcpy_length; try lia.
  rewrite length_map, length_seq. reflexivity.
Qed.

Ltac keeps_structure :=
  first
    [ apply keeps_bind | apply keeps_ret | apply keeps_throw | apply keeps_undefined
    | apply keeps_out_of_fuel | apply keeps_get | apply keeps_stream_codec
    | apply keeps_stream_ptr | apply keeps_when
    | match goal with
      | |- forall _, _ => intro
      | |- keeps _ (match ?x with _ => _ end) => destruct x
      | |- keeps _ (let _ := _ in _) => cbv zeta
      end ].

Lemma is_audio_packet pkt0 idx bytes :
  is_audio_event
    (EvWriteFrame
       (AVPacket.set_data (OutBuf bytes)
          (AVPacket.set_stream_index idx
             (AVPacket.set_flags (Z.lor (AVPacket.flags pkt0) AV_PKT_FLAG_KEY) pkt0)))).
Proof.
  simpl. split; [|eexists; reflexivity].
  unfold key_flagged. simpl. rewrite Z.land_lor_distr_l.
  change (Z.land AV_PKT_FLAG_KEY AV_PKT_FLAG_KEY) with 1.
  apply negb_true_iff, Z.eqb_neq. intros H.
  apply Z.lor_eq_0_iff in H. destruct H as [_ H]. discriminate.
Qed.

Lemma audio_loop_keeps av P :
  loop_stable P ->
  forall fuel frame frame_samples samples_position remaining,
    keeps P (audio_loop av fuel frame frame_samples samples_position remaining).
Proof.
  intros [Hev Hsm Hpos Hob Hcf] fuel frame frame_samples.
  induction fuel as [|fuel IH]; intros samples_position remaining; simpl.
  - apply keeps_out_of_fuel.
  - repeat first
      [ apply IH
      | apply keeps_memcpy_samples; exact Hsm
      | apply keeps_modify; intros; first [apply Hpos | apply Hob]; assumption
      | apply keeps_log; intros; apply Hev; [|assumption];
        first [exact I | apply is_audio_packet]
      | apply keeps_modify_codec; intros; apply Hcf; assumption
      | keeps_structure ].
Qed.

Lemma prepare_audio_keeps av P :
  audio_stable P -> forall frame, keeps P (prepare_audio av frame).
Proof.
  intros [[Hev Hsm Hpos Hob Hcf] Hrs Hfs] frame. unfold prepare_audio.
  repeat first
    [ apply keeps_modify; intros; first [apply Hrs | apply Hfs]; assumption
    | apply keeps_log; intros; apply Hev; [exact I | assumption]
    | keeps_structure
    | match goal with |- keeps _ (if ?b then _ else _) => destruct b end ].
Qed.

Lemma write_audio_packet_keeps av P :
  audio_stable P -> forall fuel frame, keeps P (write_audio_packet av fuel frame).
Proof.
  intros HP fuel frame. unfold write_audio_packet.
  apply keeps_bind; [apply prepare_audio_keeps, HP|].
  intros prepared. apply audio_loop_keeps, HP.
Qed.

Lemma audio_events_added_stable w0 : audio_stable (audio_events_added w0).
Proof.
  unfold audio_events_added.
  split; [split|..]; intros w; intros;
    repeat match goal with H : exists _, _ |- _ => destruct H as (added & Hadd & Hall) end;
    destruct w; simpl in *; try (exists added; split; assumption).
  exists (added ++ [e]). split.
  - rewrite Hadd, app_assoc. reflexivity.
  - apply Forall_app. split; [assumption|]. constructor; [assumption|constructor].
Qed.

Lemma audio_codec_insert_coded_frame w i s cf :
  oc_streams w !! i = Some s ->
  AVCodecContext.sample_fmt
    <$> audio_codec
          (set_oc_streams
             (<[i := AVStream.set_codec (AVCodecContext.set_coded_frame cf (AVStream.codec s)) s]>
                (oc_streams w)) w)
  = AVCodecContext.sample_fmt <$> audio_codec w.
Proof.
  intros Hs. unfold audio_codec. destruct w as [i0 fm l a v sm ob fs ps ifs r ev]. simpl in *.
  destruct a as [j|]; simpl; [|reflexivity].
  destruct (decide (i = j)) as [->|Hne].
  - rewrite list_lookup_insert_eq by (eapply lookup_lt_Some; eauto).
    rewrite Hs. simpl. destruct (AVStream.codec s). reflexivity.
  - rewrite list_lookup_insert_ne by exact Hne. reflexivity.
Qed.

Lemma same_config_stable w0 : audio_stable (same_config w0).
Proof.
  unfold same_config.
  split; [split|..]; intros w; intros;
    repeat match goal with H : _ /\ _ |- _ => destruct H end.
  5: { rewrite audio_codec_insert_coded_frame by eassumption.
       destruct w; simpl in *. rewrite length_insert. repeat split; assumption. }
  all: destruct w; unfold audio_codec in *; simpl in *; repeat split; congruence.
Qed.

Lemma frame_size_loop_stable v : loop_stable (fun w => audio_input_frame_size w = v).
Proof. split; intros w; intros; destruct w; simpl in *; assumption. Qed.

Lemma same_config_refl w : same_config w w.
Proof. unfold same_config. repeat split; reflexivity. Qed.

Lemma same_config_ratio w0 w : same_config w0 w -> width_ratio w = width_ratio w0.
Proof.
  intros (_ & _ & _ & _ & _ & _ & _ & H). unfold width_ratio.
  destruct (audio_codec w), (audio_codec w0); simpl in H; congruence.
Qed.

Lemma same_config_target w0 w :
  same_config w0 w -> target_chunk_size w = target_chunk_size w0.
Proof.
  intros H. unfold target_chunk_size. rewrite (same_config_ratio w0 w H).
  destruct H as (_ & _ & _ & _ & -> & _). reflexivity.
Qed.

Lemma stream_codec_ok w j s :
  oc_streams w !! j = Some s -> stream_codec (Some j) w = (w, Ok (AVStream.codec s)).
Proof. intros H. unfold stream_codec. rewrite H. reflexivity. Qed.

Lemma stream_ptr_ok w j s :
  oc_streams w !! j = Some s -> stream_ptr (Some j) w = (w, Ok s).
Proof. intros H. unfold stream_ptr. rewrite H. reflexivity. Qed.

Lemma modify_codec_ok w j s f :
  oc_streams w !! j = Some s ->
  modify_codec (Some j) f w
  = (set_oc_streams (<[j := AVStream.set_codec (f (AVStream.codec s)) s]> (oc_streams w)) w,
     Ok tt).
Proof. intros H. unfold modify_codec. rewrite H. reflexivity. Qed.

Lemma memcpy_samples_ok frame_samples samples_position diff w :
  0 <= diff -> 0 <= samples_position -> 0 <= audio_input_position w ->
  audio_input_position w + diff <= Z.of_nat (length (samples w)) ->
  memcpy_samples frame_samples samples_position diff w
  = (set_samples
       (take (Z.to_nat (audio_input_position w)) (samples w)
        ++ map frame_samples (seq (Z.to_nat samples_position) (Z.to_nat diff))
        ++ drop (Z.to_nat (audio_input_position w + diff)) (samples w)) w,
     Ok tt).
Proof.
  intros H1 H2 H3 H4. unfold memcpy_samples.
  replace (diff <? 0) with false by lia.
  replace (audio_input_position w <? 0) with false by lia.
  replace (samples_position <? 0) with false by lia.
  replace (Z.of_nat (length (samples w)) <? audio_input_position w + diff) with false by lia.
  reflexivity.
Qed.

(** The loop is over when no sample of the frame remains. *)
Lemma audio_loop_done av fuel frame frame_samples samples_position remaining w :
  remaining <= 0 ->
  audio_loop av (S fuel) frame frame_samples samples_position remaining w = (w, Ok tt).
Proof.
  intros H. simpl. replace (remaining >? 0) with false by lia. reflexivity.
Qed.

(** A frame remainder that does not fill the chunk is copied behind the
    samples already held, and the loop stops. *)
Lemma audio_loop_partial av fuel frame frame_samples samples_position remaining w :
  0 < remaining < audio_input_frame_size w - audio_input_position w ->
  0 <= samples_position -> 0 <= audio_input_position w ->
  audio_input_frame_size w <= Z.of_nat (length (samples w)) ->
  audio_loop av (S fuel) frame frame_samples samples_position remaining w
  = (set_audio_input_position (audio_input_position w + remaining)
       (set_samples
          (take (Z.to_nat (audio_input_position w)) (samples w)
           ++ map frame_samples (seq (Z.to_nat samples_position) (Z.to_nat remaining))
           ++ drop (Z.to_nat (audio_input_position w + remaining)) (samples w)) w),
     Ok tt).
Proof.
  intros Hrem Hsp Hpos Hcap. simpl.
  replace (remaining >? 0) with true by lia.
  erewrite bind_ok by reflexivity.
  replace (remaining >=? audio_input_frame_size w - audio_input_position w) with false by lia.
  replace (remaining <? audio_input_frame_size w - audio_input_position w) with true by lia.
  erewrite bind_ok by (apply memcpy_samples_ok; lia).
  erewrite bind_ok by reflexivity.
  erewrite bind_ok by reflexivity.
  destruct w as [i fm l a v sm ob fs ps ifs r ev]. simpl in *.
  replace (ps + remaining <? fs) with true by lia. reflexivity.
Qed.

(** Filling the chunk: the missing samples are copied, the chunk is encoded
    and written, and the loop goes on with an empty accumulator. *)
Lemma audio_loop_full av fuel frame frame_samples samples_position remaining w j s :
  writes_succeed av ->
  audio_st w = Some j -> oc_streams w !! j = Some s ->
  0 < remaining -> 0 <= samples_position -> 0 <= audio_input_position w ->
  audio_input_frame_size w - audio_input_position w <= remaining ->
  audio_input_position w <= audio_input_frame_size w ->
  audio_input_frame_size w <= Z.of_nat (length (samples w)) ->
  exists w2 s2,
    audio_loop av (S fuel) frame frame_samples samples_position remaining w
    = audio_loop av fuel frame frame_samples
        (samples_position + (audio_input_frame_size w - audio_input_position w))
        (remaining - (audio_input_frame_size w - audio_input_position w)) w2
    /\ samples w2
       = take (Z.to_nat (audio_input_position w)) (samples w)
         ++ map frame_samples
              (seq (Z.to_nat samples_position)
                   (Z.to_nat (audio_input_frame_size w - audio_input_position w)))
         ++ drop (Z.to_nat (audio_input_frame_size w)) (samples w)
    /\ audio_input_position w2 = 0
    /\ audio_input_frame_size w2 = audio_input_frame_size w
    /\ encoded_chunks (events w2)
       = encoded_chunks (events w)
         ++ [take (Z.to_nat (audio_input_frame_size w)) (samples w2)]
    /\ audio_st w2 = Some j
    /\ oc_streams w2 !! j = Some s2.
Proof.
  intros Hwrite Hst Hs Hrem Hsp Hpos Hfill Hle Hcap.
  destruct w as [i fm l a v sm ob fs ps ifs r ev]. simpl in *. subst a.
  replace (remaining >? 0) with true by lia.
  erewrite bind_ok by reflexivity. simpl.
  replace (remaining >=? fs - ps) with true by lia.
  erewrite bind_ok by (apply memcpy_samples_ok; simpl; lia). simpl.
  erewrite bind_ok by reflexivity. simpl.
  erewrite bind_ok by reflexivity. simpl.
  replace (ps + (fs - ps) <? fs) with false by lia.
  erewrite bind_ok by (apply stream_codec_ok; simpl; exact Hs). simpl.
  erewrite bind_ok by reflexivity. simpl.
  erewrite bind_ok by reflexivity. simpl.
  erewrite bind_ok by (apply modify_codec_ok; simpl; exact Hs). simpl.
  erewrite bind_ok by
    (apply stream_codec_ok; simpl; apply list_lookup_insert_eq; eapply lookup_lt_Some; eauto).
  erewrite bind_ok by
    (apply stream_ptr_ok; simpl; apply list_lookup_insert_eq; eapply lookup_lt_Some; eauto).
  erewrite bind_ok by reflexivity. simpl.
  erewrite bind_ok by reflexivity. simpl.
  rewrite Hwrite. simpl.
  erewrite bind_ok by reflexivity. simpl.
  eexists _, _. split; [reflexivity|]. simpl.
  replace (ps + (fs - ps)) with fs by lia.
  repeat split.
  - unfold encoded_chunks. rewrite !flat_map_app. simpl. rewrite app_nil_r. reflexivity.
  - apply list_lookup_insert_eq. eapply lookup_lt_Some; eauto.
Qed.

Lemma take_memcpy_prefix (buf src : list Z) (pos n : nat) (rest : list Z) :
  (pos <= length buf)%nat -> length src = n ->
  take (pos + n) (take pos buf ++ src ++ rest) = take pos buf ++ src.
Proof.
  intros Hpos Hsrc. rewrite app_assoc.
  apply take_app_length'. rewrite length_app, length_take, Hsrc. lia.
Qed.

(** The accumulation loop, run from a state in which the accumulator holds
    fewer samples than a chunk: it returns, every chunk it hands to the
    encoder has the chunk size, and the chunks followed by what is left in
    the accumulator are what was in the accumulator followed by the frame's
    samples. *)
Lemma audio_loop_correct av :
  writes_succeed av ->
  forall fuel frame frame_samples samples_position remaining w j s,
    audio_st w = Some j -> oc_streams w !! j = Some s ->
    0 <= samples_position -> 0 <= remaining -> (Z.to_nat remaining < fuel)%nat ->
    0 <= audio_input_position w < audio_input_frame_size w ->
    audio_input_frame_size w <= Z.of_nat (length (samples w)) ->
    let r := audio_loop av fuel frame frame_samples samples_position remaining w in
    snd r = Ok tt
    /\ 0 <= audio_input_position (fst r) < audio_input_frame_size w
    /\ exists chunks,
         encoded_chunks (events (fst r)) = encoded_chunks (events w) ++ chunks
         /\ Forall (fun ch => length ch = Z.to_nat (audio_input_frame_size w)) chunks
         /\ concat chunks ++ take (Z.to_nat (audio_input_position (fst r))) (samples (fst r))
            = take (Z.to_nat (audio_input_position w)) (samples w)
              ++ map frame_samples (seq (Z.to_nat samples_position) (Z.to_nat remaining)).
Proof.
  intros Hwrite fuel frame frame_samples.
  induction fuel as [|fuel IH];
    intros samples_position remaining w j s Hst Hs Hsp Hrem Hfuel Hpos Hcap; [lia|].
  cbv zeta.
  destruct (Z.eq_dec remaining 0) as [->|Hne].
  { rewrite audio_loop_done by lia. simpl. split; [reflexivity|]. split; [lia|].
    exists []. rewrite !app_nil_r. repeat split. constructor. }
  destruct (Z_lt_le_dec remaining (audio_input_frame_size w - audio_input_position w))
    as [Hlt|Hge].
  { rewrite audio_loop_partial by lia.
    destruct w as [i fm l a v sm ob fs ps ifs r ev]. simpl in *.
    split; [reflexivity|]. split; [lia|].
    exists []. rewrite app_nil_r. split; [reflexivity|]. split; [constructor|]. simpl.
    rewrite Z2Nat.inj_add by lia.
    apply take_memcpy_prefix; [lia|]. rewrite length_map, length_seq. reflexivity. }
  destruct (audio_loop_full av fuel frame frame_samples samples_position remaining w j s)
    as (w2 & s2 & Hrun & Hsm2 & Hpos2 & Hfs2 & Hev2 & Hst2 & Hs2); try assumption; try lia.
  rewrite Hrun.
  set (fill := audio_input_frame_size w - audio_input_position w) in *.
  assert (Hlen2 : length (samples w2) = length (samples w)).
  { rewrite Hsm2.
    replace (Z.to_nat (audio_input_frame_size w))
      with (Z.to_nat (audio_input_position w + fill)) by (f_equal; lia).
    apply memcpy_length; try lia. rewrite length_map, length_seq. reflexivity. }
  destruct (IH (samples_position + fill) (remaining - fill) w2 j s2)
    as (Hok & Hpos' & chunks & Hchunks & Hall & Hcat); try assumption; try lia.
  split; [exact Hok|]. split; [lia|].
  assert (Hchunk : take (Z.to_nat (audio_input_frame_size w)) (samples w2)
                   = take (Z.to_nat (audio_input_position w)) (samples w)
                     ++ map frame_samples (seq (Z.to_nat samples_position) (Z.to_nat fill))).
  { rewrite Hsm2.
    replace (Z.to_nat (audio_input_frame_size w))
      with (Z.to_nat (audio_input_position w) + Z.to_nat fill)%nat by lia.
    apply take_memcpy_prefix; [lia|]. rewrite length_map, length_seq. reflexivity. }
  exists (take (Z.to_nat (audio_input_frame_size w)) (samples w2) :: chunks).
  split; [|split].
  - rewrite Hchunks, Hev2, <- app_assoc. reflexivity.
  - constructor.
    + rewrite length_take. lia.
    + rewrite Hfs2 in Hall. exact Hall.
  - simpl. rewrite <- app_assoc, Hcat, Hpos2. simpl. rewrite Hchunk, <- app_assoc.
    f_equal. rewrite <- map_app. f_equal.
    replace (Z.to_nat remaining) with (Z.to_nat fill + Z.to_nat (remaining - fill))%nat by lia.
    rewrite seq_app. f_equal. f_equal. lia.
Qed.

Lemma audio_codec_lookup w c :
  audio_codec w = Some c ->
  exists j s, audio_st w = Some j /\ oc_streams w !! j = Some s /\ AVStream.codec s = c.
Proof.
  unfold audio_codec. destruct (audio_st w) as [j|]; simpl; [|discriminate].
  destruct (oc_streams w !! j) as [s|] eqn:Hs; simpl; [|discriminate].
  intros [= <-]. exists j, s. repeat split. exact Hs.
Qed.

(** Lines 559-616 computed, for a writer whose audio stream is there. *)
Lemma prepare_audio_run av frame w j s :
  audio_st w = Some j -> oc_streams w !! j = Some s ->
  let c := AVStream.codec s in
  let total := frame_sample_count frame in
  let ratio :=
    av_get_bytes_per_sample (AVCodecContext.sample_fmt c)
    ÷ av_get_bytes_per_sample AV_SAMPLE_FMT_S16 in
  let total' := int_mul total ratio in
  let w1 := set_resampler true w in
  let w2 :=
    set_audio_input_frame_size (int_mul (initial_audio_input_frame_size w) ratio)
      (set_events (events w ++ [EvResample total]) w1) in
  prepare_audio av frame w
  = if Z.of_nat (AUDIO_BUFFER_SIZE av) <? total then (w1, Undefined)
    else if needs_conversion c (info w) frame then
      if av_audio_resample_init av (FileInfo.channels (info w))
           (Frame.GetAudioChannelsCount frame) (FileInfo.sample_rate (info w))
           (FileInfo.sample_rate (info w)) (AVCodecContext.sample_fmt c) AV_SAMPLE_FMT_S16
      then
        if (total' <? 0) || (Z.of_nat (AUDIO_BUFFER_SIZE av) <? total')
           || (INT_MAX <? total' * av_get_bytes_per_sample AV_SAMPLE_FMT_S16)
        then (w2, Undefined)
        else
          (w2,
           Ok (fun s0 : nat =>
                 if Z.of_nat s0 <? total'
                 then audio_resample av (Frame.samples16 frame) total s0
                 else Frame.samples16 frame s0,
               total'))
      else (w1, Throw ResampleError)
    else (w1, Ok (Frame.samples16 frame, total)).
Proof.
  intros Hst Hs. cbv zeta. unfold prepare_audio, frame_sample_count.
  erewrite bind_ok by reflexivity.
  erewrite bind_ok by (rewrite Hst; apply stream_codec_ok; exact Hs).
  destruct (Z.of_nat (AUDIO_BUFFER_SIZE av) <? _);
    [destruct w as [i fm l a v sm ob fs ps ifs [|] ev]; reflexivity|].
  destruct (needs_conversion _ _ _);
    [|destruct w as [i fm l a v sm ob fs ps ifs [|] ev]; reflexivity].
  destruct (av_audio_resample_init _ _ _ _ _ _ _);
    [|destruct w as [i fm l a v sm ob fs ps ifs [|] ev]; reflexivity].
  destruct (_ || _); destruct w as [i fm l a v sm ob fs ps ifs [|] ev]; reflexivity.
Qed.

Lemma width_ratio_codec w c :
  audio_codec w = Some c ->
  width_ratio w
  = av_get_bytes_per_sample (AVCodecContext.sample_fmt c)
    ÷ av_get_bytes_per_sample AV_SAMPLE_FMT_S16.
Proof. intros Hc. unfold width_ratio. rewrite Hc. reflexivity. Qed.

(** A frame of more samples than [frame_samples] has cells: the fill loop
    runs past the array, whatever the writer's state otherwise. *)
Lemma prepare_audio_overrun av frame w j s :
  audio_st w = Some j -> oc_streams w !! j = Some s ->
  Z.of_nat (AUDIO_BUFFER_SIZE av) < frame_sample_count frame ->
  prepare_audio av frame w = (set_resampler true w, Undefined).
Proof.
  intros Hst Hs Hbig. rewrite (prepare_audio_run av frame w j s Hst Hs). cbv zeta.
  replace (Z.of_nat (AUDIO_BUFFER_SIZE av) <? frame_sample_count frame) with true by lia.
  reflexivity.
Qed.

(** What [frame_fits] says, for a writer whose encoder context is [c]. *)
Lemma frame_fits_spec av w frame c :
  audio_codec w = Some c -> frame_fits av w frame = true ->
  frame_sample_count frame <= Z.of_nat (AUDIO_BUFFER_SIZE av)
  /\ (needs_conversion c (info w) frame = true ->
      0 <= converted_sample_count w frame <= Z.of_nat (AUDIO_BUFFER_SIZE av)
      /\ converted_sample_count w frame * av_get_bytes_per_sample AV_SAMPLE_FMT_S16
         <= INT_MAX).
Proof.
  intros Hc Hfit. unfold frame_fits, converts in Hfit. rewrite Hc in Hfit.
  apply andb_true_iff in Hfit. destruct Hfit as [Hfill Hconv].
  apply Z.leb_le in Hfill. split; [exact Hfill|].
  intros Hneeds. rewrite Hneeds in Hconv. simpl in Hconv.
  apply andb_true_iff in Hconv. destruct Hconv as [Hconv Hint].
  apply andb_true_iff in Hconv. destruct Hconv as [Hlow Hhigh].
  apply Z.leb_le in Hlow. apply Z.leb_le in Hhigh. apply Z.leb_le in Hint.
  split; [split|]; assumption.
Qed.

(** Lines 559-616 from a ready accumulator, for a frame that fits the
    conversion arrays: the call gets to the loop with the samples the frame
    submits and the chunk size the writer settles on, and nothing else that
    matters to the accumulator has changed. *)
Lemma prepare_audio_ready av w frame :
  resampler_available av -> accumulator_ready w -> frame_fits av w frame = true ->
  exists w1 frame_samples total,
    prepare_audio av frame w = (w1, Ok (frame_samples, total))
    /\ submitted av w frame = map frame_samples (seq 0 (Z.to_nat total))
    /\ audio_input_frame_size w1 = target_chunk_size w
    /\ audio_input_position w1 = audio_input_position w
    /\ samples w1 = samples w
    /\ oc_streams w1 = oc_streams w
    /\ audio_st w1 = audio_st w
    /\ encoded_chunks (events w1) = encoded_chunks (events w).
Proof.
  intros Hres (Hcodec & Htarget & Hpos & Hsize) Hfit.
  destruct Hcodec as [c Hc].
  destruct (audio_codec_lookup w c Hc) as (j & s & Hst & Hs & Hcs).
  pose proof (width_ratio_codec w c Hc) as Hratio.
  destruct (frame_fits_spec av w frame c Hc Hfit) as [Hfill Hconvfit].
  pose proof (prepare_audio_run av frame w j s Hst Hs) as Hrun. cbv zeta in Hrun.
  rewrite Hcs, <- Hratio in Hrun.
  fold (converted_sample_count w frame) in Hrun.
  replace (Z.of_nat (AUDIO_BUFFER_SIZE av) <? frame_sample_count frame) with false in Hrun
    by lia.
  unfold submitted, converts. rewrite Hc.
  destruct (needs_conversion c (info w) frame) eqn:Hconv.
  - rewrite Hres in Hrun. destruct (Hconvfit eq_refl) as [Hrange Hint].
    replace (converted_sample_count w frame <? 0) with false in Hrun by lia.
    replace (Z.of_nat (AUDIO_BUFFER_SIZE av) <? converted_sample_count w frame)
      with false in Hrun by lia.
    replace (INT_MAX <? converted_sample_count w frame
                        * av_get_bytes_per_sample AV_SAMPLE_FMT_S16)
      with false in Hrun by lia.
    cbn [orb] in Hrun.
    eexists _, _, _. split; [exact Hrun|].
    split.
    { apply map_ext_in. intros s0 Hin. apply in_seq in Hin.
      replace (Z.of_nat s0 <? converted_sample_count w frame) with true by lia.
      reflexivity. }
    unfold target_chunk_size.
    destruct w as [i fm l a v sm ob fs ps ifs r ev]. simpl.
    repeat split. unfold encoded_chunks. rewrite flat_map_app, app_nil_r. reflexivity.
  - assert (Hone : width_ratio w = 1).
    { rewrite Hratio. unfold needs_conversion in Hconv.
      apply orb_false_iff in Hconv. destruct Hconv as [Hfmt _].
      destruct (AVCodecContext.sample_fmt c); simpl in Hfmt; try discriminate. reflexivity. }
    assert (Hfs : audio_input_frame_size w = target_chunk_size w)
      by (destruct Hsize as [H|[H _]]; [exact H | contradiction]).
    eexists _, _, _. split; [exact Hrun|].
    split; [reflexivity|].
    destruct w as [i fm l a v sm ob fs ps ifs r ev]. simpl in *.
    repeat split. exact Hfs.
Qed.

Lemma same_config_codec w0 w :
  same_config w0 w -> is_Some (audio_codec w0) -> is_Some (audio_codec w).
Proof.
  intros (_ & _ & _ & _ & _ & _ & _ & H) [c Hc]. rewrite Hc in H.
  destruct (audio_codec w); [eexists; reflexivity | discriminate].
Qed.

(** One call from a ready accumulator. *)
Lemma write_audio_packet_correct av fuel frame w :
  writes_succeed av -> resampler_available av -> accumulator_ready w ->
  frame_fits av w frame = true ->
  (length (submitted av w frame) < fuel)%nat ->
  let r := write_audio_packet av fuel frame w in
  snd r = Ok tt
  /\ accumulator_ready (fst r)
  /\ same_config w (fst r)
  /\ audio_input_frame_size (fst r) = target_chunk_size w
  /\ exists chunks,
       encoded_chunks (events (fst r)) = encoded_chunks (events w) ++ chunks
       /\ Forall (fun ch => Z.of_nat (length ch) = target_chunk_size w) chunks
       /\ concat chunks ++ take (Z.to_nat (audio_input_position (fst r))) (samples (fst r))
          = take (Z.to_nat (audio_input_position w)) (samples w) ++ submitted av w frame.
Proof.
  intros Hwrite Hres Hready Hfit Hfuel. cbv zeta.
  pose proof (write_audio_packet_keeps av _ (same_config_stable w) fuel frame w
                (same_config_refl w)) as Hcfg.
  destruct (prepare_audio_ready av w frame Hres Hready Hfit)
    as (w1 & frame_samples & total & Hprep & Hsub & Hfs1 & Hpos1 & Hsm1 & Hl1 & Hst1 & Hev1).
  pose proof Hready as (Hcodec & Htarget & Hpos & Hsize).
  assert (Hpos1' : 0 <= audio_input_position w1 < audio_input_frame_size w1).
  { rewrite Hpos1, Hfs1. destruct Hsize as [H|[_ H]]; [rewrite <- H|]; lia. }
  pose proof (audio_loop_keeps av _ (frame_size_loop_stable (audio_input_frame_size w1))
                fuel frame frame_samples 0 total w1 eq_refl) as Hfs'.
  destruct Hcodec as [c Hc].
  destruct (audio_codec_lookup w c Hc) as (j & s & Hst & Hs & _).
  assert (Hloop :
    let r := audio_loop av fuel frame frame_samples 0 total w1 in
    snd r = Ok tt
    /\ 0 <= audio_input_position (fst r) < audio_input_frame_size w1
    /\ exists chunks,
         encoded_chunks (events (fst r)) = encoded_chunks (events w1) ++ chunks
         /\ Forall (fun ch => length ch = Z.to_nat (audio_input_frame_size w1)) chunks
         /\ concat chunks ++ take (Z.to_nat (audio_input_position (fst r))) (samples (fst r))
            = take (Z.to_nat (audio_input_position w1)) (samples w1)
              ++ map frame_samples (seq (Z.to_nat 0) (Z.to_nat total))).
  { destruct (Z_lt_le_dec total 0) as [Hneg|Hnn].
    - destruct fuel as [|fuel]; [lia|]. cbv zeta.
      rewrite audio_loop_done by lia. simpl.
      split; [reflexivity|]. split; [exact Hpos1'|].
      exists []. rewrite !app_nil_r. split; [reflexivity|]. split; [constructor|].
      replace (Z.to_nat total) with 0%nat by lia. simpl. rewrite app_nil_r. reflexivity.
    - apply (audio_loop_correct av Hwrite fuel frame frame_samples 0 total w1 j s);
        try lia; try congruence.
      + rewrite Hsub, length_map, length_seq in Hfuel. exact Hfuel.
      + rewrite Hfs1, Hsm1. lia. }
  unfold write_audio_packet in *. erewrite bind_ok in * by exact Hprep. simpl in *.
  destruct Hloop as (Hok & Hpos' & chunks & Hchunks & Hall & Hcat).
  split; [exact Hok|].
  assert (Hready' : accumulator_ready
                      (fst (audio_loop av fuel frame frame_samples 0 total w1))).
  { split; [eapply same_config_codec; eauto|].
    rewrite (same_config_target _ _ Hcfg).
    destruct Hcfg as (_ & _ & _ & _ & _ & Hlen & _).
    rewrite Hlen, Hfs', Hfs1. split; [exact Htarget|]. split; [lia|]. left. reflexivity. }
  split; [exact Hready'|]. split; [exact Hcfg|]. split; [congruence|].
  exists chunks. split; [congruence|]. split.
  - eapply Forall_impl; [exact Hall|]. simpl. intros ch Hch. rewrite Hch, Hfs1. lia.
  - rewrite Hcat, Hpos1, Hsm1, Hsub. reflexivity.
Qed.

Lemma same_config_converts w0 w frame :
  same_config w0 w -> converts w frame = converts w0 frame.
Proof.
  intros (Hinfo & _ & _ & _ & _ & _ & _ & Hfmt). unfold converts, needs_conversion.
  rewrite Hinfo.
  destruct (audio_codec w), (audio_codec w0); simpl in Hfmt; try discriminate;
    [|reflexivity].
  injection Hfmt as Hfmt. rewrite Hfmt. reflexivity.
Qed.

Lemma submitted_same_config av w0 w frame :
  same_config w0 w -> submitted av w frame = submitted av w0 frame.
Proof.
  intros Hcfg. unfold submitted, converted_sample_count.
  rewrite (same_config_converts w0 w frame Hcfg), (same_config_ratio w0 w Hcfg).
  reflexivity.
Qed.

Lemma frame_fits_same_config av w0 w frame :
  same_config w0 w -> frame_fits av w frame = frame_fits av w0 frame.
Proof.
  intros Hcfg. unfold frame_fits, converted_sample_count.
  rewrite (same_config_converts w0 w frame Hcfg), (same_config_ratio w0 w Hcfg).
  reflexivity.
Qed.

Lemma same_config_trans w0 w1 w2 :
  same_config w0 w1 -> same_config w1 w2 -> same_config w0 w2.
Proof.
  unfold same_config. intros H1 H2.
  repeat match goal with H : _ /\ _ |- _ => destruct H end.
  repeat split; congruence.
Qed.





(** ** The chunk size after a format or channel conversion *)



(** ** Key-frame flags of emitted packets *)

Lemma written_packets_audio added :
  Forall is_audio_event added ->
  Forall (fun pkt => key_flagged pkt = true) (written_packets added).
Proof.
  induction 1 as [|e added He _ IH]; simpl; [constructor|].
  destruct e; simpl in *; try exact IH; try contradiction.
  constructor; [apply He | exact IH].
Qed.

Lemma stream_codec_null w j :
  oc_streams w !! j = None -> stream_codec (Some j) w = (w, Undefined).
Proof. intros H. unfold stream_codec. rewrite H. reflexivity. Qed.

Lemma key_flagged_init_lor :
  key_flagged
    (AVPacket.set_flags (Z.lor (AVPacket.flags av_init_packet) AV_PKT_FLAG_KEY) av_init_packet)
  = true.
Proof. reflexivity. Qed.

Lemma coded_frame_set v c :
  AVCodecContext.coded_frame (AVCodecContext.set_coded_frame v c) = v.
Proof. destruct c. reflexivity. Qed.

Lemma allocate_avframe_ok av pix_fmt width height w :
  avcodec_alloc_frame av (events w) = true ->
  0 <= avpicture_get_size av pix_fmt width height ->
  allocate_avframe av pix_fmt width height w
  = (w, Ok (AVPicture.mk pix_fmt width height
              (replicate (Z.to_nat (avpicture_get_size av pix_fmt width height)) 0),
            avpicture_get_size av pix_fmt width height)).
Proof.
  intros H Hsize. unfold allocate_avframe. erewrite bind_ok by reflexivity.
  rewrite H. replace (_ <? 0) with false by lia. reflexivity.
Qed.

Lemma allocate_avframe_negative av pix_fmt width height w :
  avcodec_alloc_frame av (events w) = true ->
  avpicture_get_size av pix_fmt width height < 0 ->
  allocate_avframe av pix_fmt width height w = (w, Throw BadAlloc).
Proof.
  intros H Hsize. unfold allocate_avframe. erewrite bind_ok by reflexivity.
  rewrite H. replace (_ <? 0) with true by lia. reflexivity.
Qed.

(** One call of allocate_avframe at the head of a computation, the frame
    structure being allocated: [failed] closes the goal the call leaves
    when the buffer size is negative. *)
Ltac step_allocate failed :=
  match goal with
  | |- context [allocate_avframe ?av ?p ?wd ?ht] =>
      let Hbuffer := fresh "Hbuffer" in
      destruct (Z_lt_le_dec (avpicture_get_size av p wd ht) 0) as [Hbuffer|Hbuffer];
      [erewrite bind_throw by (apply allocate_avframe_negative; assumption); failed
      |erewrite bind_ok by (apply allocate_avframe_ok; assumption)]
  end.

Lemma allocate_avframe_fail av pix_fmt width height w :
  avcodec_alloc_frame av (events w) = false ->
  allocate_avframe av pix_fmt width height w = (w, Throw OutOfMemory).
Proof.
  intros H. unfold allocate_avframe. erewrite bind_ok by reflexivity.
  rewrite H. reflexivity.
Qed.

(** What write_video_packet logs, and the key flag of the packet it writes. *)
Lemma write_video_packet_events av frame w :
  let r := write_video_packet av frame w in
  exists added,
    events (fst r) = events w ++ added
    /\ Forall (fun pkt =>
         if negb (Z.land (AVOutputFormat.flags (fmt w)) AVFMT_RAWPICTURE =? 0)
         then key_flagged pkt = true
         else exists cf,
                AVCodecContext.coded_frame <$> video_codec (fst r) = Some (Some cf)
                /\ (key_flagged pkt = true <-> AVFrame.key_frame cf <> 0))
         (written_packets added).
Proof.
  cbv zeta. unfold write_video_packet.
  erewrite bind_ok by reflexivity.
  destruct w as [i fm l a v sm ob fs ps ifs r ev]. simpl.
  assert (Hnil : forall (res : Result unit) (P : AVPacket.t -> Prop),
            exists added, ev = ev ++ added /\ Forall P (written_packets added)).
  { intros _ P. exists []. rewrite app_nil_r. split; [reflexivity|constructor]. }
  destruct v as [j|]; [|apply (Hnil Undefined)].
  destruct (l !! j) as [s|] eqn:Hs;
    [|erewrite bind_undefined by (apply stream_codec_null; exact Hs); apply (Hnil Undefined)].
  erewrite bind_ok by (apply stream_codec_ok; exact Hs).
  destruct (avcodec_alloc_frame av ev) eqn:Halloc;
    [|erewrite bind_throw by (apply allocate_avframe_fail; exact Halloc);
      apply (Hnil Undefined)].
  step_allocate ltac:(apply (Hnil Undefined)).
  step_allocate ltac:(apply (Hnil Undefined)). simpl.
  unfold fill_rgb.
  destruct (_ || _);
    [erewrite bind_undefined by reflexivity; apply (Hnil Undefined)|].
  erewrite bind_ok by reflexivity.
  destruct (sws_getContext av _ _ _ _ _ _); [|apply (Hnil Undefined)].
  erewrite bind_ok by reflexivity. simpl.
  destruct (negb (Z.land (AVOutputFormat.flags fm) AVFMT_RAWPICTURE =? 0)) eqn:Hraw.
  - erewrite bind_ok by (apply stream_ptr_ok; exact Hs).
    erewrite bind_ok by reflexivity. simpl.
    erewrite bind_ok by reflexivity. simpl.
    unfold when, throw, ret.
    eexists [_; _]. split.
    + destruct (negb (av_interleaved_write_frame _ _ _ =? 0)); simpl;
        rewrite <- app_assoc; reflexivity.
    + simpl. constructor; [reflexivity|constructor].
  - erewrite bind_ok by reflexivity. simpl.
    erewrite bind_ok by reflexivity. simpl.
    erewrite bind_ok by (apply modify_codec_ok; exact Hs). simpl.
    set (enc := avcodec_encode_video av _ _ _).
    assert (Hj : (j < length l)%nat) by (eapply lookup_lt_Some; eauto).
    unfold when, throw, ret.
    destruct (out_size enc >? 0); simpl.
    + erewrite bind_ok by (apply stream_codec_ok; simpl; apply list_lookup_insert_eq; exact Hj).
      simpl. rewrite coded_frame_set.
      destruct (out_coded_frame enc) as [cf|] eqn:Henc.
      * erewrite bind_ok by
          (apply stream_ptr_ok; simpl; apply list_lookup_insert_eq; exact Hj).
        erewrite bind_ok by reflexivity. simpl.
        erewrite bind_ok by reflexivity. simpl.
        eexists [_; _; _]. split.
        -- destruct (negb (av_interleaved_write_frame _ _ _ =? 0)); simpl;
             rewrite <- !app_assoc; reflexivity.
        -- simpl. constructor; [|constructor].
           exists cf. split.
           ++ destruct (negb (av_interleaved_write_frame _ _ _ =? 0)); simpl;
                unfold video_codec; simpl;
                rewrite list_lookup_insert_eq by exact Hj; simpl;
                rewrite coded_frame_set; reflexivity.
           ++ unfold key_flagged. simpl.
              destruct (AVFrame.key_frame cf =? 0) eqn:Hk; simpl.
              ** destruct (negb (AVFrame.pts cf =? AV_NOPTS_VALUE)); simpl;
                   split; [discriminate | lia | discriminate | lia].
              ** destruct (negb (AVFrame.pts cf =? AV_NOPTS_VALUE)); simpl;
                   split; [lia | reflexivity | lia | reflexivity].
      * eexists [_; _]. split; [simpl; rewrite <- app_assoc; reflexivity|].
        simpl. constructor.
    + eexists [_; _]. split; [simpl; rewrite <- app_assoc; reflexivity|].
      simpl. constructor.
Qed.

(** C7: every packet write_audio_packet writes carries the key-frame flag,
    whatever the encoder reported.  A packet write_video_packet writes
    carries it always in raw-picture container mode, and otherwise exactly
    when the coded frame the video encoder left in the codec context is
    marked as a key frame. *)
Theorem packet_key_flags av fuel frame w :
  (let r := write_audio_packet av fuel frame w in
   exists added,
     events (fst r) = events w ++ added
     /\ Forall (fun pkt => key_flagged pkt = true) (written_packets added))
  /\ (let r := write_video_packet av frame w in
      exists added,
        events (fst r) = events w ++ added
        /\ Forall (fun pkt =>
             if negb (Z.land (AVOutputFormat.flags (fmt w)) AVFMT_RAWPICTURE =? 0)
             then key_flagged pkt = true
             else exists cf,
                    AVCodecContext.coded_frame <$> video_codec (fst r) = Some (Some cf)
                    /\ (key_flagged pkt = true <-> AVFrame.key_frame cf <> 0))
             (written_packets added)).
Proof.
  split.
  - cbv zeta.
    destruct (write_audio_packet_keeps av _ (audio_events_added_stable w) fuel frame w)
      as (added & Hev & Hall).
    + exists []. rewrite app_nil_r. split; [reflexivity|constructor].
    + exists added. split; [exact Hev|]. apply written_packets_audio, Hall.
  - apply write_video_packet_events.
Qed.

(** ** Stream preparation with audio only *)

Lemma returns_ret {A} (R : A -> Prop) a : R a -> returns R (ret a).
Proof. intros H w w' a' [= _ <-]. exact H. Qed.

Lemma returns_throw {A} (R : A -> Prop) e : returns R (throw e).
Proof. intros w w' a H. discriminate. Qed.

Lemma returns_undefined {A} (R : A -> Prop) : returns R undefined.
Proof. intros w w' a H. discriminate. Qed.

Lemma returns_bind {A B} (R : B -> Prop) (m : M A) (k : A -> M B) :
  (forall a, returns R (k a)) -> returns R (bind m k).
Proof.
  intros Hk w w' b. unfold bind.
  destruct (m w) as [w1 [a|e| |]]; try discriminate. apply Hk.
Qed.

Lemma bind_ok_inv {A B} (m : M A) (k : A -> M B) w w' b :
  bind m k w = (w', Ok b) -> exists w1 a, m w = (w1, Ok a) /\ k a w1 = (w', Ok b).
Proof.
  unfold bind. destruct (m w) as [w1 [a|e| |]]; try discriminate. eauto.
Qed.

Ltac returns_structure :=
  repeat first
    [ apply returns_bind | apply returns_throw | apply returns_undefined
    | match goal with
      | |- forall _, _ => intro
      | |- returns _ (match ?x with _ => _ end) => destruct x
      end ].

Ltac codec_keeps H :=
  repeat first
    [ apply keeps_modify_codec; intros; eapply (stable_codec _ H); eassumption
    | apply keeps_log; intros; apply (stable_open_event _ H); assumption
    | apply keeps_modify; intros;
      first [ apply (stable_open_frame_size _ H) | apply (stable_open_initial _ H)
            | apply (stable_open_samples _ H) | apply (stable_open_outbuf _ H) ];
      assumption
    | keeps_structure
    | match goal with |- keeps _ (if ?b then _ else _) => destruct b end ].

(** add_audio_stream either throws before anything is allocated, or
    appends one stream and goes on to configure it. *)
Lemma add_audio_stream_shape av w :
  (exists e, add_audio_stream av w = (w, Throw e))
  \/ (exists codec tb c0 (tail : M (option nat)),
        add_audio_stream av w = tail (with_new_stream codec tb c0 w)
        /\ (forall P, codec_stable P -> keeps P tail)
        /\ returns (eq (Some (length (oc_streams w)))) tail).
Proof.
  unfold add_audio_stream. erewrite bind_ok by reflexivity.
  destruct (avcodec_find_encoder_by_name av _) as [codec|]; [|left; eexists; reflexivity].
  destruct (avformat_new_stream av (oc_streams w) codec) as [[tb c0]|] eqn:Hnew.
  - right. exists codec, tb, c0.
    erewrite bind_ok by (unfold new_stream; rewrite Hnew; reflexivity). cbn beta iota zeta.
    eexists. split; [unfold with_new_stream; reflexivity|]. split.
    + intros P HP. codec_keeps HP.
    + returns_structure. apply returns_ret. reflexivity.
  - left. erewrite bind_ok by (unfold new_stream; rewrite Hnew; reflexivity).
    eexists. reflexivity.
Qed.

Lemma open_audio_keeps av P st : codec_stable P -> keeps P (open_audio av st).
Proof. intros HP. unfold open_audio, open_codec. codec_keeps HP. Qed.

Lemma video_untouched_stable w0 : codec_stable (video_untouched w0).
Proof.
  split; intros w; intros; destruct w; unfold video_untouched in *; simpl in *; assumption.
Qed.

Lemma stream_count_stable n a :
  codec_stable (fun w => length (oc_streams w) = n /\ audio_st w = a).
Proof.
  split; intros w; intros; destruct w; simpl in *; try assumption.
  rewrite length_insert. assumption.
Qed.

Lemma codec_id_eqb_none id : codec_id_eqb id CODEC_ID_NONE = true <-> id = CODEC_ID_NONE.
Proof. destruct id; simpl; split; intros H; congruence. Qed.

(** initialize_streams with video disabled: no video stream is added, and
    the audio stream is added when the container format names an audio
    codec. *)
Lemma initialize_streams_audio_only av w :
  FileInfo.has_audio (info w) = true -> FileInfo.has_video (info w) = false ->
  let r := initialize_streams av w in
  video_untouched w (fst r)
  /\ (AVOutputFormat.audio_codec (fmt w) = CODEC_ID_NONE ->
      r = (set_audio_st None (set_video_st None w), Ok tt))
  /\ (AVOutputFormat.audio_codec (fmt w) <> CODEC_ID_NONE ->
      (snd r = Ok tt ->
       length (oc_streams (fst r)) = S (length (oc_streams w))
       /\ audio_st (fst r) = Some (length (oc_streams w)))
      /\ (snd r <> Ok tt -> audio_st (fst r) = None)).
Proof.
  intros Ha Hv. cbv zeta.
  destruct w as [i fm l a v sm ob fs ps ifs r ev]. simpl in *.
  unfold initialize_streams.
  do 3 (erewrite bind_ok by reflexivity). simpl.
  rewrite Hv, andb_false_r.
  erewrite bind_ok by reflexivity.
  erewrite bind_ok by reflexivity. simpl.
  rewrite Ha, andb_true_r.
  destruct (codec_id_eqb (AVOutputFormat.audio_codec fm) CODEC_ID_NONE) eqn:Hnone; simpl.
  - apply codec_id_eqb_none in Hnone.
    split; [repeat split|]. split; [reflexivity|]. intros Hne. contradiction.
  - assert (Hne : AVOutputFormat.audio_codec fm <> CODEC_ID_NONE).
    { intros H. apply codec_id_eqb_none in H. congruence. }
    set (w0 := mkWriter i fm l None None sm ob fs ps ifs r ev).
    destruct (add_audio_stream_shape av w0)
      as [[e He] | (codec & tb & c0 & tail & Hrun & Hkeeps & Hret)].
    + erewrite bind_throw by exact He. simpl.
      split; [repeat split|]. split; [contradiction|]. intros _.
      split; [discriminate | reflexivity].
    + pose proof (Hkeeps _ (video_untouched_stable w0) (with_new_stream codec tb c0 w0)) as H1.
      pose proof (Hkeeps _ (stream_count_stable (S (length l)) None)
                    (with_new_stream codec tb c0 w0)) as H2.
      unfold bind. rewrite Hrun.
      destruct (tail (with_new_stream codec tb c0 w0)) as [w1 res] eqn:Htail.
      simpl in H1, H2.
      specialize (H1 ltac:(repeat split)).
      destruct H2 as [Hlen Hst]; [split; [rewrite length_app; simpl; lia | reflexivity]|].
      destruct res as [st|e| |]; simpl.
      * apply Hret in Htail. simpl in Htail. subst st.
        destruct w1; unfold video_untouched in *; simpl in *.
        split; [exact H1|]. split; [contradiction|]. intros _.
        split; [intros _; split; [exact Hlen | reflexivity] | congruence].
      * split; [exact H1|]. split; [contradiction|]. intros _.
        split; [discriminate | intros _; exact Hst].
      * split; [exact H1|]. split; [contradiction|]. intros _.
        split; [discriminate | intros _; exact Hst].
      * split; [exact H1|]. split; [contradiction|]. intros _.
        split; [discriminate | intros _; exact Hst].
Qed.

Lemma bind_out_of_fuel {A B} (m : M A) (k : A -> M B) w w' :
  m w = (w', OutOfFuel) -> bind m k w = (w', OutOfFuel).
Proof. intros H. unfold bind. rewrite H. reflexivity. Qed.

(** With a null video stream pointer WriteFrame is the audio path alone. *)
Lemma WriteFrame_video_null av fuel frame w :
  video_st w = None ->
  WriteFrame av fuel frame w
  = (if FileInfo.has_audio (info w) && bool_decide (is_Some (audio_st w))
     then write_audio_packet av fuel frame w else (w, Ok tt)).
Proof.
  intros Hv. unfold WriteFrame.
  erewrite bind_ok by reflexivity. rewrite Hv.
  replace (bool_decide (is_Some (@None nat))) with false by reflexivity.
  rewrite andb_false_r.
  erewrite bind_ok by reflexivity.
  erewrite bind_ok by reflexivity.
  destruct (_ && _); reflexivity.
Qed.

Lemma video_st_null_stable : audio_stable (fun w => video_st w = None).
Proof. split; [split|..]; intros w; intros; destruct w; simpl in *; assumption. Qed.

Lemma audio_event_not_video e : is_audio_event e -> is_video_work e = false.
Proof.
  destruct e; simpl; try tauto. intros [_ [bytes Hdata]]. rewrite Hdata. reflexivity.
Qed.

Lemma audio_events_added_trans w0 w1 w2 :
  audio_events_added w0 w1 -> audio_events_added w1 w2 -> audio_events_added w0 w2.
Proof.
  intros (a1 & H1 & F1) (a2 & H2 & F2). exists (a1 ++ a2). split.
  - rewrite H2, H1, app_assoc. reflexivity.
  - apply Forall_app. split; assumption.
Qed.

Lemma audio_events_added_refl w : audio_events_added w w.
Proof. exists []. rewrite app_nil_r. split; [reflexivity|constructor]. Qed.

(** However many frames follow, a writer whose video stream pointer is null
    only ever makes audio calls. *)
Lemma WriteFrames_video_null av fuel frames w :
  video_st w = None ->
  video_st (WriteFrames av fuel frames w) = None
  /\ audio_events_added w (WriteFrames av fuel frames w).
Proof.
  revert w. induction frames as [|f rest IH]; intros w Hv; simpl.
  - split; [exact Hv | apply audio_events_added_refl].
  - assert (Hstep : video_st (fst (WriteFrame av fuel f w)) = None
                    /\ audio_events_added w (fst (WriteFrame av fuel f w))).
    { rewrite WriteFrame_video_null by exact Hv.
      destruct (_ && _); simpl; [|split; [exact Hv | apply audio_events_added_refl]].
      split.
      - apply (write_audio_packet_keeps av _ video_st_null_stable), Hv.
      - apply (write_audio_packet_keeps av _ (audio_events_added_stable w)),
          audio_events_added_refl. }
    destruct Hstep as [Hv1 He1].
    destruct (IH _ Hv1) as [Hv2 He2].
    split; [exact Hv2 | eapply audio_events_added_trans; eassumption].
Qed.

(** C6, as stated, fails: with audio enabled, video disabled and a
    container format that names no audio codec, PrepareStreams returns
    normally and has created no stream at all. *)
Lemma audio_only_without_audio_codec_no_stream :
  FileInfo.has_audio (info demo_no_audio_codec) = true
  /\ FileInfo.has_video (info demo_no_audio_codec) = false
  /\ snd (PrepareStreams demo_av demo_no_audio_codec) = Ok tt
  /\ oc_streams (fst (PrepareStreams demo_av demo_no_audio_codec)) = []
  /\ audio_st (fst (PrepareStreams demo_av demo_no_audio_codec)) = None.
Proof. vm_compute. repeat split. Qed.

(** C6 (amended): when only audio is enabled and video is disabled,
    PrepareStreams leaves video_st null.  If the container format names an
    audio codec, a call that returns normally has created exactly one
    stream, the audio stream audio_st points to; if the format names none
    (CODEC_ID_NONE), the call returns normally and has created no stream.
    Any subsequent WriteFrame call is the audio path alone: the video packet
    path and the pixel converter are never reached, whatever number of
    frames is written. *)
Theorem PrepareStreams_audio_only av w :
  FileInfo.has_audio (info w) = true -> FileInfo.has_video (info w) = false ->
  let r := PrepareStreams av w in
  let w' := fst r in
  video_st w' = None
  /\ (AVOutputFormat.audio_codec (fmt w) = CODEC_ID_NONE ->
      snd r = Ok tt /\ oc_streams w' = oc_streams w /\ audio_st w' = None)
  /\ (AVOutputFormat.audio_codec (fmt w) <> CODEC_ID_NONE ->
      snd r = Ok tt ->
      length (oc_streams w') = S (length (oc_streams w))
      /\ audio_st w' = Some (length (oc_streams w)))
  /\ (forall fuel frame,
        WriteFrame av fuel frame w'
        = (if FileInfo.has_audio (info w') && bool_decide (is_Some (audio_st w'))
           then write_audio_packet av fuel frame w' else (w', Ok tt)))
  /\ (forall fuel frames,
        video_st (WriteFrames av fuel frames w') = None
        /\ exists added,
             events (WriteFrames av fuel frames w') = events w' ++ added
             /\ Forall (fun e => is_video_work e = false) added).
Proof.
  intros Ha Hv. cbv zeta.
  assert (Hmain :
    video_untouched w (fst (PrepareStreams av w))
    /\ (AVOutputFormat.audio_codec (fmt w) = CODEC_ID_NONE ->
        snd (PrepareStreams av w) = Ok tt
        /\ oc_streams (fst (PrepareStreams av w)) = oc_streams w
        /\ audio_st (fst (PrepareStreams av w)) = None)
    /\ (AVOutputFormat.audio_codec (fmt w) <> CODEC_ID_NONE ->
        snd (PrepareStreams av w) = Ok tt ->
        length (oc_streams (fst (PrepareStreams av w))) = S (length (oc_streams w))
        /\ audio_st (fst (PrepareStreams av w)) = Some (length (oc_streams w)))).
  { destruct (initialize_streams_audio_only av w Ha Hv) as (Hun & Hnone & Hsome).
    unfold PrepareStreams.
    erewrite bind_ok by reflexivity. rewrite Ha, Hv. simpl.
    erewrite bind_ok by reflexivity.
    destruct (initialize_streams av w) as [w1 res1] eqn:Hinit. simpl in *.
    pose proof Hun as (Hv1 & Hi1 & Hf1).
    destruct res1 as [[]|e| |].
    2-4: (first [ erewrite bind_throw by exact Hinit
                | erewrite bind_undefined by exact Hinit
                | erewrite bind_out_of_fuel by exact Hinit ]; simpl;
          split; [exact Hun|]; split;
          [intros Hn; specialize (Hnone Hn); discriminate Hnone | intros _; discriminate]).
    erewrite bind_ok by exact Hinit.
    erewrite bind_ok by reflexivity. rewrite Hi1, Hv. simpl.
    erewrite bind_ok by reflexivity.
    erewrite bind_ok by reflexivity. rewrite Hi1, Ha. simpl.
    assert (Hdec : AVOutputFormat.audio_codec (fmt w) = CODEC_ID_NONE
                   \/ AVOutputFormat.audio_codec (fmt w) <> CODEC_ID_NONE).
    { destruct (AVOutputFormat.audio_codec (fmt w)); (left; reflexivity) || (right; discriminate). }
    destruct Hdec as [Hn|Hn].
    - specialize (Hnone Hn). injection Hnone as ->.
      destruct w; simpl in *. split; [exact Hun|]. split; [repeat split | contradiction].
    - destruct (Hsome Hn) as [Hok _]. destruct (Hok eq_refl) as [Hlen Hst].
      rewrite Hst. simpl.
      pose proof (open_audio_keeps av _ (Some (length (oc_streams w)))
                    (video_untouched_stable w) w1 Hun) as H1.
      pose proof (open_audio_keeps av _ (Some (length (oc_streams w)))
                    (stream_count_stable (S (length (oc_streams w)))
                       (Some (length (oc_streams w)))) w1 (conj Hlen Hst)) as H2.
      split; [exact H1|]. split; [contradiction|]. intros _ _. exact H2. }
  destruct Hmain as ((Hv' & Hi' & Hf') & Hnone & Hsome).
  split; [exact Hv'|]. split; [exact Hnone|]. split; [exact Hsome|]. split.
  - intros fuel frame. apply WriteFrame_video_null, Hv'.
  - intros fuel frames.
    destruct (WriteFrames_video_null av fuel frames _ Hv') as (Hv2 & added & Hev & Hall).
    split; [exact Hv2|]. exists added. split; [exact Hev|].
    eapply Forall_impl; [exact Hall|]. apply audio_event_not_video.
Qed.

Lemma PrepareStreams_audio_only_witness :
  let r := PrepareStreams demo_av demo_audio_only in
  video_st (fst r) = None
  /\ length (oc_streams (fst r)) = 1%nat
  /\ audio_st (fst r) = Some 0%nat.
Proof.
  destruct (PrepareStreams_audio_only demo_av demo_audio_only eq_refl eq_refl)
    as (Hv & _ & Hsome & _).
  destruct Hsome as [Hlen Hst]; [discriminate | vm_compute; reflexivity |].
  cbv zeta. split; [exact Hv|]. split; [exact Hlen | exact Hst].
Defined.

(** ** The range overload of WriteFrame *)

Lemma write_video_packet_keeps av P frame :
  (forall w e, (forall n, e <> EvGetFrame n) -> P w -> P (set_events (events w ++ [e]) w)) ->
  (forall w i s c, oc_streams w !! i = Some s -> P w ->
     P (set_oc_streams (<[i := AVStream.set_codec c s]> (oc_streams w)) w)) ->
  keeps P (write_video_packet av frame).
Proof.
  intros Hev Hcodec. unfold write_video_packet, allocate_avframe, fill_rgb.
  repeat first
    [ apply keeps_modify_codec; intros; eapply Hcodec; eassumption
    | apply keeps_log; intros; apply Hev; [intros; discriminate | assumption]
    | keeps_structure
    | match goal with |- keeps _ (if ?b then _ else _) => destruct b end ].
Qed.

Lemma pulled_frames_app evs e :
  (forall n, e <> EvGetFrame n) -> pulled_frames (evs ++ [e]) = pulled_frames evs.
Proof.
  intros He. unfold pulled_frames. rewrite flat_map_app. simpl.
  destruct e; rewrite ?app_nil_r; try reflexivity. exfalso. eapply He. reflexivity.
Qed.

Lemma pulled_frames_audio_stable k : audio_stable (fun w => pulled_frames (events w) = k).
Proof.
  split; [split|..]; intros w; intros; destruct w; simpl in *; try assumption.
  rewrite pulled_frames_app; [assumption|].
  intros n ->. simpl in *. contradiction.
Qed.

(** A single-frame WriteFrame requests no frame from any reader. *)
Lemma WriteFrame_pulled_frames av fuel frame w :
  pulled_frames (events (fst (WriteFrame av fuel frame w))) = pulled_frames (events w).
Proof.
  assert (H : keeps (fun w' => pulled_frames (events w') = pulled_frames (events w))
                (WriteFrame av fuel frame)).
  { unfold WriteFrame.
    repeat first
      [ apply write_video_packet_keeps;
        [ intros w1 e He Hw1; destruct w1; simpl in *;
          rewrite pulled_frames_app; assumption
        | intros w1 i s c _ Hw1; destruct w1; simpl in *; assumption ]
      | apply write_audio_packet_keeps, pulled_frames_audio_stable
      | keeps_structure ]. }
  apply H. reflexivity.
Qed.

Lemma int_succ_id n : INT_MIN <= n -> n < INT_MAX -> int_succ n = n + 1.
Proof. intros H1 H2. apply wrap_int_id. lia. Qed.

Lemma WriteFrame_loop_correct av audio_fuel reader length (P : FFmpegWriter -> Prop) start :
  length < INT_MAX -> INT_MIN <= start ->
  (forall w n, start <= n <= length -> P w ->
     let r := WriteFrame av audio_fuel (reader n) (set_events (events w ++ [EvGetFrame n]) w) in
     snd r = Ok tt /\ P (fst r)) ->
  forall fuel number w,
    start <= number ->
    (Z.to_nat (length - number + 1) < fuel)%nat ->
    P w ->
    let r := WriteFrame_loop av fuel audio_fuel reader number length w in
    snd r = Ok tt
    /\ P (fst r)
    /\ pulled_frames (events (fst r))
       = pulled_frames (events w) ++ seqZ number (length - number + 1).
Proof.
  intros Hmax Hmin Hbody fuel.
  induction fuel as [|fuel IH]; intros number w Hstart Hfuel HP; [lia|].
  cbv zeta. simpl.
  destruct (number <=? length) eqn:Hle.
  - apply Z.leb_le in Hle.
    erewrite bind_ok by reflexivity.
    destruct (Hbody w number (conj Hstart Hle) HP) as [Hok HP1].
    pose proof (WriteFrame_pulled_frames av audio_fuel (reader number)
                  (set_events (events w ++ [EvGetFrame number]) w)) as Hpulled.
    destruct (WriteFrame av audio_fuel (reader number)
                (set_events (events w ++ [EvGetFrame number]) w)) as [w1 res] eqn:Hrun.
    simpl in *. subst res.
    erewrite bind_ok by (unfold log, modify in Hrun |- *; exact Hrun).
    rewrite int_succ_id by lia.
    destruct (IH (number + 1) w1) as (Hok2 & HP2 & Hpulled2); try lia; try assumption.
    split; [exact Hok2|]. split; [exact HP2|].
    rewrite Hpulled2, Hpulled.
    rewrite (seqZ_cons number (length - number + 1)) by lia.
    replace (Z.succ number) with (number + 1) by lia.
    replace (Z.pred (length - number + 1)) with (length - (number + 1) + 1) by lia.
    destruct w; simpl. unfold pulled_frames. rewrite flat_map_app. simpl.
    rewrite <- app_assoc. reflexivity.
  - apply Z.leb_gt in Hle. simpl.
    split; [reflexivity|]. split; [exact HP|].
    rewrite seqZ_nil by lia. rewrite app_nil_r. reflexivity.
Qed.

(** C9: in WriteFrame(reader, start, length) the third parameter is an
    inclusive end index.  Provided the loop counter cannot overflow
    (length below INT_MAX) and every single-frame write of the run returns
    normally, the call returns normally and the frames it has requested
    from the reader are those numbered start, start + 1, ..., length, each
    once and in this order: length - start + 1 frames when start <= length,
    and none when length < start. *)
Theorem WriteFrame_range_inclusive av fuel audio_fuel reader start length
    (P : FFmpegWriter -> Prop) w :
  INT_MIN <= start -> length < INT_MAX ->
  (Z.to_nat (length - start + 1) < fuel)%nat ->
  P w ->
  (forall w n, start <= n <= length -> P w ->
     let r := WriteFrame av audio_fuel (reader n) (set_events (events w ++ [EvGetFrame n]) w) in
     snd r = Ok tt /\ P (fst r)) ->
  let r := WriteFrame_range av fuel audio_fuel reader start length w in
  let pulled := seqZ start (length - start + 1) in
  snd r = Ok tt
  /\ P (fst r)
  /\ pulled_frames (events (fst r)) = pulled_frames (events w) ++ pulled
  /\ (forall n, n ∈ pulled <-> start <= n <= length)
  /\ (start <= length -> Z.of_nat (List.length pulled) = length - start + 1)
  /\ (length < start -> pulled = []).
Proof.
  intros Hmin Hmax Hfuel HP Hbody. cbv zeta. unfold WriteFrame_range.
  destruct (WriteFrame_loop_correct av audio_fuel reader length P start Hmax Hmin Hbody
              fuel start w) as (Hok & HP' & Hpulled); try lia; try assumption.
  split; [exact Hok|]. split; [exact HP'|]. split; [exact Hpulled|]. split; [|split].
  - intros n. rewrite elem_of_seqZ. lia.
  - intros Hle. rewrite length_seqZ. lia.
  - intros Hlt. apply seqZ_nil. lia.
Qed.

Lemma accumulator_ready_events w evs :
  accumulator_ready w -> accumulator_ready (set_events evs w).
Proof. destruct w. exact (fun H => H). Qed.

Lemma same_config_events w0 w evs : same_config w0 w -> same_config w0 (set_events evs w).
Proof. destruct w. exact (fun H => H). Qed.

Lemma WriteFrame_range_inclusive_witness :
  let r := WriteFrame_range demo_av 8 8 (fun _ => demo_frame 1) 3 5 demo_opened in
  snd r = Ok tt /\ pulled_frames (events (fst r)) = [3; 4; 5].
Proof.
  assert (Hready : accumulator_ready demo_opened).
  { unfold accumulator_ready. vm_compute. repeat split; try discriminate.
    - eexists. reflexivity.
    - left. reflexivity. }
  destruct (WriteFrame_range_inclusive demo_av 8 8 (fun _ => demo_frame 1) 3 5
              (fun w => same_config demo_opened w /\ accumulator_ready w) demo_opened)
    as (Hok & _ & Hpulled & _).
  - unfold INT_MIN. lia.
  - unfold INT_MAX. lia.
  - simpl. lia.
  - split; [apply same_config_refl | exact Hready].
  - intros w n _ [Hcfg Hrdy]. cbv zeta.
    set (w1 := set_events (events w ++ [EvGetFrame n]) w).
    assert (Hcfg1 : same_config demo_opened w1) by (apply same_config_events, Hcfg).
    assert (Hrdy1 : accumulator_ready w1) by (apply accumulator_ready_events, Hrdy).
    pose proof Hcfg1 as (Hinfo & _ & Hast & Hvst & _).
    rewrite WriteFrame_video_null by (rewrite Hvst; reflexivity).
    rewrite Hinfo, Hast. simpl.
    destruct (write_audio_packet_correct demo_av 8 (demo_frame 1) w1)
      as (Hok & Hrdy2 & Hcfg2 & _); try assumption.
    + intros h p. reflexivity.
    + intros a b c d e f. reflexivity.
    + rewrite (frame_fits_same_config demo_av demo_opened w1 (demo_frame 1) Hcfg1).
      vm_compute. reflexivity.
    + rewrite (submitted_same_config demo_av demo_opened w1 (demo_frame 1) Hcfg1).
      vm_compute. lia.
    + split; [exact Hok|]. split; [|exact Hrdy2].
      eapply same_config_trans; eassumption.
  - split; [exact Hok | exact Hpulled].
Defined.

(** ** Further consequences and concrete runs *)



(** The state PrepareStreams leaves behind in the demo run is one the
    accumulator theorems start from. *)
Example PrepareStreams_accumulator_ready :
  snd (PrepareStreams demo_av demo_audio_only) = Ok tt
  /\ accumulator_ready (fst (PrepareStreams demo_av demo_audio_only)).
Proof.
  split; [reflexivity|]. unfold accumulator_ready. vm_compute.
  repeat split; try discriminate.
  - eexists. reflexivity.
  - left. reflexivity.
Qed.

(** Ten stereo frames of 3 samples per channel against a chunk size of 4:
    sixty samples make fifteen encoder invocations and leave nothing. *)
Example ten_frames_run :
  let w := fst (PrepareStreams demo_av demo_audio_only) in
  let r := write_audio_packets demo_av 8 (replicate 10 (demo_frame 3)) w in
  snd r = Ok tt
  /\ length (encoded_chunks (events (fst r))) = 15%nat
  /\ audio_input_position (fst r) = 0.
Proof. vm_compute. repeat split. Qed.

(** When the container refuses a packet the call throws with the full chunk
    still in the accumulator: the fill position equals the chunk size, and
    a caller that goes on writing has the same chunk encoded again. *)
Example write_failure_leaves_full_accumulator :
  let r := write_audio_packet demo_av_failing 8 (demo_frame 2) demo_opened in
  snd r = Throw (ErrorEncodingAudio 1)
  /\ audio_input_position (fst r) = audio_input_frame_size (fst r)
  /\ encoded_chunks (events (fst r)) = [[1; 2; 3; 4]]
  /\ encoded_chunks (events (fst (write_audio_packet demo_av 8 (demo_frame 2) (fst r))))
     = [[1; 2; 3; 4]; [1; 2; 3; 4]; [1; 2; 3; 4]].
Proof. vm_compute. repeat split. Qed.

(** A frame of more samples than the sample array has cells (18 against
    16): the loop of lines 582-584 writes past the array, and the call has
    no defined outcome.  The largest frame that fits is written. *)
Example oversized_frame_overruns :
  frame_sample_count (demo_frame 9) = 18
  /\ frame_fits demo_av demo_opened (demo_frame 9) = false
  /\ snd (write_audio_packet demo_av 64 (demo_frame 9) demo_opened) = Undefined
  /\ frame_fits demo_av demo_opened (demo_frame 8) = true
  /\ snd (write_audio_packet demo_av 64 (demo_frame 8) demo_opened) = Ok tt.
Proof. vm_compute. repeat split. Qed.

(** An exception in a single-frame write ends the range loop: later frames
    are not requested. *)
Example range_stops_at_exception :
  let r := WriteFrame_range demo_av_failing 8 8 (fun _ => demo_frame 2) 3 5 demo_opened in
  snd r = Throw (ErrorEncodingAudio 1)
  /\ pulled_frames (events (fst r)) = [3].
Proof. vm_compute. repeat split. Qed.

(** With the counter at INT_MAX the increment wraps and the loop does not
    end: whatever the budget, it is exhausted. *)
Example range_to_int_max_runs_on :
  snd (WriteFrame_range demo_av 6 8 (fun _ => demo_frame 0) (INT_MAX - 1) INT_MAX
         demo_opened) = OutOfFuel
  /\ pulled_frames
       (events (fst (WriteFrame_range demo_av 6 8 (fun _ => demo_frame 0) (INT_MAX - 1)
                       INT_MAX demo_opened)))
     = [INT_MAX - 1; INT_MAX; INT_MIN; INT_MIN + 1; INT_MIN + 2; INT_MIN + 3].
Proof. vm_compute. repeat split. Qed.

(** A video packet of a frame the encoder does not mark as key carries no
    key flag; the demo encoder marks every frame, so its packets do. *)
Example demo_video_packet_is_key :
  let w := fst (PrepareStreams demo_av demo_writer) in
  let r := write_video_packet demo_av (demo_frame 1) w in
  snd r = Ok tt
  /\ map key_flagged (written_packets (events (fst r))) = [true].
Proof. vm_compute. repeat split. Qed.

(** * Further properties of the modelled code *)

(** ** The option store *)

Lemma SetVideoOptions_closed_form av has_video codec fps width height pixel_ratio
    interlaced top_field_first bit_rate w :
  codec_accepted av codec ->
  SetVideoOptions av has_video codec fps width height pixel_ratio interlaced top_field_first
    bit_rate w
  = (set_info
       (video_options_info (resolved_codec av codec) has_video fps width height pixel_ratio
          interlaced top_field_first bit_rate (info w))
       (set_fmt
          (match resolved_codec av codec with
           | Some c => AVOutputFormat.set_video_codec (AVCodec.id c) (fmt w)
           | None => fmt w
           end) w),
     Ok tt).
Proof.
  intros Hacc. unfold SetVideoOptions, resolved_codec, video_options_info.
  unfold_monad. unfold bind.
  destruct w as [i f s a v sm ob fs ps ifs r ev], i, f.
  destruct (0 <? String.length codec)%nat eqn:Hc; simpl.
  - destruct (Hacc Hc) as [nc Hnc]. rewrite Hnc. simpl.
    destruct (Fraction.num fps >? 0), (width >=? 1), (height >=? 1),
      (Fraction.num pixel_ratio >? 0), (bit_rate >=? 1000); reflexivity.
  - destruct (Fraction.num fps >? 0), (width >=? 1), (height >=? 1),
      (Fraction.num pixel_ratio >? 0), (bit_rate >=? 1000); reflexivity.
Qed.

Lemma SetAudioOptions_closed_form av has_audio codec sample_rate channels bit_rate w :
  codec_accepted av codec ->
  SetAudioOptions av has_audio codec sample_rate channels bit_rate w
  = (set_info
       (audio_options_info (resolved_codec av codec) has_audio sample_rate channels bit_rate
          (info w))
       (set_fmt
          (match resolved_codec av codec with
           | Some c => AVOutputFormat.set_audio_codec (AVCodec.id c) (fmt w)
           | None => fmt w
           end) w),
     Ok tt).
Proof.
  intros Hacc. unfold SetAudioOptions, resolved_codec, audio_options_info.
  unfold_monad. unfold bind.
  destruct w as [i f s a v sm ob fs ps ifs r ev], i, f.
  destruct (0 <? String.length codec)%nat eqn:Hc; simpl.
  - destruct (Hacc Hc) as [nc Hnc]. rewrite Hnc. simpl.
    destruct (sample_rate >? 7999), (channels >? 0), (bit_rate >? 999); reflexivity.
  - destruct (sample_rate >? 7999), (channels >? 0), (bit_rate >? 999); reflexivity.
Qed.

Lemma codec_accepted_cases av codec :
  codec_accepted av codec
  \/ ((0 <? String.length codec)%nat = true
      /\ avcodec_find_encoder_by_name av codec = None).
Proof.
  unfold codec_accepted.
  destruct (0 <? String.length codec)%nat; [|left; discriminate].
  destruct (avcodec_find_encoder_by_name av codec) as [c|];
    [left; intros _; eexists; reflexivity | right; split; reflexivity].
Qed.

Lemma SetVideoOptions_rejected av has_video codec fps width height pixel_ratio interlaced
    top_field_first bit_rate w :
  (0 <? String.length codec)%nat = true -> avcodec_find_encoder_by_name av codec = None ->
  SetVideoOptions av has_video codec fps width height pixel_ratio interlaced top_field_first
    bit_rate w
  = (w, Throw InvalidCodec).
Proof.
  intros Hc Hnone. unfold SetVideoOptions. unfold_monad. unfold bind.
  rewrite Hc, Hnone. reflexivity.
Qed.

Lemma SetAudioOptions_rejected av has_audio codec sample_rate channels bit_rate w :
  (0 <? String.length codec)%nat = true -> avcodec_find_encoder_by_name av codec = None ->
  SetAudioOptions av has_audio codec sample_rate channels bit_rate w = (w, Throw InvalidCodec).
Proof.
  intros Hc Hnone. unfold SetAudioOptions. unfold_monad. unfold bind.
  rewrite Hc, Hnone. reflexivity.
Qed.

(** X1: a SetVideoOptions or SetAudioOptions call either returns normally or
    throws InvalidCodec; it throws exactly when the codec name is not empty
    and the library has no encoder of that name, and then the writer is
    left exactly as it was: no option of the call has been stored. *)
Theorem options_codec_failure_atomic av codec w :
  (forall has_video fps width height pixel_ratio interlaced top_field_first bit_rate,
     let r := SetVideoOptions av has_video codec fps width height pixel_ratio interlaced
                top_field_first bit_rate w in
     (codec_accepted av codec /\ snd r = Ok tt)
     \/ (~ codec_accepted av codec /\ r = (w, Throw InvalidCodec)))
  /\ (forall has_audio sample_rate channels bit_rate,
        let r := SetAudioOptions av has_audio codec sample_rate channels bit_rate w in
        (codec_accepted av codec /\ snd r = Ok tt)
        \/ (~ codec_accepted av codec /\ r = (w, Throw InvalidCodec))).
Proof.
  pose proof (codec_accepted_cases av codec) as Hdec.
  split; [intros ? ? ? ? ? ? ? ? | intros ? ? ? ?]; cbv zeta.
  - destruct Hdec as [Hacc | [Hc Hnone]].
    + left. split; [exact Hacc|]. rewrite SetVideoOptions_closed_form by exact Hacc. reflexivity.
    + right. split.
      * intros Hacc. destruct (Hacc Hc) as [c H]. congruence.
      * apply SetVideoOptions_rejected; assumption.
  - destruct Hdec as [Hacc | [Hc Hnone]].
    + left. split; [exact Hacc|]. rewrite SetAudioOptions_closed_form by exact Hacc. reflexivity.
    + right. split.
      * intros Hacc. destruct (Hacc Hc) as [c H]. congruence.
      * apply SetAudioOptions_rejected; assumption.
Qed.

(** X2: SetVideoOptions keeps the stored time base the reciprocal of the
    stored frame rate: if it was before the call it is after it, whatever
    the arguments and however the call ends; and a call that supplies a
    frame rate (positive numerator) and gets past the codec lookup stores
    that rate and its reciprocal. *)
Theorem SetVideoOptions_timebase_reciprocal av has_video codec fps width height pixel_ratio
    interlaced top_field_first bit_rate w :
  let r := SetVideoOptions av has_video codec fps width height pixel_ratio interlaced
             top_field_first bit_rate w in
  (timebase_reciprocal (info w) -> timebase_reciprocal (info (fst r)))
  /\ (codec_accepted av codec -> 0 < Fraction.num fps ->
      FileInfo.fps (info (fst r)) = fps
      /\ FileInfo.video_timebase (info (fst r))
         = Fraction.mk (Fraction.den fps) (Fraction.num fps)).
Proof.
  cbv zeta.
  destruct (codec_accepted_cases av codec) as [Hacc | [Hc Hnone]].
  - rewrite SetVideoOptions_closed_form by exact Hacc.
    destruct w as [i f s a v sm ob fs ps ifs r ev]. simpl.
    unfold video_options_info, timebase_reciprocal. simpl. split.
    + destruct (Fraction.num fps >? 0); simpl; [split; reflexivity | exact (fun H => H)].
    + intros _ Hpos. replace (Fraction.num fps >? 0) with true by lia.
      destruct fps. split; reflexivity.
  - rewrite SetVideoOptions_rejected by assumption. simpl.
    split; [exact (fun H => H)|].
    intros Hacc. destruct (Hacc Hc) as [c H]. congruence.
Qed.

Lemma SetVideoOptions_timebase_reciprocal_witness :
  let w' := fst (SetVideoOptions demo_av true "" (Fraction.mk 0 0) 1280 720 (Fraction.mk 0 0)
                   false false 0 demo_writer) in
  timebase_reciprocal (info w')
  /\ FileInfo.fps (info (fst (SetVideoOptions demo_av true "mpeg4" (Fraction.mk 25 1) 0 0
                                (Fraction.mk 0 0) false false 0 demo_writer)))
     = Fraction.mk 25 1.
Proof.
  cbv zeta. split.
  - apply (proj1 (SetVideoOptions_timebase_reciprocal demo_av true "" (Fraction.mk 0 0) 1280 720
                    (Fraction.mk 0 0) false false 0 demo_writer)).
    split; reflexivity.
  - apply (proj2 (SetVideoOptions_timebase_reciprocal demo_av true "mpeg4" (Fraction.mk 25 1)
                    0 0 (Fraction.mk 0 0) false false 0 demo_writer)).
    + intros _. eexists. reflexivity.
    + simpl. lia.
Defined.

(** X3: video options and audio options are independent: when both codec
    names are accepted, setting the video options and then the audio options
    leaves the writer in the same state as setting them in the other
    order. *)
Theorem options_commute av has_video vcodec fps width height pixel_ratio interlaced
    top_field_first video_bit_rate has_audio acodec sample_rate channels audio_bit_rate w :
  codec_accepted av vcodec -> codec_accepted av acodec ->
  (SetVideoOptions av has_video vcodec fps width height pixel_ratio interlaced top_field_first
     video_bit_rate ;;
   SetAudioOptions av has_audio acodec sample_rate channels audio_bit_rate) w
  = (SetAudioOptions av has_audio acodec sample_rate channels audio_bit_rate ;;
     SetVideoOptions av has_video vcodec fps width height pixel_ratio interlaced
       top_field_first video_bit_rate) w.
Proof.
  intros Hv Ha.
  erewrite bind_ok by (apply SetVideoOptions_closed_form; exact Hv).
  erewrite (bind_ok (SetAudioOptions _ _ _ _ _ _))
    by (apply SetAudioOptions_closed_form; exact Ha).
  rewrite SetAudioOptions_closed_form by exact Ha.
  rewrite SetVideoOptions_closed_form by exact Hv.
  destruct w as [i f s a v sm ob fs ps ifs r ev], i, f. simpl.
  unfold video_options_info, audio_options_info. simpl.
  destruct (resolved_codec av vcodec), (resolved_codec av acodec); reflexivity.
Qed.

Lemma options_commute_witness :
  (SetVideoOptions demo_av true "mpeg4" (Fraction.mk 30 1) 640 480 (Fraction.mk 1 1)
     false false 400000 ;;
   SetAudioOptions demo_av true "libmp3lame" 44100 2 128000) demo_writer
  = (SetAudioOptions demo_av true "libmp3lame" 44100 2 128000 ;;
     SetVideoOptions demo_av true "mpeg4" (Fraction.mk 30 1) 640 480 (Fraction.mk 1 1)
       false false 400000) demo_writer.
Proof.
  apply options_commute; intros _; eexists; reflexivity.
Defined.

(** X4: the option setters are idempotent: a second call with the same
    arguments changes nothing the first call has not already set. *)
Theorem options_idempotent av codec w :
  codec_accepted av codec ->
  (forall has_video fps width height pixel_ratio interlaced top_field_first bit_rate,
     let set := SetVideoOptions av has_video codec fps width height pixel_ratio interlaced
                  top_field_first bit_rate in
     (set ;; set) w = set w)
  /\ (forall has_audio sample_rate channels bit_rate,
        let set := SetAudioOptions av has_audio codec sample_rate channels bit_rate in
        (set ;; set) w = set w).
Proof.
  intros Hacc. split; [intros ? ? ? ? ? ? ? ? | intros ? ? ? ?]; cbv zeta.
  - erewrite bind_ok by (apply SetVideoOptions_closed_form; exact Hacc).
    rewrite !SetVideoOptions_closed_form by exact Hacc.
    destruct w as [i f s a v sm ob fs ps ifs r ev], i, f. simpl.
    unfold video_options_info. simpl.
    destruct (resolved_codec av codec), (Fraction.num fps >? 0), (width >=? 1),
      (height >=? 1), (Fraction.num pixel_ratio >? 0), (bit_rate >=? 1000); reflexivity.
  - erewrite bind_ok by (apply SetAudioOptions_closed_form; exact Hacc).
    rewrite !SetAudioOptions_closed_form by exact Hacc.
    destruct w as [i f s a v sm ob fs ps ifs r ev], i, f. simpl.
    unfold audio_options_info. simpl.
    destruct (resolved_codec av codec), (sample_rate >? 7999), (channels >? 0),
      (bit_rate >? 999); reflexivity.
Qed.

Lemma options_idempotent_witness :
  let set := SetVideoOptions demo_av true "mpeg4" (Fraction.mk 30 1) 640 0 (Fraction.mk 0 0)
               false true 400000 in
  (set ;; set) demo_writer = set demo_writer.
Proof.
  apply (proj1 (options_idempotent demo_av "mpeg4" demo_writer
                  ltac:(intros _; eexists; reflexivity))).
Defined.

(** ** The stream builders *)

Lemma add_video_stream_closed_form av w codec tb c0 :
  avcodec_find_encoder_by_name av (FileInfo.vcodec (info w)) = Some codec ->
  avformat_new_stream av (oc_streams w) codec = Some (tb, c0) ->
  add_video_stream av w
  = (with_new_stream codec tb (configured_video_context codec (info w) (fmt w) c0) w,
     Ok (Some (length (oc_streams w)))).
Proof.
  intros Hfind Hnew.
  destruct w as [i fm l a v sm ob fs ps ifs r ev]. simpl in *.
  unfold add_video_stream, with_new_stream, configured_video_context.
  run_step. rewrite Hfind.
  erewrite bind_ok by (unfold new_stream; simpl; rewrite Hnew; reflexivity).
  simpl. do 9 run_step.
  destruct c0. simpl.
  destruct (codec_id_eqb (AVCodec.id codec) CODEC_ID_MPEG2VIDEO); simpl; run_step;
    (destruct (codec_id_eqb (AVCodec.id codec) CODEC_ID_MPEG1VIDEO); simpl; run_step);
    (destruct (negb (Z.land (AVOutputFormat.flags fm) AVFMT_GLOBALHEADER =? 0)); simpl;
     run_step); reflexivity.
Qed.

Lemma add_audio_stream_closed_form av w codec tb c0 :
  avcodec_find_encoder_by_name av (FileInfo.acodec (info w)) = Some codec ->
  avformat_new_stream av (oc_streams w) codec = Some (tb, c0) ->
  array_accepts (AVCodec.supported_samplerates codec) (FileInfo.sample_rate (info w)) ->
  array_accepts (AVCodec.channel_layouts codec) (mapped_layout (FileInfo.channels (info w))) ->
  AVCodec.sample_fmts codec <> Some [] ->
  add_audio_stream av w
  = (with_new_stream codec tb (configured_audio_context codec (info w) (fmt w) tb c0) w,
     Ok (Some (length (oc_streams w)))).
Proof.
  intros Hfind Hnew Hrate Hlayout Hfmts.
  destruct w as [i fm l a v sm ob fs ps ifs r ev]. simpl in *.
  unfold add_audio_stream, with_new_stream, configured_audio_context, mapped_layout in *.
  run_step. rewrite Hfind.
  erewrite bind_ok by (unfold new_stream; simpl; rewrite Hnew; reflexivity).
  simpl. do 5 run_step.
  destruct c0. simpl in *.
  destruct ((Fraction.den time_base =? 0) || (Fraction.num time_base =? 0)); simpl; run_step.
  all: destruct (AVCodec.supported_samplerates codec) as [rates|]; simpl in Hrate;
    rewrite ?Hrate; run_step.
  all: destruct (AVCodec.channel_layouts codec) as [layouts|]; simpl in Hlayout;
    rewrite ?Hlayout; run_step.
  all: destruct (AVCodec.sample_fmts codec) as [[|first rest]|]; try congruence; simpl.
  all: try (destruct (negb (sample_fmt_eqb first AV_SAMPLE_FMT_NONE)); simpl).
  all: do 2 run_step.
  all: match goal with
       | |- context [when ?b _] => destruct b; simpl
       end; run_step.
  all: destruct (negb (Z.land (AVOutputFormat.flags fm) AVFMT_GLOBALHEADER =? 0)); simpl;
    run_step; reflexivity.
Qed.

(** X8: add_video_stream never runs into undefined behaviour.  It throws
    InvalidCodec when the configured codec name has no encoder and
    OutOfMemory when the stream cannot be allocated, in both cases leaving
    the writer untouched.  Otherwise it appends exactly one stream and
    returns a pointer to it: the stream's index is its position, and its
    codec context carries the configured bit rate, width, height and time
    base, a group-of-pictures size of 12 and pixel format YUV420P, with two
    B-frames for MPEG-2 and macroblock decision mode 2 for MPEG-1. *)
Theorem add_video_stream_spec av w :
  let r := add_video_stream av w in
  let n := length (oc_streams w) in
  match avcodec_find_encoder_by_name av (FileInfo.vcodec (info w)) with
  | None => r = (w, Throw InvalidCodec)
  | Some codec =>
      match avformat_new_stream av (oc_streams w) codec with
      | None => r = (w, Throw OutOfMemory)
      | Some (tb, c0) =>
          exists c,
            r = (with_new_stream codec tb c w, Ok (Some n))
            /\ oc_streams (fst r) !! n = Some (AVStream.mk (Z.of_nat n) tb c)
            /\ length (oc_streams (fst r)) = S n
            /\ AVCodecContext.codec_id c = AVCodec.id codec
            /\ AVCodecContext.codec_type c = AVMEDIA_TYPE_VIDEO
            /\ AVCodecContext.bit_rate c = FileInfo.video_bit_rate (info w)
            /\ AVCodecContext.width c = FileInfo.width (info w)
            /\ AVCodecContext.height c = FileInfo.height (info w)
            /\ AVCodecContext.time_base c = FileInfo.video_timebase (info w)
            /\ AVCodecContext.gop_size c = 12
            /\ AVCodecContext.pix_fmt c = PIX_FMT_YUV420P
            /\ AVCodecContext.max_b_frames c
               = (if codec_id_eqb (AVCodec.id codec) CODEC_ID_MPEG2VIDEO then 2
                  else AVCodecContext.max_b_frames c0)
            /\ AVCodecContext.mb_decision c
               = (if codec_id_eqb (AVCodec.id codec) CODEC_ID_MPEG1VIDEO then 2
                  else AVCodecContext.mb_decision c0)
      end
  end.
Proof.
  cbv zeta.
  destruct (avcodec_find_encoder_by_name av (FileInfo.vcodec (info w))) as [codec|] eqn:Hfind.
  - destruct (avformat_new_stream av (oc_streams w) codec) as [[tb c0]|] eqn:Hnew.
    + exists (configured_video_context codec (info w) (fmt w) c0).
      rewrite (add_video_stream_closed_form av w codec tb c0 Hfind Hnew).
      split; [reflexivity|].
      destruct w as [i fm l a v sm ob fs ps ifs r ev]. simpl.
      split; [apply list_lookup_middle; reflexivity|].
      split; [rewrite length_app; simpl; lia|].
      unfold configured_video_context. destruct c0. simpl.
      destruct (FileInfo.video_timebase i).
      destruct (codec_id_eqb (AVCodec.id codec) CODEC_ID_MPEG2VIDEO),
        (codec_id_eqb (AVCodec.id codec) CODEC_ID_MPEG1VIDEO),
        (negb (Z.land (AVOutputFormat.flags fm) AVFMT_GLOBALHEADER =? 0)); simpl;
        repeat split; reflexivity.
    + unfold add_video_stream. erewrite bind_ok by reflexivity. rewrite Hfind.
      erewrite bind_ok by (unfold new_stream; rewrite Hnew; reflexivity). reflexivity.
  - unfold add_video_stream. erewrite bind_ok by reflexivity. rewrite Hfind. reflexivity.
Qed.

Lemma check_array_accepted arr wanted :
  check_array arr wanted = Accepted -> array_accepts arr wanted.
Proof.
  unfold check_array, array_accepts. destruct arr as [l|]; [|trivial].
  destruct (scan_array wanted l) as [[|]|]; intros H; try discriminate. reflexivity.
Qed.

(** The decision table of add_audio_stream once the stream is allocated:
    the sample rate is checked first, then the channel layout, then the
    sample formats; whatever the outcome the allocated stream stays in
    [oc->streams] and the streams that were there are untouched. *)
Lemma add_audio_stream_table av w codec tb c0 :
  avcodec_find_encoder_by_name av (FileInfo.acodec (info w)) = Some codec ->
  avformat_new_stream av (oc_streams w) codec = Some (tb, c0) ->
  let r := add_audio_stream av w in
  let n := length (oc_streams w) in
  (exists c, fst r = with_new_stream codec tb c w)
  /\ snd r
     = match check_array (AVCodec.supported_samplerates codec) (FileInfo.sample_rate (info w))
       with
       | Rejected => Throw InvalidSampleRate
       | Malformed => Undefined
       | Accepted =>
           match check_array (AVCodec.channel_layouts codec)
                   (mapped_layout (FileInfo.channels (info w))) with
           | Rejected => Throw InvalidChannels
           | Malformed => Undefined
           | Accepted =>
               match AVCodec.sample_fmts codec with
               | Some [] => Undefined
               | _ => Ok (Some n)
               end
           end
       end.
Proof.
  intros Hfind Hnew. cbv zeta.
  destruct (check_array (AVCodec.supported_samplerates codec) (FileInfo.sample_rate (info w)))
    eqn:Hrate.
  - destruct (check_array (AVCodec.channel_layouts codec)
                (mapped_layout (FileInfo.channels (info w)))) eqn:Hlayout.
    + destruct (AVCodec.sample_fmts codec) as [[|first rest]|] eqn:Hfmts.
      * (* no sample format before the end of the array *)
        destruct w as [i fm l a v sm ob fs ps ifs r ev]. simpl in *.
        unfold add_audio_stream, check_array, mapped_layout in *.
        run_step. rewrite Hfind.
        erewrite bind_ok by (unfold new_stream; simpl; rewrite Hnew; reflexivity).
        simpl. do 5 run_step.
        destruct (_ || _); simpl; run_step.
        all: destruct (AVCodec.supported_samplerates codec) as [rates|];
          [destruct (scan_array _ rates) as [[|]|]; try discriminate|]; run_step.
        all: destruct (AVCodec.channel_layouts codec) as [layouts|];
          [destruct (scan_array _ layouts) as [[|]|]; try discriminate|]; run_step.
        all: rewrite Hfmts; erewrite bind_undefined by reflexivity; simpl;
          split; [eexists; reflexivity | reflexivity].
      * rewrite (add_audio_stream_closed_form av w codec tb c0 Hfind Hnew);
          try (apply check_array_accepted; assumption); try congruence.
        simpl. split; [eexists; reflexivity | reflexivity].
      * rewrite (add_audio_stream_closed_form av w codec tb c0 Hfind Hnew);
          try (apply check_array_accepted; assumption); try congruence.
        simpl. split; [eexists; reflexivity | reflexivity].
    + destruct w as [i fm l a v sm ob fs ps ifs r ev]. simpl in *.
      unfold add_audio_stream, check_array, mapped_layout in *.
      run_step. rewrite Hfind.
      erewrite bind_ok by (unfold new_stream; simpl; rewrite Hnew; reflexivity).
      simpl. do 5 run_step.
      destruct (_ || _); simpl; run_step.
      all: destruct (AVCodec.supported_samplerates codec) as [rates|];
        [destruct (scan_array _ rates) as [[|]|]; try discriminate|]; run_step.
      all: destruct (AVCodec.channel_layouts codec) as [layouts|]; [|discriminate];
        destruct (scan_array _ layouts) as [[|]|]; try discriminate.
      all: erewrite bind_throw by reflexivity; simpl; split; [eexists; reflexivity | reflexivity].
    + destruct w as [i fm l a v sm ob fs ps ifs r ev]. simpl in *.
      unfold add_audio_stream, check_array, mapped_layout in *.
      run_step. rewrite Hfind.
      erewrite bind_ok by (unfold new_stream; simpl; rewrite Hnew; reflexivity).
      simpl. do 5 run_step.
      destruct (_ || _); simpl; run_step.
      all: destruct (AVCodec.supported_samplerates codec) as [rates|];
        [destruct (scan_array _ rates) as [[|]|]; try discriminate|]; run_step.
      all: destruct (AVCodec.channel_layouts codec) as [layouts|]; [|discriminate];
        destruct (scan_array _ layouts) as [[|]|]; try discriminate.
      all: erewrite bind_undefined by reflexivity; simpl; split; [eexists; reflexivity | reflexivity].
  - destruct w as [i fm l a v sm ob fs ps ifs r ev]. simpl in *.
    unfold add_audio_stream, check_array in *.
    run_step. rewrite Hfind.
    erewrite bind_ok by (unfold new_stream; simpl; rewrite Hnew; reflexivity).
    simpl. do 5 run_step.
    destruct (_ || _); simpl; run_step.
    all: destruct (AVCodec.supported_samplerates codec) as [rates|]; [|discriminate];
      destruct (scan_array _ rates) as [[|]|]; try discriminate.
    all: erewrite bind_throw by reflexivity; simpl; split; [eexists; reflexivity | reflexivity].
  - destruct w as [i fm l a v sm ob fs ps ifs r ev]. simpl in *.
    unfold add_audio_stream, check_array in *.
    run_step. rewrite Hfind.
    erewrite bind_ok by (unfold new_stream; simpl; rewrite Hnew; reflexivity).
    simpl. do 5 run_step.
    destruct (_ || _); simpl; run_step.
    all: destruct (AVCodec.supported_samplerates codec) as [rates|]; [|discriminate];
      destruct (scan_array _ rates) as [[|]|]; try discriminate.
    all: erewrite bind_undefined by reflexivity; simpl; split; [eexists; reflexivity | reflexivity].
Qed.

(** X5: when add_audio_stream returns normally (encoder resolved, stream
    allocated, sample rate and channel layout let through, a sample-format
    array that is not empty) it has appended exactly one stream and returns
    a pointer to it.  The stream's codec context carries the encoder's id,
    media type audio, and the configured bit rate, channel count and sample
    rate; its channel layout is mono for one channel and stereo for every
    other channel count; and its sample format is never "none": it is the
    encoder's first advertised format if that is a real format, else the
    format the context was allocated with, else signed 16-bit. *)
Theorem add_audio_stream_success av w codec tb c0 :
  avcodec_find_encoder_by_name av (FileInfo.acodec (info w)) = Some codec ->
  avformat_new_stream av (oc_streams w) codec = Some (tb, c0) ->
  array_accepts (AVCodec.supported_samplerates codec) (FileInfo.sample_rate (info w)) ->
  array_accepts (AVCodec.channel_layouts codec) (mapped_layout (FileInfo.channels (info w))) ->
  AVCodec.sample_fmts codec <> Some [] ->
  let n := length (oc_streams w) in
  exists c,
    add_audio_stream av w = (with_new_stream codec tb c w, Ok (Some n))
    /\ oc_streams (with_new_stream codec tb c w) = oc_streams w ++ [AVStream.mk (Z.of_nat n) tb c]
    /\ AVCodecContext.codec_id c = AVCodec.id codec
    /\ AVCodecContext.codec_type c = AVMEDIA_TYPE_AUDIO
    /\ AVCodecContext.bit_rate c = FileInfo.audio_bit_rate (info w)
    /\ AVCodecContext.channels c = FileInfo.channels (info w)
    /\ AVCodecContext.sample_rate c = FileInfo.sample_rate (info w)
    /\ AVCodecContext.channel_layout c
       = (if FileInfo.channels (info w) =? 1 then AV_CH_LAYOUT_MONO else AV_CH_LAYOUT_STEREO)
    /\ AVCodecContext.sample_fmt c <> AV_SAMPLE_FMT_NONE
    /\ AVCodecContext.sample_fmt c
       = (let advertised :=
            match AVCodec.sample_fmts codec with
            | Some (first :: _) => first
            | _ => AV_SAMPLE_FMT_NONE
            end in
          if negb (sample_fmt_eqb advertised AV_SAMPLE_FMT_NONE) then advertised
          else if negb (sample_fmt_eqb (AVCodecContext.sample_fmt c0) AV_SAMPLE_FMT_NONE)
               then AVCodecContext.sample_fmt c0
               else AV_SAMPLE_FMT_S16).
Proof.
  intros Hfind Hnew Hrate Hlayout Hfmts. cbv zeta.
  exists (configured_audio_context codec (info w) (fmt w) tb c0).
  split; [apply add_audio_stream_closed_form; assumption|].
  destruct w as [i fm l a v sm ob fs ps ifs r ev]. simpl.
  split; [reflexivity|].
  unfold configured_audio_context, mapped_layout. destruct c0. simpl.
  destruct ((Fraction.den time_base =? 0) || (Fraction.num time_base =? 0)),
    (negb (Z.land (AVOutputFormat.flags fm) AVFMT_GLOBALHEADER =? 0));
    destruct (AVCodec.sample_fmts codec) as [[|[] rest]|]; simpl;
    try congruence; destruct sample_fmt; simpl; repeat split; congruence.
Qed.

Lemma add_audio_stream_success_witness :
  exists c,
    add_audio_stream demo_av demo_writer
    = (with_new_stream demo_mp3 (Fraction.mk 1 90000) c demo_writer, Ok (Some 0%nat))
    /\ AVCodecContext.sample_rate c = 44100
    /\ AVCodecContext.channel_layout c = AV_CH_LAYOUT_STEREO
    /\ AVCodecContext.sample_fmt c = AV_SAMPLE_FMT_S16.
Proof.
  destruct (add_audio_stream_success demo_av demo_writer demo_mp3 (Fraction.mk 1 90000)
              demo_context eq_refl eq_refl)
    as (c & Hrun & _ & _ & _ & _ & _ & Hrate & Hlayout & _ & Hfmt);
    try reflexivity; try discriminate.
  exists c. split; [exact Hrun|]. split; [exact Hrate|]. split; [exact Hlayout | exact Hfmt].
Defined.

(** X6: once the encoder is resolved, its stream allocated and the sample
    rate let through, add_audio_stream fails with InvalidChannels whenever
    the encoder has a channel-layout list that does not hold the layout
    derived from the channel count, and that layout is stereo for every
    channel count other than 1: an encoder that only takes mono rejects 0,
    2 or 6 channels alike.  The stream allocated for the call stays in the
    container. *)
Theorem add_audio_stream_channel_layout av w codec tb c0 layouts :
  avcodec_find_encoder_by_name av (FileInfo.acodec (info w)) = Some codec ->
  avformat_new_stream av (oc_streams w) codec = Some (tb, c0) ->
  array_accepts (AVCodec.supported_samplerates codec) (FileInfo.sample_rate (info w)) ->
  AVCodec.channel_layouts codec = Some layouts ->
  In 0 layouts ->
  ~ In (if FileInfo.channels (info w) =? 1 then AV_CH_LAYOUT_MONO else AV_CH_LAYOUT_STEREO)
       (entries layouts) ->
  let r := add_audio_stream av w in
  snd r = Throw InvalidChannels
  /\ length (oc_streams (fst r)) = S (length (oc_streams w)).
Proof.
  intros Hfind Hnew Hrate Hlayouts Hz Hnot. cbv zeta.
  destruct (add_audio_stream_table av w codec tb c0 Hfind Hnew) as ([c Hc] & Hres).
  split.
  - rewrite Hres.
    assert (Hr : check_array (AVCodec.supported_samplerates codec)
                   (FileInfo.sample_rate (info w)) = Accepted).
    { unfold check_array, array_accepts in *.
      destruct (AVCodec.supported_samplerates codec); [rewrite Hrate|]; reflexivity. }
    rewrite Hr. unfold check_array, mapped_layout. rewrite Hlayouts.
    rewrite (scan_array_absent _ _ Hz Hnot). reflexivity.
  - rewrite Hc. destruct w; simpl. rewrite length_app. simpl. lia.
Qed.

Lemma add_audio_stream_channel_layout_witness :
  let w := set_info (FileInfo.set_channels 6 demo_info) demo_writer in
  snd (add_audio_stream demo_av_mono w) = Throw InvalidChannels
  /\ length (oc_streams (fst (add_audio_stream demo_av_mono w))) = 1%nat.
Proof.
  cbv zeta.
  apply (add_audio_stream_channel_layout demo_av_mono
           (set_info (FileInfo.set_channels 6 demo_info) demo_writer)
           demo_mono_codec (Fraction.mk 1 90000) demo_context [AV_CH_LAYOUT_MONO; 0]);
    try reflexivity.
  - simpl. tauto.
  - simpl. unfold AV_CH_LAYOUT_MONO, AV_CH_LAYOUT_STEREO. intros [H|[]]. discriminate.
Defined.

(** X7: add_audio_stream throws nothing but InvalidCodec, OutOfMemory,
    InvalidSampleRate and InvalidChannels.  The first two leave the writer
    untouched.  The last two are thrown after the stream was allocated: the
    container then holds one stream more than before, to which the call
    has returned no pointer, and the streams that were there and the two
    stream pointers are unchanged. *)
Theorem add_audio_stream_failure av w e :
  snd (add_audio_stream av w) = Throw e ->
  let w' := fst (add_audio_stream av w) in
  ((e = InvalidCodec \/ e = OutOfMemory) /\ w' = w)
  \/ ((e = InvalidSampleRate \/ e = InvalidChannels)
      /\ (exists s, oc_streams w' = oc_streams w ++ [s])
      /\ audio_st w' = audio_st w
      /\ video_st w' = video_st w).
Proof.
  intros He. cbv zeta.
  destruct (avcodec_find_encoder_by_name av (FileInfo.acodec (info w))) as [codec|] eqn:Hfind.
  - destruct (avformat_new_stream av (oc_streams w) codec) as [[tb c0]|] eqn:Hnew.
    + destruct (add_audio_stream_table av w codec tb c0 Hfind Hnew) as ([c Hc] & Hres).
      right. rewrite Hres in He.
      split; [|rewrite Hc; destruct w; simpl; split; [eexists; reflexivity | split; reflexivity]].
      destruct (check_array (AVCodec.supported_samplerates codec) _);
        [|injection He as <-; left; reflexivity | discriminate].
      destruct (check_array (AVCodec.channel_layouts codec) _);
        [|injection He as <-; right; reflexivity | discriminate].
      destruct (AVCodec.sample_fmts codec) as [[|]|]; discriminate.
    + left. revert He. unfold add_audio_stream. erewrite bind_ok by reflexivity.
      rewrite Hfind.
      erewrite bind_ok by (unfold new_stream; rewrite Hnew; reflexivity).
      simpl. intros [= <-]. split; [right; reflexivity | reflexivity].
  - left. revert He. unfold add_audio_stream. erewrite bind_ok by reflexivity.
    rewrite Hfind. simpl. intros [= <-]. split; [left; reflexivity | reflexivity].
Qed.

Lemma add_audio_stream_failure_witness :
  let w := set_info (FileInfo.set_sample_rate 1 demo_info) demo_writer in
  exists s, oc_streams (fst (add_audio_stream demo_av w)) = oc_streams w ++ [s].
Proof.
  cbv zeta.
  destruct (add_audio_stream_failure demo_av
              (set_info (FileInfo.set_sample_rate 1 demo_info) demo_writer)
              InvalidSampleRate eq_refl) as [[[H|H] _] | (_ & Hs & _)];
    [discriminate H | discriminate H | exact Hs].
Defined.

(** ** Pre- and postconditions *)

Lemma triple_ret {A} P (Q : A -> FFmpegWriter -> Prop) E a :
  (forall w, P w -> Q a w) -> triple P (ret a) Q E.
Proof. intros H w Hw. apply H, Hw. Qed.

Lemma triple_throw {A} P (Q : A -> FFmpegWriter -> Prop) (E : Exception -> FFmpegWriter -> Prop) e :
  (forall w, P w -> E e w) -> triple P (throw e) Q E.
Proof. intros H w Hw. apply H, Hw. Qed.

Lemma triple_undefined {A} P (Q : A -> FFmpegWriter -> Prop) E : triple P undefined Q E.
Proof. intros w Hw. exact I. Qed.

Lemma triple_bind {A B} P (Q1 : A -> FFmpegWriter -> Prop) (Q : B -> FFmpegWriter -> Prop) E
    (m : M A) (k : A -> M B) :
  triple P m Q1 E -> (forall a, triple (Q1 a) (k a) Q E) -> triple P (bind m k) Q E.
Proof.
  intros Hm Hk w Hw. unfold bind. specialize (Hm w Hw).
  destruct (m w) as [w1 [a|e| |]]; try assumption. apply Hk, Hm.
Qed.

Lemma triple_get P E : triple P get (fun a w => a = w /\ P w) E.
Proof. intros w Hw. split; [reflexivity | exact Hw]. Qed.

Lemma triple_modify P (Q : unit -> FFmpegWriter -> Prop) E f :
  (forall w, P w -> Q tt (f w)) -> triple P (modify f) Q E.
Proof. intros H w Hw. apply H, Hw. Qed.

Lemma triple_when P (Q : unit -> FFmpegWriter -> Prop) E b m :
  (b = true -> triple P m Q E) -> (b = false -> forall w, P w -> Q tt w) ->
  triple P (when b m) Q E.
Proof.
  intros Ht Hf. destruct b; [apply Ht; reflexivity | apply triple_ret, Hf; reflexivity].
Qed.

Lemma triple_conseq {A} (P P' : FFmpegWriter -> Prop) (Q Q' : A -> FFmpegWriter -> Prop)
    (E E' : Exception -> FFmpegWriter -> Prop) m :
  triple P m Q E ->
  (forall w, P' w -> P w) -> (forall a w, Q a w -> Q' a w) -> (forall e w, E e w -> E' e w) ->
  triple P' m Q' E'.
Proof.
  intros Hm HP HQ HE w Hw. specialize (Hm w (HP w Hw)).
  destruct (m w) as [w1 [a|e| |]]; auto.
Qed.

Lemma triple_pure {A} (P : FFmpegWriter -> Prop) (Q : A -> FFmpegWriter -> Prop) E m
    (fact : Prop) :
  (forall w, P w -> fact) -> (fact -> triple P m Q E) -> triple P m Q E.
Proof. intros Hf Hm w Hw. exact (Hm (Hf w Hw) w Hw). Qed.

Lemma triple_stream_codec P E st :
  triple P (stream_codec st)
    (fun c w => P w /\ exists i s, st = Some i /\ oc_streams w !! i = Some s
                                   /\ c = AVStream.codec s) E.
Proof.
  intros w Hw. unfold stream_codec. destruct st as [i|]; [|exact I].
  destruct (oc_streams w !! i) as [s|] eqn:Hs; [|exact I].
  split; [exact Hw|]. exists i, s. auto.
Qed.

Lemma triple_modify_codec P (Q : unit -> FFmpegWriter -> Prop) E st f :
  (forall w i s, st = Some i -> oc_streams w !! i = Some s -> P w ->
     Q tt (set_oc_streams
             (<[i := AVStream.set_codec (f (AVStream.codec s)) s]> (oc_streams w)) w)) ->
  triple P (modify_codec st f) Q E.
Proof.
  intros H w Hw. unfold modify_codec. destruct st as [i|]; [|exact I].
  destruct (oc_streams w !! i) as [s|] eqn:Hs; [|exact I].
  eapply H; eauto.
Qed.

(** The two stream builders, whatever the library answers. *)
Lemma add_video_stream_outcome av w :
  add_video_stream av w = (w, Throw InvalidCodec)
  \/ add_video_stream av w = (w, Throw OutOfMemory)
  \/ exists codec tb c,
       add_video_stream av w
       = (with_new_stream codec tb c w, Ok (Some (length (oc_streams w)))).
Proof.
  destruct (avcodec_find_encoder_by_name av (FileInfo.vcodec (info w))) as [codec|] eqn:Hfind.
  - destruct (avformat_new_stream av (oc_streams w) codec) as [[tb c0]|] eqn:Hnew.
    + right. right. exists codec, tb, (configured_video_context codec (info w) (fmt w) c0).
      apply add_video_stream_closed_form; assumption.
    + right. left. unfold add_video_stream. erewrite bind_ok by reflexivity. rewrite Hfind.
      erewrite bind_ok by (unfold new_stream; rewrite Hnew; reflexivity). reflexivity.
  - left. unfold add_video_stream. erewrite bind_ok by reflexivity. rewrite Hfind. reflexivity.
Qed.

Lemma add_audio_stream_outcome av w :
  add_audio_stream av w = (w, Throw InvalidCodec)
  \/ add_audio_stream av w = (w, Throw OutOfMemory)
  \/ exists codec tb c,
       fst (add_audio_stream av w) = with_new_stream codec tb c w
       /\ (snd (add_audio_stream av w) = Ok (Some (length (oc_streams w)))
           \/ snd (add_audio_stream av w) = Throw InvalidSampleRate
           \/ snd (add_audio_stream av w) = Throw InvalidChannels
           \/ snd (add_audio_stream av w) = Undefined).
Proof.
  destruct (avcodec_find_encoder_by_name av (FileInfo.acodec (info w))) as [codec|] eqn:Hfind.
  - destruct (avformat_new_stream av (oc_streams w) codec) as [[tb c0]|] eqn:Hnew.
    + right. right.
      destruct (add_audio_stream_table av w codec tb c0 Hfind Hnew) as ([c Hc] & Hres).
      exists codec, tb, c. split; [exact Hc|]. rewrite Hres.
      destruct (check_array (AVCodec.supported_samplerates codec) _); auto.
      destruct (check_array (AVCodec.channel_layouts codec) _); auto.
      destruct (AVCodec.sample_fmts codec) as [[|]|]; auto.
    + right. left. unfold add_audio_stream. erewrite bind_ok by reflexivity. rewrite Hfind.
      erewrite bind_ok by (unfold new_stream; rewrite Hnew; reflexivity). reflexivity.
  - left. unfold add_audio_stream. erewrite bind_ok by reflexivity. rewrite Hfind. reflexivity.
Qed.

Lemma streams_kept_new_stream w0 w codec tb c :
  streams_kept w0 w -> (length (oc_streams w0) <= length (oc_streams w))%nat ->
  streams_kept w0 (with_new_stream codec tb c w).
Proof.
  intros (Hi & Hf & Ht) Hlen. unfold streams_kept, with_new_stream. destruct w; simpl in *.
  split; [exact Hi|]. split; [exact Hf|].
  rewrite take_app_le by exact Hlen. exact Ht.
Qed.

Lemma prepared_fresh w0 w : prepared w0 w -> fresh_streams w0 w.
Proof.
  intros (_ & Hv & Ha & Hlen). unfold fresh_streams. cbv zeta.
  rewrite Hv, Ha, Hlen.
  destruct (wants_video w0), (wants_audio w0); simpl;
    (split; [lia|]); (split; [intros i [= <-]; lia|]);
    (split; [intros j [= <-]; lia|]); intros i j [= <-] [= <-]; lia.
Qed.

Lemma initialize_streams_triple av w0 :
  triple (eq w0) (initialize_streams av)
    (fun _ w => prepared w0 w)
    (fun e w => stream_exception e /\ streams_kept w0 w /\ fresh_streams w0 w).
Proof.
  set (n := length (oc_streams w0)).
  unfold initialize_streams.
  apply (triple_bind _ (fun _ w => w = set_video_st None w0));
    [apply triple_modify; intros w <-; reflexivity | intros _].
  apply (triple_bind _ (fun _ w => w = set_audio_st None (set_video_st None w0)));
    [apply triple_modify; intros w ->; reflexivity | intros _].
  eapply triple_bind; [apply triple_get | intros a].
  apply (triple_bind _ (fun _ w =>
           streams_kept w0 w /\ audio_st w = None
           /\ video_st w = (if wants_video w0 then Some n else None)
           /\ length (oc_streams w) = (n + Nat.b2n (wants_video w0))%nat)).
  - apply (triple_pure _ _ _ _ (a = set_audio_st None (set_video_st None w0)));
      [intros w [-> Hw]; exact Hw | intros ->].
    replace (negb (codec_id_eqb (AVOutputFormat.video_codec
                     (fmt (set_audio_st None (set_video_st None w0)))) CODEC_ID_NONE)
             && FileInfo.has_video (info (set_audio_st None (set_video_st None w0))))
      with (wants_video w0) by (destruct w0; reflexivity).
    apply triple_when; intros Hwant; rewrite Hwant.
    + intros w [_ ->]. unfold bind.
      destruct (add_video_stream_outcome av (set_audio_st None (set_video_st None w0)))
        as [H|[H|(codec & tb & c & H)]]; rewrite H.
      * split; [left; reflexivity|]. subst n. destruct w0; simpl.
        split; [repeat split; apply take_ge; lia|].
        unfold fresh_streams; simpl. repeat split; intros; try discriminate; lia.
      * split; [right; left; reflexivity|]. subst n. destruct w0; simpl.
        split; [repeat split; apply take_ge; lia|].
        unfold fresh_streams; simpl. repeat split; intros; try discriminate; lia.
      * subst n. destruct w0; simpl. unfold streams_kept. simpl.
        rewrite take_app_length, length_app. simpl. repeat split. 
    + intros w [_ ->]. subst n. destruct w0; simpl. unfold streams_kept. simpl.
      rewrite firstn_all. repeat split. lia.
  - intros _. eapply triple_bind; [apply triple_get | intros b].
    intros w [-> (Hkept & Ha & Hv & Hlen)].
    pose proof Hkept as (Hi & Hf & Ht).
    replace (negb (codec_id_eqb (AVOutputFormat.audio_codec (fmt w)) CODEC_ID_NONE)
             && FileInfo.has_audio (info w))
      with (wants_audio w0) by (unfold wants_audio; rewrite Hi, Hf; reflexivity).
    destruct (wants_audio w0) eqn:Hwant; simpl.
    + unfold bind.
      destruct (add_audio_stream_outcome av w) as [H|[H|(codec & tb & c & Hw & Hres)]].
      * rewrite H. split; [left; reflexivity|]. split; [exact Hkept|].
        unfold fresh_streams. cbv zeta. fold n. rewrite Ha, Hv, Hlen.
        destruct (wants_video w0); simpl;
          repeat split; intros; try discriminate; try lia; simplify_eq; lia.
      * rewrite H. split; [right; left; reflexivity|]. split; [exact Hkept|].
        unfold fresh_streams. cbv zeta. fold n. rewrite Ha, Hv, Hlen.
        destruct (wants_video w0); simpl;
          repeat split; intros; try discriminate; try lia; simplify_eq; lia.
      * assert (Hkept' : streams_kept w0 (with_new_stream codec tb c w))
          by (apply streams_kept_new_stream; [exact Hkept | fold n; lia]).
        assert (Hfresh : fresh_streams w0 (with_new_stream codec tb c w)).
        { unfold fresh_streams. cbv zeta. fold n. destruct w; simpl in *.
          rewrite Ha, Hv, length_app, Hlen. simpl.
          destruct (wants_video w0); simpl;
            repeat split; intros; try discriminate; try lia; simplify_eq; lia. }
        destruct (add_audio_stream av w) as [w1 res]. simpl in *. subst w1.
        destruct Hres as [-> | [-> | [-> | ->]]].
        -- unfold prepared. cbv zeta. fold n. destruct w; simpl in *.
           split; [exact Hkept'|]. rewrite length_app, Hlen. simpl.
           rewrite Hwant. repeat split; try assumption.
        -- split; [right; right; left; reflexivity | split; assumption].
        -- split; [right; right; right; reflexivity | split; assumption].
        -- exact I.
    + unfold prepared. cbv zeta. fold n. rewrite Hwant. simpl.
      split; [exact Hkept|]. split; [exact Hv|]. split; [exact Ha|]. lia.
Qed.

Lemma open_codec_triple av (P : FFmpegWriter -> Prop) st :
  (forall w i s c, st = Some i -> oc_streams w !! i = Some s -> P w ->
     P (set_oc_streams (<[i := AVStream.set_codec c s]> (oc_streams w)) w)) ->
  (forall w id, P w -> P (set_events (events w ++ [EvOpenCodec id]) w)) ->
  triple P (open_codec av st) (fun _ => P) (fun e w => e = InvalidCodec /\ P w).
Proof.
  intros Hcodec Hev. unfold open_codec.
  eapply triple_bind; [apply triple_stream_codec | intros c].
  destruct (avcodec_find_encoder av (AVCodecContext.codec_id c)) as [codec|].
  - apply (triple_bind _ (fun _ => P));
      [apply triple_modify; intros w [Hw _]; apply Hev, Hw | intros []; cbv beta].
    destruct (avcodec_open2 av c codec) as [c'|].
    + apply triple_modify_codec. intros w i s Hst Hs Hw. eapply Hcodec; eassumption.
    + apply triple_throw. intros w Hw. split; [reflexivity | exact Hw].
  - apply triple_throw. intros w [Hw _]. split; [reflexivity | exact Hw].
Qed.

Lemma open_audio_triple av (P : FFmpegWriter -> Prop) st :
  (forall w i s c, st = Some i -> oc_streams w !! i = Some s -> P w ->
     P (set_oc_streams (<[i := AVStream.set_codec c s]> (oc_streams w)) w)) ->
  (forall w id, P w -> P (set_events (events w ++ [EvOpenCodec id]) w)) ->
  (forall w v, P w -> P (set_audio_input_frame_size v w)) ->
  (forall w v, P w -> P (set_initial_audio_input_frame_size v w)) ->
  (forall w v, P w -> P (set_samples v w)) ->
  (forall w v, P w -> P (set_audio_outbuf v w)) ->
  triple P (open_audio av st) (fun _ => P) (fun e w => e = InvalidCodec /\ P w).
Proof.
  intros Hcodec Hev Hfs Hinit Hsm Hob. unfold open_audio.
  eapply triple_bind; [apply open_codec_triple; assumption | intros []; cbv beta].
  apply (triple_bind _ (fun _ => P));
    [eapply triple_conseq;
       [apply triple_stream_codec | intros w H; exact H | intros c w [Hw _]; exact Hw | intros e w H; exact H]
    | intros c; cbv beta].
  apply (triple_bind _ (fun _ => P));
    [eapply triple_conseq;
       [apply triple_get | intros w H; exact H | intros a w [_ Hw]; exact Hw | intros e w H; exact H]
    | intros a].
  apply (triple_bind _ (fun _ => P)).
  - destruct (AVCodecContext.frame_size c <=? 1).
    + apply (triple_bind _ (fun _ => P)).
      * destruct (FileInfo.channels (info a) =? 0); [apply triple_undefined|].
        apply triple_modify. intros w Hw. apply Hfs, Hw.
      * intros _. apply triple_when; [intros _ | intros _ w Hw; exact Hw].
        apply triple_modify. intros w Hw. apply Hfs, Hw.
    + apply triple_modify. intros w Hw. apply Hfs, Hw.
  - intros []; cbv beta.
    apply (triple_bind _ (fun _ => P));
      [apply triple_modify; intros w Hw; apply Hinit, Hw | intros []; cbv beta].
    apply (triple_bind _ (fun _ => P));
      [apply triple_modify; intros w Hw; apply Hsm, Hw | intros []; cbv beta].
    apply triple_modify; intros w Hw; apply Hob, Hw.
Qed.

Lemma prepared_insert w0 w i s c :
  (length (oc_streams w0) <= i)%nat -> prepared w0 w ->
  prepared w0 (set_oc_streams (<[i := AVStream.set_codec c s]> (oc_streams w)) w).
Proof.
  intros Hi ((Hinfo & Hfmt & Ht) & Hv & Ha & Hlen).
  unfold prepared, streams_kept. destruct w; simpl in *.
  rewrite take_insert_ge by exact Hi. rewrite length_insert. repeat split; assumption.
Qed.

(** PrepareStreams as a whole: what it leaves when it returns, and when it
    throws. *)
Lemma PrepareStreams_triple av w0 :
  triple (eq w0) (PrepareStreams av)
    (fun _ w =>
       negb (FileInfo.has_audio (info w0)) && negb (FileInfo.has_video (info w0)) = false
       /\ prepared w0 w)
    (fun e w =>
       if negb (FileInfo.has_audio (info w0)) && negb (FileInfo.has_video (info w0))
       then e = InvalidOptions /\ w = w0
       else stream_exception e /\ streams_kept w0 w /\ fresh_streams w0 w).
Proof.
  unfold PrepareStreams.
  eapply triple_bind; [apply triple_get | intros a].
  apply (triple_pure _ _ _ _ (a = w0)); [intros w [-> Hw]; symmetry; exact Hw | intros ->].
  destruct (negb (FileInfo.has_audio (info w0)) && negb (FileInfo.has_video (info w0))) eqn:Hoff.
  - apply (triple_bind _ (fun _ _ => False)); [|intros [] w []].
    unfold when. apply triple_throw. intros w [-> _]. split; reflexivity.
  - unfold when.
    apply (triple_bind _ (fun _ => eq w0));
      [apply triple_ret; intros w [_ Hw]; exact Hw | intros []; cbv beta].
    apply (triple_bind _ (fun _ => prepared w0));
      [eapply triple_conseq;
         [apply initialize_streams_triple | intros w H; exact H | intros a w H; exact H | intros e w H; exact H]
      | intros []; cbv beta].
    assert (Hweak : forall e w, e = InvalidCodec /\ prepared w0 w ->
              stream_exception e /\ streams_kept w0 w /\ fresh_streams w0 w).
    { intros e w [-> Hw]. split; [left; reflexivity|].
      split; [apply Hw | apply prepared_fresh, Hw]. }
    eapply triple_bind; [apply triple_get | intros b].
    apply (triple_pure _ _ _ _ (prepared w0 b)); [intros w [-> Hw]; exact Hw | intros Hb].
    apply (triple_bind _ (fun _ => prepared w0)).
    + destruct (FileInfo.has_video (info b) && bool_decide (is_Some (video_st b)));
        [|apply triple_ret; intros w [_ Hw]; exact Hw].
      eapply triple_conseq;
        [apply (open_codec_triple av (prepared w0)) | intros w [_ Hw]; exact Hw
        | intros a w H; exact H | exact Hweak].
      * intros w i s c Hst Hs Hw. apply prepared_insert; [|exact Hw].
        destruct Hb as (_ & Hv & _). rewrite Hv in Hst.
        destruct (wants_video w0); [injection Hst as <-; lia | discriminate].
      * intros w id Hw. destruct w; exact Hw.
    + intros []; cbv beta. eapply triple_bind; [apply triple_get | intros b2].
      apply (triple_pure _ _ _ _ (prepared w0 b2)); [intros w [-> Hw]; exact Hw | intros Hb2].
      destruct (FileInfo.has_audio (info b2) && bool_decide (is_Some (audio_st b2)));
        [|apply triple_ret; intros w [_ Hw]; split; [reflexivity | exact Hw]].
      eapply triple_conseq;
        [apply (open_audio_triple av (prepared w0))
        | intros w [_ Hw]; exact Hw
        | intros a w Hw; split; [reflexivity | exact Hw]
        | exact Hweak];
        try (intros w v Hw; destruct w; exact Hw).
      intros w i s c Hst Hs Hw. apply prepared_insert; [|exact Hw].
      destruct Hb2 as (_ & _ & Ha & _). rewrite Ha in Hst.
      destruct (wants_audio w0); [injection Hst as <-; lia | discriminate].
Qed.

(** X9: PrepareStreams throws InvalidOptions exactly when neither audio
    nor video is enabled, and then before it has touched anything.  With
    a kind enabled, the only exceptions it lets through are InvalidCodec,
    OutOfMemory, InvalidSampleRate and InvalidChannels. *)
Theorem PrepareStreams_exceptions av w :
  let r := PrepareStreams av w in
  let nothing_enabled :=
    FileInfo.has_audio (info w) = false /\ FileInfo.has_video (info w) = false in
  (nothing_enabled -> r = (w, Throw InvalidOptions))
  /\ (forall e, snd r = Throw e ->
        (e = InvalidOptions <-> nothing_enabled)
        /\ (e = InvalidOptions \/ e = InvalidCodec \/ e = OutOfMemory
            \/ e = InvalidSampleRate \/ e = InvalidChannels)).
Proof.
  cbv zeta. split.
  - intros [Ha Hv]. unfold PrepareStreams. erewrite bind_ok by reflexivity.
    rewrite Ha, Hv. reflexivity.
  - intros e He. pose proof (PrepareStreams_triple av w w eq_refl) as H.
    destruct (PrepareStreams av w) as [w' res]. simpl in He. subst res.
    destruct (FileInfo.has_audio (info w)), (FileInfo.has_video (info w)); simpl in H.
    4: { destruct H as [-> _]. split; [tauto | left; reflexivity]. }
    all: destruct H as [Hex _]; split;
      [ split; [intros ->; destruct Hex as [H|[H|[H|H]]]; discriminate H
               | intros [H1 H2]; discriminate]
      | right; exact Hex ].
Qed.

Lemma PrepareStreams_exceptions_witness :
  PrepareStreams demo_av
    (set_info (FileInfo.set_has_audio false (FileInfo.set_has_video false demo_info))
       demo_writer)
  = (set_info (FileInfo.set_has_audio false (FileInfo.set_has_video false demo_info))
       demo_writer,
     Throw InvalidOptions).
Proof.
  apply (PrepareStreams_exceptions demo_av
           (set_info (FileInfo.set_has_audio false (FileInfo.set_has_video false demo_info))
              demo_writer)).
  split; reflexivity.
Defined.

(** X10: a PrepareStreams call that returns has added exactly one stream
    for each kind that is enabled and for which the container format names
    a default codec, the video stream before the audio stream, and has set
    each stream pointer to its stream, or to null when none was added.  The
    options, the container format and the streams that were already in the
    container are unchanged. *)
Theorem PrepareStreams_success av w :
  snd (PrepareStreams av w) = Ok tt ->
  let w' := fst (PrepareStreams av w) in
  let n := length (oc_streams w) in
  (FileInfo.has_audio (info w) = true \/ FileInfo.has_video (info w) = true)
  /\ info w' = info w /\ fmt w' = fmt w
  /\ take n (oc_streams w') = oc_streams w
  /\ video_st w' = (if wants_video w then Some n else None)
  /\ audio_st w' = (if wants_audio w then Some (n + Nat.b2n (wants_video w))%nat else None)
  /\ length (oc_streams w')
     = (n + Nat.b2n (wants_video w) + Nat.b2n (wants_audio w))%nat.
Proof.
  intros Hok. cbv zeta. pose proof (PrepareStreams_triple av w w eq_refl) as H.
  destruct (PrepareStreams av w) as [w' res]. simpl in *. subst res.
  destruct H as (Hon & (Hi & Hf & Ht) & Hv & Ha & Hlen).
  split; [|repeat split; assumption].
  destruct (FileInfo.has_audio (info w)), (FileInfo.has_video (info w)); auto; discriminate.
Qed.

Lemma PrepareStreams_success_witness :
  let w' := fst (PrepareStreams demo_av demo_writer) in
  video_st w' = Some 0%nat /\ audio_st w' = Some 1%nat /\ length (oc_streams w') = 2%nat.
Proof.
  cbv zeta.
  destruct (PrepareStreams_success demo_av demo_writer eq_refl)
    as (_ & _ & _ & _ & Hv & Ha & Hlen).
  split; [exact Hv|]. split; [exact Ha | exact Hlen].
Defined.

(** X11: whenever a kind is enabled and the run stays clear of undefined
    behaviour, PrepareStreams, returning or throwing, leaves the options,
    the container format and the streams that were already in the
    container as they were.  Both stream pointers are reset: afterwards each is
    null or points to a stream added by this call, never to an older one,
    and the two never point to the same stream.  At most two streams are
    added. *)
Theorem PrepareStreams_keeps_old_streams av w :
  FileInfo.has_audio (info w) = true \/ FileInfo.has_video (info w) = true ->
  snd (PrepareStreams av w) <> Undefined ->
  let w' := fst (PrepareStreams av w) in
  let n := length (oc_streams w) in
  info w' = info w /\ fmt w' = fmt w
  /\ take n (oc_streams w') = oc_streams w
  /\ (n <= length (oc_streams w') <= n + 2)%nat
  /\ (forall i, video_st w' = Some i -> (n <= i < length (oc_streams w'))%nat)
  /\ (forall j, audio_st w' = Some j -> (n <= j < length (oc_streams w'))%nat)
  /\ (forall i j, video_st w' = Some i -> audio_st w' = Some j -> i <> j).
Proof.
  intros Hon Hdef. cbv zeta. pose proof (PrepareStreams_triple av w w eq_refl) as H.
  destruct (PrepareStreams av w) as [w' res]. simpl in *.
  assert (Hoff : negb (FileInfo.has_audio (info w)) && negb (FileInfo.has_video (info w))
                 = false) by (destruct Hon as [-> | ->]; simpl; auto using andb_false_r).
  rewrite Hoff in H.
  assert (Hboth : streams_kept w w' /\ fresh_streams w w').
  { destruct res as [[]|e| |].
    - destruct H as [_ H]. split; [apply H | apply prepared_fresh, H].
    - apply H.
    - contradiction.
    - contradiction. }
  destruct Hboth as ((Hi & Hf & Ht) & Hlen & Hv & Ha & Hne).
  repeat split; try assumption; try apply Hlen.
  - apply (Hv _ H0).
  - apply (Hv _ H0).
  - apply (Ha _ H0).
  - apply (Ha _ H0).
Qed.

Lemma PrepareStreams_keeps_old_streams_witness :
  let w := set_info (FileInfo.set_sample_rate 1 demo_info) demo_writer in
  snd (PrepareStreams demo_av w) = Throw InvalidSampleRate
  /\ (forall j, audio_st (fst (PrepareStreams demo_av w)) = Some j ->
      (0 <= j < length (oc_streams (fst (PrepareStreams demo_av w))))%nat).
Proof.
  cbv zeta. split; [reflexivity|].
  apply (PrepareStreams_keeps_old_streams demo_av
           (set_info (FileInfo.set_sample_rate 1 demo_info) demo_writer)).
  - left. reflexivity.
  - discriminate.
Defined.

(** X12: PrepareStreams does not reuse streams.  Called again on a writer it
    has prepared, and returning again, it adds the same number of streams a
    second time behind the first ones, which stay in the container as they
    were, and moves both stream pointers to the new streams. *)
Theorem PrepareStreams_twice av w :
  snd (PrepareStreams av w) = Ok tt ->
  let w1 := fst (PrepareStreams av w) in
  snd (PrepareStreams av w1) = Ok tt ->
  let w2 := fst (PrepareStreams av w1) in
  let added := (Nat.b2n (wants_video w) + Nat.b2n (wants_audio w))%nat in
  length (oc_streams w1) = (length (oc_streams w) + added)%nat
  /\ length (oc_streams w2) = (length (oc_streams w) + 2 * added)%nat
  /\ take (length (oc_streams w1)) (oc_streams w2) = oc_streams w1
  /\ video_st w2 = (if wants_video w then Some (length (oc_streams w1)) else None)
  /\ audio_st w2
     = (if wants_audio w
        then Some (length (oc_streams w1) + Nat.b2n (wants_video w))%nat else None).
Proof.
  intros Hok1. cbv zeta. intros Hok2.
  pose proof (PrepareStreams_triple av w w eq_refl) as H1.
  destruct (PrepareStreams av w) as [w1 res1]. simpl in *. subst res1.
  pose proof (PrepareStreams_triple av w1 w1 eq_refl) as H2.
  destruct (PrepareStreams av w1) as [w2 res2]. simpl in *. subst res2.
  destruct H1 as (_ & (Hi1 & Hf1 & Ht1) & Hv1 & Ha1 & Hlen1).
  destruct H2 as (_ & (Hi2 & Hf2 & Ht2) & Hv2 & Ha2 & Hlen2).
  assert (Hwv : wants_video w1 = wants_video w) by (unfold wants_video; rewrite Hi1, Hf1; reflexivity).
  assert (Hwa : wants_audio w1 = wants_audio w) by (unfold wants_audio; rewrite Hi1, Hf1; reflexivity).
  rewrite Hwv, Hwa in *.
  split; [lia|]. split; [lia|]. split; [exact Ht2|]. split; assumption.
Qed.

Lemma PrepareStreams_twice_witness :
  let w2 := fst (PrepareStreams demo_av (fst (PrepareStreams demo_av demo_writer))) in
  length (oc_streams w2) = 4%nat /\ video_st w2 = Some 2%nat /\ audio_st w2 = Some 3%nat.
Proof.
  cbv zeta.
  destruct (PrepareStreams_twice demo_av demo_writer eq_refl eq_refl)
    as (_ & Hlen & _ & Hv & Ha).
  split; [exact Hlen|]. split; [exact Hv | exact Ha].
Defined.

(** What an open_audio call that returns has done. *)
Lemma open_audio_effect av w st :
  snd (open_audio av st w) = Ok tt ->
  let w' := fst (open_audio av st w) in
  let channels := FileInfo.channels (info w) in
  exists i s codec c,
    st = Some i /\ oc_streams w !! i = Some s
    /\ avcodec_find_encoder av (AVCodecContext.codec_id (AVStream.codec s)) = Some codec
    /\ avcodec_open2 av (AVStream.codec s) codec = Some c
    /\ oc_streams w' = <[i := AVStream.set_codec c s]> (oc_streams w)
    /\ audio_input_frame_size w'
       = (if AVCodecContext.frame_size c <=? 1
          then if is_pcm16 (AVCodecContext.codec_id c)
               then Z.shiftr (50000 ÷ channels) 1 else 50000 ÷ channels
          else int_mul (AVCodecContext.frame_size c) channels)
    /\ (AVCodecContext.frame_size c <= 1 -> channels <> 0)
    /\ initial_audio_input_frame_size w' = audio_input_frame_size w'
    /\ samples w' = replicate (AUDIO_BUFFER_SIZE av) 0
    /\ audio_outbuf w' = replicate (AUDIO_BUFFER_SIZE av) 0
    /\ audio_input_position w' = audio_input_position w
    /\ info w' = info w /\ audio_st w' = audio_st w /\ video_st w' = video_st w.
Proof.
  cbv zeta. unfold open_audio, open_codec.
  destruct st as [i|]; [|intros H; discriminate H].
  destruct (oc_streams w !! i) as [s|] eqn:Hs;
    [|erewrite bind_undefined
        by (erewrite bind_undefined by (apply stream_codec_null, Hs); reflexivity);
      intros H; discriminate H].
  destruct (avcodec_find_encoder av (AVCodecContext.codec_id (AVStream.codec s)))
    as [codec|] eqn:Hfind.
  2: { erewrite bind_throw
         by (erewrite bind_ok by (apply stream_codec_ok, Hs); rewrite Hfind; reflexivity).
       intros H; discriminate H. }
  destruct (avcodec_open2 av (AVStream.codec s) codec) as [c|] eqn:Hopen.
  2: { erewrite bind_throw
         by (erewrite bind_ok by (apply stream_codec_ok, Hs); rewrite Hfind;
             erewrite bind_ok by reflexivity; rewrite Hopen; reflexivity).
       intros H; discriminate H. }
  assert (Hs' : forall ev,
            oc_streams (set_events ev w) !! i = Some s) by (intros ev; destruct w; exact Hs).
  erewrite bind_ok
    by (erewrite bind_ok by (apply stream_codec_ok, Hs); rewrite Hfind;
        erewrite bind_ok by reflexivity; rewrite Hopen;
        apply modify_codec_ok, Hs').
  set (w1 := set_oc_streams _ _).
  assert (Hs1 : oc_streams w1 !! i = Some (AVStream.set_codec c s)).
  { subst w1. destruct w; simpl in *. apply list_lookup_insert_eq.
    apply lookup_lt_Some in Hs. exact Hs. }
  erewrite bind_ok by (apply stream_codec_ok, Hs1).
  erewrite bind_ok by reflexivity.
  replace (AVStream.codec (AVStream.set_codec c s)) with c by reflexivity.
  replace (info w1) with (info w) by (subst w1; destruct w; reflexivity).
  intros Hok. exists i, s, codec, c.
  split; [reflexivity|]. split; [exact Hs|]. split; [exact Hfind|]. split; [exact Hopen|].
  revert Hok. subst w1.
  destruct (AVCodecContext.frame_size c <=? 1) eqn:Hfs.
  - destruct (FileInfo.channels (info w) =? 0) eqn:Hch.
    + erewrite bind_undefined by (erewrite bind_undefined by reflexivity; reflexivity).
      intros H; discriminate H.
    + apply Z.eqb_neq in Hch.
      destruct (is_pcm16 (AVCodecContext.codec_id c)); intros _;
        unfold_monad; destruct w; simpl; repeat split; auto.
  - apply Z.leb_gt in Hfs. intros _. unfold_monad. destruct w; simpl. repeat split; auto. lia.
Qed.

(** X13: an open_audio call that returns has opened the encoder of the
    stream it was given and has sized the accumulator from the opened
    context: the chunk size is frame_size * channels when the encoder
    reports a frame size above 1, and otherwise 50000 / channels, halved
    for the four 16-bit PCM codecs; in that second case the configured
    channel count is not 0.  The initial chunk size is set to the same
    value, both buffers are allocated afresh, and the fill position is
    left as it was. *)
Theorem open_audio_chunk_size av w st :
  snd (open_audio av st w) = Ok tt ->
  let w' := fst (open_audio av st w) in
  let channels := FileInfo.channels (info w) in
  exists i s codec c,
    st = Some i /\ oc_streams w !! i = Some s
    /\ avcodec_find_encoder av (AVCodecContext.codec_id (AVStream.codec s)) = Some codec
    /\ avcodec_open2 av (AVStream.codec s) codec = Some c
    /\ oc_streams w' = <[i := AVStream.set_codec c s]> (oc_streams w)
    /\ audio_input_frame_size w'
       = (if AVCodecContext.frame_size c <=? 1
          then if is_pcm16 (AVCodecContext.codec_id c)
               then Z.shiftr (50000 ÷ channels) 1 else 50000 ÷ channels
          else int_mul (AVCodecContext.frame_size c) channels)
    /\ (AVCodecContext.frame_size c <= 1 -> channels <> 0)
    /\ initial_audio_input_frame_size w' = audio_input_frame_size w'
    /\ samples w' = replicate (AUDIO_BUFFER_SIZE av) 0
    /\ audio_outbuf w' = replicate (AUDIO_BUFFER_SIZE av) 0
    /\ audio_input_position w' = audio_input_position w
    /\ info w' = info w /\ audio_st w' = audio_st w /\ video_st w' = video_st w.
Proof. apply open_audio_effect. Qed.

Lemma open_audio_chunk_size_witness :
  let w := fst (initialize_streams demo_av demo_audio_only) in
  let w' := fst (open_audio demo_av (Some 0%nat) w) in
  initial_audio_input_frame_size w' = audio_input_frame_size w'
  /\ samples w' = replicate 16 0.
Proof.
  cbv zeta.
  destruct (open_audio_chunk_size demo_av (fst (initialize_streams demo_av demo_audio_only))
              (Some 0%nat) eq_refl)
    as (i & s & codec & c & _ & _ & _ & _ & _ & _ & _ & Hinit & Hsm & _).
  split; [exact Hinit | exact Hsm].
Defined.

Lemma wrap_int_range z : INT_MIN <= wrap_int z <= INT_MAX.
Proof.
  unfold wrap_int, INT_MIN, INT_MAX.
  pose proof (Z.mod_pos_bound (z - -2147483648) (2 ^ 32) ltac:(lia)). lia.
Qed.

Lemma quot_50000_range ch : ch <> 0 -> -50000 <= 50000 ÷ ch <= 50000.
Proof.
  intros Hch. destruct (Z.lt_trichotomy ch 0) as [Hneg|[->|Hpos]]; [|contradiction|].
  - replace ch with (- (- ch)) by lia. rewrite Z.quot_opp_r by lia.
    pose proof (Z.quot_pos 50000 (- ch) ltac:(lia) ltac:(lia)).
    pose proof (Z.quot_le_upper_bound 50000 (- ch) 50000 ltac:(lia) ltac:(nia)). lia.
  - pose proof (Z.quot_pos 50000 ch ltac:(lia) ltac:(lia)).
    pose proof (Z.quot_le_upper_bound 50000 ch 50000 ltac:(lia) ltac:(nia)). lia.
Qed.

Lemma position_stable p : codec_stable (fun w => audio_input_position w = p).
Proof. split; intros w; intros; destruct w; simpl in *; assumption. Qed.

Lemma PrepareStreams_position av w :
  audio_input_position (fst (PrepareStreams av w)) = audio_input_position w.
Proof.
  assert (H : keeps (fun x => audio_input_position x = audio_input_position w)
                (PrepareStreams av)).
  { unfold PrepareStreams, initialize_streams, open_video.
    repeat first
      [ apply open_audio_keeps, position_stable
      | apply keeps_modify; intros x Hx; destruct x; exact Hx
      | match goal with
        | |- keeps _ (add_video_stream _) =>
            intros x Hx;
            destruct (add_video_stream_outcome av x) as [H|[H|(codec & tb & c & H)]];
            rewrite H; destruct x; exact Hx
        | |- keeps _ (add_audio_stream _) =>
            intros x Hx;
            destruct (add_audio_stream_outcome av x) as [H|[H|(codec & tb & c & H & _)]];
            rewrite H; destruct x; exact Hx
        | |- keeps _ (open_codec _ _) =>
            unfold open_codec; codec_keeps (position_stable (audio_input_position w))
        end
      | keeps_structure ]. }
  apply H. reflexivity.
Qed.

(** X14: PrepareStreams hands the accumulation loop a state it can start
    from.  When the call returns, an audio stream was wanted, and the fill
    position was 0 before the call, the writer it leaves is ready in the
    sense the conservation theorem assumes, provided the chunk size the
    call has computed is positive and the chunk size for the encoder's
    sample format fits the buffer. *)
Theorem PrepareStreams_ready av w :
  snd (PrepareStreams av w) = Ok tt ->
  wants_audio w = true ->
  audio_input_position w = 0 ->
  let w' := fst (PrepareStreams av w) in
  0 < audio_input_frame_size w' ->
  0 < target_chunk_size w' <= Z.of_nat (AUDIO_BUFFER_SIZE av) ->
  accumulator_ready w'
  /\ initial_audio_input_frame_size w' = audio_input_frame_size w'
  /\ length (samples w') = AUDIO_BUFFER_SIZE av.
Proof.
  intros Hok Hwant Hpos. cbv zeta. intros Hfs Htarget.
  pose proof (PrepareStreams_triple av w w eq_refl) as Htriple.
  pose proof (PrepareStreams_position av w) as Hpos'.
  destruct (PrepareStreams av w) as [w' res] eqn:Hrun. simpl in *. subst res.
  destruct Htriple as (_ & (Hi & Hf & Ht) & Hv & Ha & Hlen).
  rewrite Hwant in Ha, Hlen. simpl in Hlen.
  (* the last step of the call *)
  unfold PrepareStreams in Hrun.
  apply bind_ok_inv in Hrun. destruct Hrun as (x1 & a1 & _ & Hrun).
  apply bind_ok_inv in Hrun. destruct Hrun as (x2 & a2 & _ & Hrun).
  apply bind_ok_inv in Hrun. destruct Hrun as (x3 & a3 & _ & Hrun).
  apply bind_ok_inv in Hrun. destruct Hrun as (x4 & a4 & _ & Hrun).
  apply bind_ok_inv in Hrun. destruct Hrun as (x5 & a5 & _ & Hrun).
  apply bind_ok_inv in Hrun. destruct Hrun as (x6 & a6 & Hget & Hrun).
  injection Hget as <- <-.
  assert (Heffect : initial_audio_input_frame_size w' = audio_input_frame_size w'
                    /\ samples w' = replicate (AUDIO_BUFFER_SIZE av) 0
                    /\ INT_MIN <= audio_input_frame_size w' <= INT_MAX).
  { unfold when in Hrun.
    destruct (FileInfo.has_audio (info x5) && bool_decide (is_Some (audio_st x5))) eqn:Hb.
    - pose proof (open_audio_effect av x5 (audio_st x5)) as Heff.
      rewrite Hrun in Heff. simpl in Heff.
      destruct (Heff eq_refl)
        as (i & s & codec & c & _ & _ & _ & _ & _ & Hsize & Hch & Hinit & Hsm & _).
      split; [exact Hinit|]. split; [exact Hsm|]. rewrite Hsize.
      destruct (AVCodecContext.frame_size c <=? 1) eqn:Hle.
      + apply Z.leb_le in Hle.
        pose proof (quot_50000_range _ (Hch Hle)) as Hq.
        destruct (is_pcm16 (AVCodecContext.codec_id c)).
        * rewrite Z.shiftr_div_pow2 by lia. change (2 ^ 1) with 2.
          pose proof (Z.div_mod (50000 ÷ FileInfo.channels (info x5)) 2 ltac:(lia)).
          pose proof (Z.mod_pos_bound (50000 ÷ FileInfo.channels (info x5)) 2 ltac:(lia)).
          unfold INT_MIN, INT_MAX. lia.
        * unfold INT_MIN, INT_MAX. lia.
      + apply wrap_int_range.
    - injection Hrun as <-. exfalso.
      rewrite Hi, Ha in Hb. unfold wants_audio in Hwant.
      apply andb_true_iff in Hwant. destruct Hwant as [_ Hwant].
      rewrite Hwant in Hb. simpl in Hb. try rewrite bool_decide_true in Hb by eauto.
      discriminate. }
  destruct Heffect as (Hinit & Hsm & Hrange).
  assert (Hsome : is_Some (audio_codec w')).
  { unfold audio_codec. rewrite Ha. simpl.
    destruct (lookup_lt_is_Some_2 (oc_streams w')
                (length (oc_streams w) + Nat.b2n (wants_video w))%nat ltac:(lia)) as [s Hs].
    rewrite Hs. simpl. eauto. }
  split; [|split; [exact Hinit | rewrite Hsm; apply length_replicate]].
  unfold accumulator_ready.
  split; [exact Hsome|]. split; [rewrite Hsm, length_replicate; exact Htarget|].
  split; [lia|].
  destruct (Z.eq_dec (width_ratio w') 1) as [Hone|Hne].
  - left. unfold target_chunk_size. rewrite Hone, Hinit. unfold int_mul.
    rewrite Z.mul_1_r. symmetry. apply wrap_int_id. exact Hrange.
  - right. split; [exact Hne | lia].
Qed.

Lemma PrepareStreams_ready_witness :
  accumulator_ready (fst (PrepareStreams demo_av demo_audio_only)).
Proof.
  apply (PrepareStreams_ready demo_av demo_audio_only); try reflexivity.
  vm_compute. split; [reflexivity | discriminate].
Defined.

(** ** SetOption *)

Lemma SetOption_closed_form av w stream name value i s :
  stream_enabled w stream -> option_stream w stream = Some i -> oc_streams w !! i = Some s ->
  SetOption av stream name value w
  = (if av_find_opt av (AVCodecContext.priv_data (AVStream.codec s)) name
        || is_named_option name
     then (set_oc_streams
             (<[i := AVStream.set_codec (apply_option av name value (AVStream.codec s)) s]>
                (oc_streams w)) w,
           Ok tt)
     else (w, Throw InvalidOptions)).
Proof.
  intros Hen Hst Hs. unfold SetOption.
  erewrite bind_ok by reflexivity.
  erewrite (bind_ok _ _ w w (Some i)).
  2: { destruct stream; simpl in Hen, Hst; rewrite Hen, Hst; simpl.
       - erewrite bind_ok by (apply stream_codec_ok, Hs). reflexivity.
       - rewrite andb_false_r.
         erewrite bind_ok by (apply stream_codec_ok, Hs). reflexivity. }
  erewrite bind_ok
    by (erewrite bind_ok by (apply stream_codec_ok, Hs); reflexivity).
  destruct (av_find_opt av (AVCodecContext.priv_data (AVStream.codec s)) name
            || is_named_option name); [|reflexivity].
  unfold apply_option.
  repeat match goal with
         | |- context [if String.eqb name ?x then _ else _] => destruct (String.eqb name x)
         end; (erewrite modify_codec_ok by exact Hs); reflexivity.
Qed.

(** X15: SetOption for an enabled kind whose stream pointer is still null,
    as it is before PrepareStreams, reads through the null pointer:
    the call is undefined behaviour, whatever the option, and throws
    nothing. *)
Theorem SetOption_unprepared av w stream name value :
  stream_enabled w stream -> option_stream w stream = None ->
  SetOption av stream name value w = (w, Undefined).
Proof.
  intros Hen Hst. unfold SetOption.
  erewrite bind_ok by reflexivity.
  erewrite bind_undefined; [reflexivity|].
  destruct stream; simpl in Hen, Hst; rewrite Hen, Hst; simpl.
  - reflexivity.
  - rewrite andb_false_r. reflexivity.
Qed.

Lemma SetOption_unprepared_witness :
  SetOption demo_av VIDEO_STREAM "g" "12" demo_writer = (demo_writer, Undefined).
Proof. apply SetOption_unprepared; reflexivity. Defined.

(** X16: on a prepared stream of an enabled kind SetOption has two
    outcomes.  If the option is none of g, qmin, qmax, max_b_frames,
    mb_decision and the encoder has no private option of that name, it
    throws InvalidOptions and the writer is unchanged.  Otherwise it returns,
    and all it has changed is the codec context of the stream of the kind
    it was asked about: the other streams, this stream's index and time
    base, the options, the container format, the stream pointers and the
    accumulator are as before, and no call into the library is logged. *)
Theorem SetOption_prepared av w stream name value i s :
  stream_enabled w stream -> option_stream w stream = Some i -> oc_streams w !! i = Some s ->
  let r := SetOption av stream name value w in
  let known :=
    av_find_opt av (AVCodecContext.priv_data (AVStream.codec s)) name
    || is_named_option name in
  (known = false -> r = (w, Throw InvalidOptions))
  /\ (known = true ->
      snd r = Ok tt
      /\ (exists c, fst r = set_oc_streams (<[i := AVStream.set_codec c s]> (oc_streams w)) w)
      /\ (forall j, j <> i -> oc_streams (fst r) !! j = oc_streams w !! j)
      /\ AVStream.index <$> oc_streams (fst r) !! i = Some (AVStream.index s)
      /\ AVStream.time_base <$> oc_streams (fst r) !! i = Some (AVStream.time_base s)
      /\ length (oc_streams (fst r)) = length (oc_streams w)
      /\ info (fst r) = info w /\ fmt (fst r) = fmt w
      /\ audio_st (fst r) = audio_st w /\ video_st (fst r) = video_st w
      /\ events (fst r) = events w).
Proof.
  intros Hen Hst Hs. cbv zeta.
  rewrite (SetOption_closed_form av w stream name value i s Hen Hst Hs).
  split; intros ->; [reflexivity|]. simpl.
  pose proof (lookup_lt_Some _ _ _ Hs) as Hlt.
  split; [reflexivity|]. split; [eexists; reflexivity|].
  destruct w; simpl in *.
  split; [intros j Hj; apply list_lookup_insert_ne; congruence|].
  rewrite list_lookup_insert_eq by exact Hlt. rewrite length_insert.
  repeat split.
Qed.

Lemma SetOption_prepared_witness :
  SetOption demo_av AUDIO_STREAM "crf" "20" demo_prepared
  = (demo_prepared, Throw InvalidOptions).
Proof.
  assert (Hs : {s | oc_streams demo_prepared !! 1%nat = Some s})
    by (vm_compute; eexists; reflexivity).
  destruct Hs as [s Hs].
  destruct (SetOption_prepared demo_av demo_prepared AUDIO_STREAM "crf" "20" 1%nat s)
    as [Hunknown _];
    [vm_compute; reflexivity | vm_compute; reflexivity | exact Hs |].
  apply Hunknown. reflexivity.
Defined.

(** X17: on a prepared stream of an enabled kind, the five names g, qmin,
    qmax, max_b_frames and mb_decision are served from the codec context's
    own fields and never reach the encoder's private options: the call
    returns, the field of that name receives what the text converts to,
    the four other fields and the private options are unchanged, even if
    the encoder has a private option of the same name.  Any other name that
    the encoder knows as a private option is set there, and the five
    fields are unchanged. *)
Theorem SetOption_named_first av w stream name value i s :
  stream_enabled w stream -> option_stream w stream = Some i -> oc_streams w !! i = Some s ->
  let r := SetOption av stream name value w in
  let c := AVStream.codec s in
  let field (get : AVCodecContext.t -> Z) (key : string) (c' : AVCodecContext.t) :=
    get c' = (if String.eqb name key then stream_extract av value (get c) else get c) in
  (is_named_option name = true ->
   exists c',
     r = (set_oc_streams (<[i := AVStream.set_codec c' s]> (oc_streams w)) w, Ok tt)
     /\ field AVCodecContext.gop_size "g"%string c'
     /\ field AVCodecContext.qmin "qmin"%string c'
     /\ field AVCodecContext.qmax "qmax"%string c'
     /\ field AVCodecContext.max_b_frames "max_b_frames"%string c'
     /\ field AVCodecContext.mb_decision "mb_decision"%string c'
     /\ AVCodecContext.priv_data c' = AVCodecContext.priv_data c)
  /\ (is_named_option name = false ->
      av_find_opt av (AVCodecContext.priv_data c) name = true ->
      exists c',
        r = (set_oc_streams (<[i := AVStream.set_codec c' s]> (oc_streams w)) w, Ok tt)
        /\ AVCodecContext.priv_data c'
           = av_set_string3 av (AVCodecContext.priv_data c) name value
        /\ AVCodecContext.gop_size c' = AVCodecContext.gop_size c
        /\ AVCodecContext.qmin c' = AVCodecContext.qmin c
        /\ AVCodecContext.qmax c' = AVCodecContext.qmax c
        /\ AVCodecContext.max_b_frames c' = AVCodecContext.max_b_frames c
        /\ AVCodecContext.mb_decision c' = AVCodecContext.mb_decision c).
Proof.
  intros Hen Hst Hs. cbv zeta.
  rewrite (SetOption_closed_form av w stream name value i s Hen Hst Hs).
  split.
  - intros Hnamed. rewrite Hnamed, orb_true_r.
    exists (apply_option av name value (AVStream.codec s)). split; [reflexivity|].
    unfold is_named_option in Hnamed. unfold apply_option.
    destruct (AVStream.codec s). simpl.
    destruct (String.eqb name "g") eqn:Hg;
      [apply String.eqb_eq in Hg; subst name; simpl; repeat split|].
    destruct (String.eqb name "qmin") eqn:Hqmin;
      [apply String.eqb_eq in Hqmin; subst name; simpl; repeat split|].
    destruct (String.eqb name "qmax") eqn:Hqmax;
      [apply String.eqb_eq in Hqmax; subst name; simpl; repeat split|].
    destruct (String.eqb name "max_b_frames") eqn:Hmax;
      [apply String.eqb_eq in Hmax; subst name; simpl; repeat split|].
    destruct (String.eqb name "mb_decision") eqn:Hmb;
      [apply String.eqb_eq in Hmb; subst name; simpl; repeat split|].
    discriminate Hnamed.
  - intros Hnamed Hfound. rewrite Hnamed, Hfound. simpl.
    exists (apply_option av name value (AVStream.codec s)). split; [reflexivity|].
    unfold is_named_option in Hnamed. unfold apply_option.
    repeat (apply orb_false_iff in Hnamed; destruct Hnamed as [Hnamed ?]).
    repeat match goal with H : String.eqb name _ = false |- _ => rewrite H; clear H end.
    destruct (AVStream.codec s). simpl. repeat split.
Qed.

Lemma SetOption_named_first_witness :
  snd (SetOption demo_av VIDEO_STREAM "g" "25" demo_prepared) = Ok tt.
Proof.
  assert (Hs : {s | oc_streams demo_prepared !! 0%nat = Some s})
    by (vm_compute; eexists; reflexivity).
  destruct Hs as [s Hs].
  destruct (SetOption_named_first demo_av demo_prepared VIDEO_STREAM "g" "25" 0%nat s)
    as [Hnamed _];
    [vm_compute; reflexivity | vm_compute; reflexivity | exact Hs |].
  destruct (Hnamed eq_refl) as (c' & Hrun & _). rewrite Hrun. reflexivity.
Defined.

(** ** The video path *)

Lemma fill_rgb_ok av frame w :
  let bytes :=
    avpicture_get_size av PIX_FMT_RGB24 (Frame.GetWidth frame) (Frame.GetHeight frame) in
  let n := Z.to_nat ((bytes + 2) ÷ 3) in
  (n <= length (Frame.GetPixels frame))%nat -> 3 * Z.of_nat n <= bytes ->
  fill_rgb (Frame.GetPixels frame) bytes
    (AVPicture.mk PIX_FMT_RGB24 (Frame.GetWidth frame) (Frame.GetHeight frame)
       (replicate (Z.to_nat bytes) 0)) w
  = (w, Ok (source_picture av frame)).
Proof.
  cbv zeta. intros Hn Hb. unfold fill_rgb, source_picture.
  replace (_ || _) with false; [reflexivity|].
  symmetry. apply orb_false_iff. split.
  - apply Nat.ltb_ge. exact Hn.
  - apply Z.ltb_ge. exact Hb.
Qed.

(** X18: the encoding branch of write_video_packet.  For a frame that
    gets as far as the encoder (both picture buffers allocated with a size
    that is not negative) in a container that does not take raw pictures,
    the converter is called once on the RGB picture filled from the
    frame's pixels, each colour channel stored as a byte, the encoder is
    called once on the converted picture, and the coded frame the encoder
    reports is stored in the stream's codec context.  If the encoder returns a size of zero or below (it is
    buffering the frame, or it failed) the call returns normally and
    writes no packet.  If it returns a positive size with a coded frame,
    exactly one packet is handed to the container: it carries the coded
    frame's timestamp, the encoder's output and size and the index of the
    video stream; the call returns normally if the container accepts the
    packet and throws ErrorEncodingVideo with the frame's number if not.  A
    positive size without a coded frame is undefined behaviour. *)
Theorem write_video_packet_encoded av frame w i s :
  video_st w = Some i -> oc_streams w !! i = Some s ->
  reaches_encoder av frame w (AVStream.codec s) ->
  Z.land (AVOutputFormat.flags (fmt w)) AVFMT_RAWPICTURE = 0 ->
  let r := write_video_packet av frame w in
  let c := AVStream.codec s in
  let src := source_picture av frame in
  let final := final_picture av frame w c in
  let enc := avcodec_encode_video av (events w ++ [EvScale src]) c final in
  let work := events w ++ [EvScale src; EvEncodeVideo final] in
  AVCodecContext.coded_frame <$> video_codec (fst r) = Some (out_coded_frame enc)
  /\ (out_size enc <= 0 -> snd r = Ok tt /\ events (fst r) = work)
  /\ (0 < out_size enc -> out_coded_frame enc = None ->
      snd r = Undefined /\ events (fst r) = work)
  /\ (0 < out_size enc -> forall cf, out_coded_frame enc = Some cf ->
      exists pkt,
        events (fst r) = work ++ [EvWriteFrame pkt]
        /\ AVPacket.pts pkt = AVFrame.pts cf
        /\ AVPacket.size pkt = out_size enc
        /\ AVPacket.data pkt = OutBuf (out_bytes enc)
        /\ AVPacket.stream_index pkt = AVStream.index s
        /\ snd r = (if av_interleaved_write_frame av work pkt =? 0 then Ok tt
                    else Throw (ErrorEncodingVideo (Frame.number frame)))).
Proof.
  intros Hst Hs (Halloc & Hsrc & Hfinal & Hpix & Hbytes & Hsws) Hraw. cbv zeta.
  assert (Hi : (i < length (oc_streams w))%nat) by (eapply lookup_lt_Some; eauto).
  unfold write_video_packet.
  erewrite bind_ok by reflexivity. rewrite Hst.
  erewrite bind_ok by (apply stream_codec_ok; exact Hs).
  erewrite bind_ok by (apply allocate_avframe_ok; assumption).
  erewrite bind_ok by (apply allocate_avframe_ok; assumption).
  cbn [fst snd].
  erewrite bind_ok by (apply fill_rgb_ok; assumption).
  rewrite Hsws, Hraw. cbn [Z.eqb negb].
  erewrite bind_ok by reflexivity.
  erewrite bind_ok by reflexivity.
  erewrite bind_ok by reflexivity.
  fold (final_picture av frame w (AVStream.codec s)).
  destruct w as [inf fm l a v sm ob fs ps ifs rs ev]. simpl in Hs, Hi, Hst |- *. subst v.
  unfold log, modify, set_events. cbn [events oc_streams].
  erewrite bind_ok by (apply modify_codec_ok; exact Hs). cbn [oc_streams set_oc_streams].
  set (enc := avcodec_encode_video av _ _ _).
  unfold when.
  destruct (out_size enc >? 0) eqn:Hsize.
  - apply Z.gtb_lt in Hsize.
    erewrite bind_ok
      by (apply stream_codec_ok; cbn [oc_streams]; apply list_lookup_insert_eq; exact Hi).
    cbn [AVStream.codec AVStream.set_codec]. rewrite coded_frame_set.
    destruct (out_coded_frame enc) as [cf|] eqn:Hcf.
    + erewrite bind_ok
        by (apply stream_ptr_ok; cbn [oc_streams]; apply list_lookup_insert_eq; exact Hi).
      erewrite bind_ok by reflexivity.
      cbn [events].
      match goal with
      | |- context [av_interleaved_write_frame av ?h ?p] =>
          set (pkt := p); set (averror := av_interleaved_write_frame av h pkt)
      end.
      unfold bind, throw, ret, video_codec. cbn [fst snd video_st oc_streams events].
      split.
      { destruct (negb (averror =? 0)); simpl;
          rewrite list_lookup_insert_eq by exact Hi; simpl;
          rewrite coded_frame_set; reflexivity. }
      split; [intros Hle; lia|]. split; [intros _ Hnone; discriminate Hnone|].
      intros _ cf' [= <-]. exists pkt.
      split; [destruct (negb (averror =? 0)); simpl;
              rewrite <- !app_assoc; reflexivity|].
      split.
      { subst pkt. simpl.
        destruct (AVFrame.pts cf =? AV_NOPTS_VALUE) eqn:Hpts; simpl;
          destruct (negb (AVFrame.key_frame cf =? 0)); simpl; try reflexivity;
          apply Z.eqb_eq in Hpts; symmetry; exact Hpts. }
      split; [reflexivity|]. split; [reflexivity|]. split; [reflexivity|].
      subst averror. rewrite <- !app_assoc. simpl.
      destruct (av_interleaved_write_frame av _ pkt =? 0); reflexivity.
    + unfold undefined, video_codec. simpl.
      rewrite list_lookup_insert_eq by exact Hi. simpl. rewrite coded_frame_set.
      split; [reflexivity|]. split; [intros Hle; lia|].
      split; [intros _ _; split; [reflexivity | rewrite <- app_assoc; reflexivity]|].
      intros _ cf Hcf'. discriminate Hcf'.
  - rewrite Z.gtb_ltb in Hsize. apply Z.ltb_ge in Hsize.
    unfold ret, video_codec. simpl.
    rewrite list_lookup_insert_eq by exact Hi. simpl. rewrite coded_frame_set.
    split; [reflexivity|].
    split; [intros _; split; [reflexivity | rewrite <- app_assoc; reflexivity]|].
    split; [intros Hpos; lia | intros Hpos; lia].
Qed.

Lemma write_video_packet_encoded_witness :
  AVCodecContext.coded_frame
    <$> video_codec (fst (write_video_packet demo_av (demo_frame 1) demo_prepared))
  = Some (Some (AVFrame.mk 0 1)).
Proof.
  assert (Hs : {s | oc_streams demo_prepared !! 0%nat = Some s})
    by (vm_compute; eexists; reflexivity).
  destruct Hs as [s Hs].
  destruct (write_video_packet_encoded demo_av (demo_frame 1) demo_prepared 0%nat s)
    as [Hcf _].
  - vm_compute. reflexivity.
  - exact Hs.
  - unfold reaches_encoder. cbv zeta.
    split; [vm_compute; reflexivity|]. split; [vm_compute; discriminate|].
    split; [vm_compute; discriminate|]. split; [vm_compute; lia|].
    split; [vm_compute; discriminate | reflexivity].
  - vm_compute. reflexivity.
  - exact Hcf.
Defined.

(** X19: the raw-picture branch of write_video_packet.  In a container
    that takes raw pictures a frame that gets past the converter (both
    picture buffers allocated with a size that is not negative, the RGB
    picture filled from the frame's pixels with each colour channel stored
    as a byte) is never handed to the encoder: exactly one packet is
    written, whose payload is the converted picture itself, with the size of an AVPicture, the index
    of the video stream, the key flag and no timestamp.  The streams are
    left untouched.  The call returns normally if the container accepts
    the packet and throws ErrorEncodingVideo with the frame's number if
    not. *)
Theorem write_video_packet_raw av frame w i s :
  video_st w = Some i -> oc_streams w !! i = Some s ->
  reaches_encoder av frame w (AVStream.codec s) ->
  Z.land (AVOutputFormat.flags (fmt w)) AVFMT_RAWPICTURE <> 0 ->
  let r := write_video_packet av frame w in
  let src := source_picture av frame in
  let final := final_picture av frame w (AVStream.codec s) in
  exists pkt,
    events (fst r) = events w ++ [EvScale src; EvWriteFrame pkt]
    /\ AVPacket.data pkt = RawPicture final
    /\ AVPacket.size pkt = sizeof_AVPicture av
    /\ AVPacket.stream_index pkt = AVStream.index s
    /\ AVPacket.flags pkt = AV_PKT_FLAG_KEY
    /\ AVPacket.pts pkt = AV_NOPTS_VALUE
    /\ oc_streams (fst r) = oc_streams w
    /\ snd r = (if av_interleaved_write_frame av (events w ++ [EvScale src]) pkt =? 0
                then Ok tt else Throw (ErrorEncodingVideo (Frame.number frame))).
Proof.
  intros Hst Hs (Halloc & Hsrc & Hfinal & Hpix & Hbytes & Hsws) Hraw. cbv zeta.
  apply Z.eqb_neq in Hraw.
  unfold write_video_packet.
  erewrite bind_ok by reflexivity. rewrite Hst.
  erewrite bind_ok by (apply stream_codec_ok; exact Hs).
  erewrite bind_ok by (apply allocate_avframe_ok; assumption).
  erewrite bind_ok by (apply allocate_avframe_ok; assumption).
  cbn [fst snd].
  erewrite bind_ok by (apply fill_rgb_ok; assumption).
  rewrite Hsws, Hraw. cbn [negb].
  erewrite bind_ok by reflexivity.
  fold (final_picture av frame w (AVStream.codec s)).
  destruct w as [inf fm l a v sm ob fs ps ifs rs ev]. simpl in Hs, Hst |- *. subst v.
  unfold log, modify, set_events. cbn [events oc_streams].
  erewrite bind_ok by (apply stream_ptr_ok; exact Hs).
  erewrite bind_ok by reflexivity.
  cbn [events].
  match goal with
  | |- context [av_interleaved_write_frame av ?h ?p] =>
      set (pkt := p); set (averror := av_interleaved_write_frame av h pkt)
  end.
  exists pkt. unfold bind, when, throw, ret.
  change (av_interleaved_write_frame av (ev ++ [EvScale (source_picture av frame)]) pkt)
    with averror.
  destruct (averror =? 0); simpl; rewrite <- app_assoc; repeat split.
Qed.

Lemma write_video_packet_raw_witness :
  let w := set_fmt (AVOutputFormat.mk (CODEC_ID_OTHER 2) (CODEC_ID_OTHER 1) AVFMT_RAWPICTURE)
             demo_prepared in
  exists pkt,
    written_packets (events (fst (write_video_packet demo_av (demo_frame 1) w))) = [pkt]
    /\ AVPacket.size pkt = 64.
Proof.
  cbv zeta.
  assert (Hs : {s | oc_streams demo_prepared !! 0%nat = Some s})
    by (vm_compute; eexists; reflexivity).
  destruct Hs as [s Hs].
  destruct (write_video_packet_raw demo_av (demo_frame 1)
              (set_fmt (AVOutputFormat.mk (CODEC_ID_OTHER 2) (CODEC_ID_OTHER 1)
                          AVFMT_RAWPICTURE) demo_prepared) 0%nat s)
    as (pkt & Hev & _ & Hsize & _).
  - vm_compute. reflexivity.
  - exact Hs.
  - unfold reaches_encoder. cbv zeta.
    split; [vm_compute; reflexivity|]. split; [vm_compute; discriminate|].
    split; [vm_compute; discriminate|]. split; [vm_compute; lia|].
    split; [vm_compute; discriminate | reflexivity].
  - vm_compute. discriminate.
  - exists pkt. split; [|exact Hsize].
    rewrite Hev. unfold written_packets. rewrite flat_map_app.
    replace (flat_map _ (events _)) with (@nil AVPacket.t) by (vm_compute; reflexivity).
    reflexivity.
Defined.

Lemma video_step_events w added :
  Forall is_video_event added -> (length (written_packets added) <= 1)%nat ->
  video_step w (set_events (events w ++ added) w).
Proof.
  intros Hall Hlen. unfold video_step. destruct w; simpl.
  repeat split. exists added. repeat split; assumption.
Qed.

Lemma video_step_coded_frame w i s cf added :
  oc_streams w !! i = Some s ->
  Forall is_video_event added -> (length (written_packets added) <= 1)%nat ->
  video_step w
    (set_events (events w ++ added)
       (set_oc_streams
          (<[i := AVStream.set_codec (AVCodecContext.set_coded_frame cf (AVStream.codec s)) s]>
             (oc_streams w)) w)).
Proof.
  intros Hs Hall Hlen. unfold video_step. destruct w; simpl.
  rewrite length_insert. repeat split. exists added. repeat split; assumption.
Qed.

(** Every way write_video_packet can end. *)
Lemma write_video_packet_step av frame w :
  let r := write_video_packet av frame w in
  video_step w (fst r)
  /\ match snd r with
     | Ok _ | Undefined => True
     | Throw e =>
         ((e = OutOfMemory \/ e = BadAlloc) /\ fst r = w)
         \/ (e = ErrorEncodingVideo (Frame.number frame)
             /\ exists earlier pkt, events (fst r) = events w ++ earlier ++ [EvWriteFrame pkt])
     | OutOfFuel => False
     end.
Proof.
  cbv zeta. unfold write_video_packet.
  erewrite bind_ok by reflexivity.
  assert (Hrefl : video_step w w).
  { pose proof (video_step_events w [] ltac:(constructor) ltac:(simpl; lia)) as H.
    rewrite app_nil_r in H. destruct w; exact H. }
  destruct (video_st w) as [j|] eqn:Hst; [|split; [exact Hrefl | exact I]].
  destruct (oc_streams w !! j) as [s|] eqn:Hs;
    [|erewrite bind_undefined by (apply stream_codec_null; exact Hs);
      split; [exact Hrefl | exact I]].
  erewrite bind_ok by (apply stream_codec_ok; exact Hs).
  destruct (avcodec_alloc_frame av (events w)) eqn:Halloc;
    [|erewrite bind_throw by (apply allocate_avframe_fail; exact Halloc);
      split; [exact Hrefl | left; split; [left|]; reflexivity]].
  step_allocate ltac:(split; [exact Hrefl | left; split; [right|]; reflexivity]).
  step_allocate ltac:(split; [exact Hrefl | left; split; [right|]; reflexivity]).
  cbn [fst snd].
  unfold fill_rgb.
  destruct (_ || _);
    [erewrite bind_undefined by reflexivity; split; [exact Hrefl | exact I]|].
  erewrite bind_ok by reflexivity.
  destruct (sws_getContext av _ _ _ _ _ _);
    [|split; [exact Hrefl | left; split; [left|]; reflexivity]].
  erewrite bind_ok by reflexivity.
  assert (Hs1 : forall evs, oc_streams (set_events evs w) !! j = Some s)
    by (intros evs; destruct w; exact Hs).
  assert (Hj : (j < length (oc_streams w))%nat) by (eapply lookup_lt_Some; eauto).
  destruct (negb (Z.land (AVOutputFormat.flags (fmt w)) AVFMT_RAWPICTURE =? 0)).
  - erewrite bind_ok by (apply stream_ptr_ok; apply Hs1).
    erewrite bind_ok by reflexivity.
    erewrite bind_ok by reflexivity.
    unfold when, throw, ret.
    match goal with
    | |- context [negb (?x =? 0)] => destruct (negb (x =? 0))
    end; simpl.
    + split.
      * destruct w; simpl. rewrite <- app_assoc.
        apply (video_step_events (mkWriter _ _ _ _ _ _ _ _ _ _ _ _) [_; _]);
          [repeat constructor | simpl; lia].
      * right. split; [reflexivity|]. destruct w; simpl.
        eexists [_], _. rewrite <- app_assoc. reflexivity.
    + split; [|exact I].
      destruct w; simpl. rewrite <- app_assoc.
      apply (video_step_events (mkWriter _ _ _ _ _ _ _ _ _ _ _ _) [_; _]);
        [repeat constructor | simpl; lia].
  - destruct w as [inf fm l a v sm ob fs ps ifs rs ev]. simpl in *. subst v.
    erewrite bind_ok by reflexivity.
    erewrite bind_ok by reflexivity. simpl.
    erewrite bind_ok by (apply modify_codec_ok; exact Hs). simpl.
    set (enc := avcodec_encode_video av _ _ _).
    unfold when.
    destruct (out_size enc >? 0).
    + erewrite bind_ok
        by (apply stream_codec_ok; simpl; apply list_lookup_insert_eq; exact Hj).
      simpl. rewrite coded_frame_set.
      destruct (out_coded_frame enc) as [cf|].
      * erewrite bind_ok
          by (apply stream_ptr_ok; simpl; apply list_lookup_insert_eq; exact Hj).
        erewrite bind_ok by reflexivity. simpl.
        erewrite bind_ok by reflexivity. simpl.
        unfold throw, ret.
        match goal with
        | |- context [negb (?x =? 0)] => destruct (negb (x =? 0))
        end; simpl.
        -- split.
           ++ rewrite <- !app_assoc.
              apply (video_step_coded_frame (mkWriter _ _ _ _ _ _ _ _ _ _ _ _) j s _
                       [_; _; _] Hs); [repeat constructor | simpl; lia].
           ++ right. split; [reflexivity|].
              eexists [_; _], _. rewrite <- !app_assoc. reflexivity.
        -- split; [|exact I]. rewrite <- !app_assoc.
           apply (video_step_coded_frame (mkWriter _ _ _ _ _ _ _ _ _ _ _ _) j s _
                    [_; _; _] Hs); [repeat constructor | simpl; lia].
      * unfold undefined. simpl. split; [|exact I]. rewrite <- !app_assoc.
        apply (video_step_coded_frame (mkWriter _ _ _ _ _ _ _ _ _ _ _ _) j s _
                 [_; _] Hs); [repeat constructor | simpl; lia].
    + unfold ret. simpl.
      split; [|exact I]. rewrite <- !app_assoc.
      apply (video_step_coded_frame (mkWriter _ _ _ _ _ _ _ _ _ _ _ _) j s _
               [_; _] Hs); [repeat constructor | simpl; lia].
Qed.

(** X20: write_video_packet, whatever the frame and the library's
    answers.  It throws nothing but OutOfMemory (a frame structure or the
    converter cannot be allocated) and std::bad_alloc (the library gives a
    negative size for a picture buffer), and then before anything has
    happened, the writer being unchanged, and ErrorEncodingVideo with the
    frame's number, and then right after the container has refused a
    packet.  Of the calls the log records it makes only those to the
    converter, the video encoder and the container: never one to the audio
    encoder or the resampler.  It hands the container at most one packet,
    and leaves the options, the container format, both stream pointers,
    the number of streams and the whole audio accumulator as they were. *)
Theorem write_video_packet_outcome av frame w :
  let r := write_video_packet av frame w in
  let w' := fst r in
  (forall e, snd r = Throw e ->
     ((e = OutOfMemory \/ e = BadAlloc) /\ w' = w)
     \/ (e = ErrorEncodingVideo (Frame.number frame)
         /\ exists earlier pkt, events w' = events w ++ earlier ++ [EvWriteFrame pkt]))
  /\ snd r <> OutOfFuel
  /\ (exists added,
        events w' = events w ++ added
        /\ Forall is_video_event added
        /\ (length (written_packets added) <= 1)%nat)
  /\ info w' = info w /\ fmt w' = fmt w
  /\ audio_st w' = audio_st w /\ video_st w' = video_st w
  /\ length (oc_streams w') = length (oc_streams w)
  /\ samples w' = samples w /\ audio_outbuf w' = audio_outbuf w
  /\ audio_input_frame_size w' = audio_input_frame_size w
  /\ audio_input_position w' = audio_input_position w
  /\ initial_audio_input_frame_size w' = initial_audio_input_frame_size w
  /\ resampler w' = resampler w.
Proof.
  cbv zeta. destruct (write_video_packet_step av frame w) as [Hstep Hres].
  destruct Hstep as (Hi & Hf & Ha & Hv & Hsm & Hob & Hfs & Hps & Hifs & Hrs & Hlen & Hev).
  split; [intros e He; rewrite He in Hres; exact Hres|].
  split; [intros He; rewrite He in Hres; exact Hres|].
  split; [exact Hev|]. repeat split; assumption.
Qed.

Lemma write_video_packet_outcome_witness :
  exists earlier pkt,
    events (fst (write_video_packet demo_av_failing (demo_frame 1) demo_prepared))
    = events demo_prepared ++ earlier ++ [EvWriteFrame pkt].
Proof.
  destruct (write_video_packet_outcome demo_av_failing (demo_frame 1) demo_prepared)
    as [Hthrow _].
  destruct (Hthrow (ErrorEncodingVideo 1) ltac:(vm_compute; reflexivity))
    as [[[Hmem | Hmem] _] | [_ Hlog]]; [discriminate Hmem | discriminate Hmem | exact Hlog].
Defined.

(** A picture size the library refuses (a negative width): the buffer
    allocation throws std::bad_alloc before anything is logged. *)
Example negative_picture_size_throws :
  write_video_packet demo_av (Frame.mk 1 (-2) 1 [] 2 1 (fun _ => 0)) demo_prepared
  = (demo_prepared, Throw BadAlloc).
Proof. vm_compute. reflexivity. Qed.

(** Colour channels wider than a byte reach the converter cut to their low
    eight bits. *)
Example wide_channels_truncated :
  let frame := Frame.mk 1 1 1 [PixelPacket.mk 65535 2 256] 2 1 (fun _ => 0) in
  exists rest,
    events (fst (write_video_packet demo_av frame demo_prepared))
    = events demo_prepared ++ EvScale (AVPicture.mk PIX_FMT_RGB24 1 1 [255; 2; 0]) :: rest.
Proof. vm_compute. eexists. reflexivity. Qed.

Lemma encoded_chunks_video added :
  Forall is_video_event added -> encoded_chunks added = [].
Proof.
  induction 1 as [|e added He _ IH]; [reflexivity|].
  unfold encoded_chunks in *. simpl. rewrite IH.
  destruct e; simpl in He; try contradiction; reflexivity.
Qed.

(** X21: when the video packet of a frame fails, WriteFrame stops there:
    it ends as write_video_packet ended, with the same exception, and the
    audio samples of that frame are never looked at: nothing is copied to
    the accumulator, the fill position stays, and the audio encoder is
    not called. *)
Theorem WriteFrame_video_failure av fuel frame w e :
  FileInfo.has_video (info w) = true -> is_Some (video_st w) ->
  snd (write_video_packet av frame w) = Throw e ->
  let r := WriteFrame av fuel frame w in
  r = write_video_packet av frame w
  /\ snd r = Throw e
  /\ samples (fst r) = samples w
  /\ audio_input_position (fst r) = audio_input_position w
  /\ audio_input_frame_size (fst r) = audio_input_frame_size w
  /\ encoded_chunks (events (fst r)) = encoded_chunks (events w).
Proof.
  intros Hv Hst He. cbv zeta.
  assert (Hrun : WriteFrame av fuel frame w = write_video_packet av frame w).
  { unfold WriteFrame. erewrite bind_ok by reflexivity.
    rewrite Hv, bool_decide_true by exact Hst. simpl.
    destruct (write_video_packet av frame w) as [w1 res] eqn:Hvideo. simpl in He. subst res.
    erewrite bind_throw by (unfold when; exact Hvideo). reflexivity. }
  rewrite Hrun. split; [reflexivity|]. split; [exact He|].
  destruct (write_video_packet_step av frame w) as [Hstep _].
  destruct Hstep as (_ & _ & _ & _ & Hsm & _ & Hfs & Hps & _ & _ & _ & added & Hev & Hall & _).
  split; [exact Hsm|]. split; [exact Hps|]. split; [exact Hfs|].
  rewrite Hev. unfold encoded_chunks. rewrite flat_map_app.
  fold (encoded_chunks added). rewrite (encoded_chunks_video _ Hall). apply app_nil_r.
Qed.

Lemma WriteFrame_video_failure_witness :
  snd (WriteFrame demo_av_failing 8 (demo_frame 1) demo_prepared)
  = Throw (ErrorEncodingVideo 1)
  /\ encoded_chunks (events (fst (WriteFrame demo_av_failing 8 (demo_frame 1) demo_prepared)))
     = encoded_chunks (events demo_prepared).
Proof.
  destruct (WriteFrame_video_failure demo_av_failing 8 (demo_frame 1) demo_prepared
              (ErrorEncodingVideo 1))
    as (_ & Hthrow & _ & _ & _ & Hchunks).
  - vm_compute. reflexivity.
  - eexists. vm_compute. reflexivity.
  - vm_compute. reflexivity.
  - split; [exact Hthrow | exact Hchunks].
Defined.

(** ** The audio path when the container refuses a packet *)

Lemma audio_loop_throw av frame frame_samples :
  forall fuel samples_position remaining w,
    match audio_loop av fuel frame frame_samples samples_position remaining w with
    | (w', Throw e) => e = ErrorEncodingAudio (Frame.number frame) /\ chunk_refused w'
    | _ => True
    end.
Proof.
  induction fuel as [|fuel IH]; intros sp rem w; [exact I|].
  simpl. destruct (rem >? 0); [|exact I].
  erewrite bind_ok by reflexivity.
  destruct w as [i fm l a v sm ob fs ps ifs r ev].
  cbn [audio_input_frame_size audio_input_position].
  set (diff := if rem >=? fs - ps then fs - ps else if rem <? fs - ps then rem else 0).
  destruct ((diff <? 0) || (ps <? 0) || (sp <? 0) || (Z.of_nat (length sm) <? ps + diff))
    eqn:Hbad.
  { erewrite bind_undefined by (unfold memcpy_samples; simpl; rewrite Hbad; reflexivity).
    exact I. }
  erewrite bind_ok by (unfold memcpy_samples; simpl; rewrite Hbad; reflexivity).
  erewrite bind_ok by reflexivity. simpl.
  erewrite bind_ok by reflexivity. simpl.
  destruct (ps + diff <? fs) eqn:Hfill; [exact I|].
  assert (Hfull : ps + diff = fs).
  { apply Z.ltb_ge in Hfill. subst diff.
    destruct (rem >=? fs - ps) eqn:H1; [lia|].
    destruct (rem <? fs - ps) eqn:H2; lia. }
  destruct a as [j|]; [|exact I].
  destruct (l !! j) as [s|] eqn:Hs.
  2: { erewrite bind_undefined by (apply stream_codec_null; exact Hs). exact I. }
  assert (Hj : (j < length l)%nat) by (eapply lookup_lt_Some; eauto).
  erewrite bind_ok by (apply stream_codec_ok; simpl; exact Hs). simpl.
  erewrite bind_ok by reflexivity. simpl.
  erewrite bind_ok by reflexivity. simpl.
  erewrite bind_ok by (apply modify_codec_ok; simpl; exact Hs). simpl.
  erewrite bind_ok by (apply stream_codec_ok; simpl; apply list_lookup_insert_eq; exact Hj).
  erewrite bind_ok by (apply stream_ptr_ok; simpl; apply list_lookup_insert_eq; exact Hj).
  erewrite bind_ok by reflexivity. simpl.
  erewrite bind_ok by reflexivity. simpl.
  match goal with
  | |- context [negb (?x =? 0)] => destruct (negb (x =? 0))
  end.
  - unfold throw. simpl. split; [reflexivity|].
    unfold chunk_refused. simpl. split; [exact Hfull|].
    eexists _, _. rewrite <- app_assoc. reflexivity.
  - erewrite bind_ok by reflexivity. apply IH.
Qed.

Lemma prepare_audio_throw av frame w :
  match prepare_audio av frame w with
  | (w', Throw e) => e = ResampleError /\ w' = set_resampler true w
  | _ => True
  end.
Proof.
  destruct (audio_st w) as [j|] eqn:Hst.
  - destruct (oc_streams w !! j) as [s|] eqn:Hs.
    + rewrite (prepare_audio_run av frame w j s Hst Hs). cbv zeta.
      repeat match goal with
             | |- context [if ?b then _ else _] => destruct b
             end; try exact I.
      split; reflexivity.
    + unfold prepare_audio. erewrite bind_ok by reflexivity. rewrite Hst.
      erewrite bind_undefined by (apply stream_codec_null; exact Hs). exact I.
  - unfold prepare_audio. erewrite bind_ok by reflexivity. rewrite Hst. exact I.
Qed.

(** X22: write_audio_packet throws nothing but ResampleError and
    ErrorEncodingAudio with the frame's number.  ResampleError is thrown
    before anything is copied or logged.  ErrorEncodingAudio is thrown
    right after the container has refused a packet, and the chunk that
    packet was made from is then still in the accumulator: the fill
    position is not reset but equals the chunk size, and the last two calls
    logged are the encoding of the chunk the buffer holds and the refused
    write. *)
Theorem write_audio_packet_failure av fuel frame w e :
  snd (write_audio_packet av fuel frame w) = Throw e ->
  let w' := fst (write_audio_packet av fuel frame w) in
  (e = ResampleError /\ w' = set_resampler true w)
  \/ (e = ErrorEncodingAudio (Frame.number frame)
      /\ audio_input_position w' = audio_input_frame_size w'
      /\ exists earlier pkt,
           events w'
           = earlier
             ++ [EvEncodeAudio (take (Z.to_nat (audio_input_frame_size w')) (samples w'));
                 EvWriteFrame pkt]).
Proof.
  cbv zeta. unfold write_audio_packet, bind.
  pose proof (prepare_audio_throw av frame w) as Hprep.
  destruct (prepare_audio av frame w) as [w1 [[frame_samples total]|e1| |]]; simpl;
    try (intros H; discriminate H).
  - pose proof (audio_loop_throw av frame frame_samples fuel 0 total w1) as Hloop.
    destruct (audio_loop av fuel frame frame_samples 0 total w1) as [w2 res]. simpl.
    intros ->. right. exact Hloop.
  - intros [= <-]. left. exact Hprep.
Qed.

Lemma write_audio_packet_failure_witness :
  let w' := fst (write_audio_packet demo_av_failing 8 (demo_frame 2) demo_opened) in
  audio_input_position w' = audio_input_frame_size w'.
Proof.
  cbv zeta.
  destruct (write_audio_packet_failure demo_av_failing 8 (demo_frame 2) demo_opened
              (ErrorEncodingAudio 1) eq_refl) as [[H _] | (_ & Hfull & _)];
    [discriminate H | exact Hfull].
Defined.

Lemma log_grows_stable base : loop_stable (fun w => exists rest, events w = base ++ rest).
Proof.
  split; intros w; intros; destruct w; simpl in *; try assumption.
  match goal with H : exists _, _ |- _ => destruct H as [rest ->] end.
  eexists. rewrite <- app_assoc. reflexivity.
Qed.

Lemma prepare_audio_plain av frame w j s :
  audio_st w = Some j -> oc_streams w !! j = Some s ->
  needs_conversion (AVStream.codec s) (info w) frame = false ->
  frame_sample_count frame <= Z.of_nat (AUDIO_BUFFER_SIZE av) ->
  prepare_audio av frame w
  = (set_resampler true w, Ok (Frame.samples16 frame, frame_sample_count frame)).
Proof.
  intros Hst Hs Hconv Hfill.
  rewrite (prepare_audio_run av frame w j s Hst Hs). cbv zeta.
  rewrite Hconv.
  replace (Z.of_nat (AUDIO_BUFFER_SIZE av) <? frame_sample_count frame) with false by lia.
  reflexivity.
Qed.

(** X23: a write_audio_packet call that starts with a full accumulator,
    the state a refused packet leaves behind, for a frame that needs no
    conversion and carries at least one sample and no more samples than
    the sample array has cells, does not consume a sample of its frame
    before it has encoded the chunk in the accumulator once more: the first
    call it logs is the encoding of the chunk the buffer held on entry.  A
    caller that goes on after ErrorEncodingAudio gets that chunk into the
    stream twice. *)
Theorem write_audio_packet_full_accumulator av fuel frame w j s :
  audio_input_position w = audio_input_frame_size w ->
  0 <= audio_input_frame_size w <= Z.of_nat (length (samples w)) ->
  audio_st w = Some j -> oc_streams w !! j = Some s ->
  needs_conversion (AVStream.codec s) (info w) frame = false ->
  0 < frame_sample_count frame <= Z.of_nat (AUDIO_BUFFER_SIZE av) ->
  (0 < fuel)%nat ->
  exists rest,
    events (fst (write_audio_packet av fuel frame w))
    = events w
      ++ EvEncodeAudio (take (Z.to_nat (audio_input_frame_size w)) (samples w)) :: rest.
Proof.
  intros Hfull Hcap Hst Hs Hconv Htotal Hfuel.
  destruct fuel as [|fuel]; [lia|].
  unfold write_audio_packet.
  erewrite bind_ok by (eapply prepare_audio_plain; [eassumption..|lia]).
  cbn [fst snd].
  set (total := frame_sample_count frame) in *.
  destruct w as [i fm l a v sm ob fs ps ifs r ev]. simpl in *. subst a ps.
  replace (total >? 0) with true by lia.
  erewrite bind_ok by reflexivity. simpl.
  replace (fs - fs) with 0 by lia.
  replace (total >=? 0) with true by lia.
  erewrite bind_ok by (apply memcpy_samples_ok; simpl; lia). simpl.
  erewrite bind_ok by reflexivity. simpl.
  erewrite bind_ok by reflexivity. simpl.
  replace (fs + 0 <? fs) with false by lia.
  erewrite bind_ok by (apply stream_codec_ok; simpl; exact Hs). simpl.
  replace (fs + 0) with fs by lia. rewrite take_drop.
  erewrite bind_ok by reflexivity. simpl.
  match goal with
  | |- context [fst (?m ?x)] =>
      assert (Hkeeps : keeps (fun y => exists rest,
                                 events y = (ev ++ [EvEncodeAudio (take (Z.to_nat fs) sm)])
                                            ++ rest) m);
      [|destruct (Hkeeps x) as [rest Hrest]]
  end.
  - pose proof (log_grows_stable (ev ++ [EvEncodeAudio (take (Z.to_nat fs) sm)]))
      as [Hev Hsm Hpos Hob Hcf].
    repeat first
      [ apply audio_loop_keeps; split; assumption
      | apply keeps_modify; intros; first [apply Hpos | apply Hob]; assumption
      | apply keeps_log; intros; apply Hev; [|assumption];
        first [exact I | apply is_audio_packet]
      | apply keeps_modify_codec; intros; apply Hcf; assumption
      | keeps_structure ].
  - exists []. simpl. rewrite app_nil_r. reflexivity.
  - exists rest. rewrite Hrest, <- app_assoc. reflexivity.
Qed.

Lemma write_audio_packet_full_accumulator_witness :
  let w := fst (write_audio_packet demo_av_failing 8 (demo_frame 2) demo_opened) in
  exists rest,
    events (fst (write_audio_packet demo_av 8 (demo_frame 2) w))
    = events w
      ++ EvEncodeAudio (take (Z.to_nat (audio_input_frame_size w)) (samples w)) :: rest.
Proof.
  cbv zeta.
  apply (write_audio_packet_full_accumulator demo_av 8 (demo_frame 2)
           (fst (write_audio_packet demo_av_failing 8 (demo_frame 2) demo_opened)) 0%nat
           (AVStream.mk 0 (Fraction.mk 1 90000)
              (AVCodecContext.set_sample_fmt AV_SAMPLE_FMT_S16 demo_context))).
  - vm_compute. reflexivity.
  - vm_compute. split; discriminate.
  - vm_compute. reflexivity.
  - vm_compute. reflexivity.
  - vm_compute. reflexivity.
  - vm_compute. split; [reflexivity | discriminate].
  - lia.
Defined.

(** ** Chunks and frame boundaries *)






(** ** The range overload on every path *)

Lemma WriteFrame_loop_prefix av audio_fuel reader length :
  length < INT_MAX ->
  forall fuel number w,
    INT_MIN <= number ->
    let r := WriteFrame_loop av fuel audio_fuel reader number length w in
    exists k,
      0 <= k <= Z.max 0 (length - number + 1)
      /\ pulled_frames (events (fst r)) = pulled_frames (events w) ++ seqZ number k
      /\ (snd r = Ok tt -> k = Z.max 0 (length - number + 1))
      /\ (forall e, snd r = Throw e -> 0 < k).
Proof.
  intros Hmax. induction fuel as [|fuel IH]; intros number w Hmin; cbv zeta.
  - exists 0. simpl. rewrite app_nil_r.
    split; [lia|]. split; [reflexivity|]. split; intros; discriminate.
  - simpl. destruct (number <=? length) eqn:Hle.
    + apply Z.leb_le in Hle.
      erewrite bind_ok by reflexivity.
      pose proof (WriteFrame_pulled_frames av audio_fuel (reader number)
                    (set_events (events w ++ [EvGetFrame number]) w)) as Hpulled.
      assert (Hlogged : pulled_frames (events (set_events (events w ++ [EvGetFrame number]) w))
                        = pulled_frames (events w) ++ [number]).
      { destruct w; simpl. unfold pulled_frames. rewrite flat_map_app. reflexivity. }
      rewrite Hlogged in Hpulled. clear Hlogged.
      unfold log, modify. cbn [fst].
      destruct (WriteFrame av audio_fuel (reader number)
                  (set_events (events w ++ [EvGetFrame number]) w)) as [w1 res] eqn:Hrun.
      simpl in Hpulled.
      destruct res as [[]|e| |].
      * erewrite bind_ok by exact Hrun.
        rewrite int_succ_id by lia.
        destruct (IH (number + 1) w1 ltac:(lia)) as (k & Hk & Hp & Hok & Hthrow).
        exists (k + 1). split; [lia|]. split.
        { rewrite Hp, Hpulled, <- app_assoc. f_equal.
          rewrite (seqZ_cons number (k + 1)) by lia.
          replace (Z.succ number) with (number + 1) by lia.
          replace (Z.pred (k + 1)) with k by lia. reflexivity. }
        split; [intros H; specialize (Hok H); lia|].
        intros e H. specialize (Hthrow e H). lia.
      * erewrite bind_throw by exact Hrun. simpl.
        exists 1. split; [lia|]. split; [exact Hpulled|].
        split; [intros H; discriminate H | intros; lia].
      * erewrite bind_undefined by exact Hrun. simpl.
        exists 1. split; [lia|]. split; [exact Hpulled|].
        split; intros; discriminate.
      * erewrite bind_out_of_fuel by exact Hrun. simpl.
        exists 1. split; [lia|]. split; [exact Hpulled|].
        split; intros; discriminate.
    + apply Z.leb_gt in Hle. simpl. exists 0. rewrite app_nil_r.
      split; [lia|]. split; [reflexivity|]. split; [intros _; lia | intros; discriminate].
Qed.

(** X26: on every path, returning, throwing or cut short, the range
    overload of WriteFrame asks the reader for a prefix of the frames
    start, start + 1, ..., length, in this order: never a number outside
    the range, never a number twice, never a number before all smaller
    ones.  It has asked for the whole range when it returns, and for at
    least the frame that failed when it throws.  (The end of the range is
    below INT_MAX, so that the counter does not overflow.) *)
Theorem WriteFrame_range_prefix av fuel audio_fuel reader start length w :
  INT_MIN <= start -> length < INT_MAX ->
  let r := WriteFrame_range av fuel audio_fuel reader start length w in
  exists k,
    0 <= k <= Z.max 0 (length - start + 1)
    /\ pulled_frames (events (fst r)) = pulled_frames (events w) ++ seqZ start k
    /\ (snd r = Ok tt -> k = Z.max 0 (length - start + 1))
    /\ (forall e, snd r = Throw e -> 0 < k).
Proof.
  intros Hmin Hmax. unfold WriteFrame_range.
  apply WriteFrame_loop_prefix; assumption.
Qed.

Lemma WriteFrame_range_prefix_witness :
  exists k,
    0 <= k <= Z.max 0 (5 - 3 + 1)
    /\ pulled_frames
         (events (fst (WriteFrame_range demo_av_failing 8 8 (fun _ => demo_frame 2) 3 5
                         demo_opened)))
       = pulled_frames (events demo_opened) ++ seqZ 3 k.
Proof.
  destruct (WriteFrame_range_prefix demo_av_failing 8 8 (fun _ => demo_frame 2) 3 5
              demo_opened) as (k & Hk & Hp & _).
  - unfold INT_MIN. lia.
  - unfold INT_MAX. lia.
  - exists k. split; [exact Hk | exact Hp].
Defined.

Lemma WriteFrame_loop_fuel av audio_fuel reader length :
  length < INT_MAX ->
  forall fuel1 fuel2 number w,
    INT_MIN <= number ->
    (Z.to_nat (length - number + 1) < fuel1)%nat ->
    (Z.to_nat (length - number + 1) < fuel2)%nat ->
    WriteFrame_loop av fuel1 audio_fuel reader number length w
    = WriteFrame_loop av fuel2 audio_fuel reader number length w.
Proof.
  intros Hmax. induction fuel1 as [|fuel1 IH]; intros fuel2 number w Hmin H1 H2; [lia|].
  destruct fuel2 as [|fuel2]; [lia|]. simpl.
  destruct (number <=? length) eqn:Hle; [|reflexivity].
  apply Z.leb_le in Hle. unfold bind.
  destruct (log (EvGetFrame number) w) as [w1 [[]| | |]]; try reflexivity.
  destruct (WriteFrame av audio_fuel (reader number) w1) as [w2 [[]| | |]]; try reflexivity.
  rewrite int_succ_id by lia. apply IH; lia.
Qed.

Lemma bind_assoc {A B C} (m : M A) (k : A -> M B) (h : B -> M C) w :
  bind (bind m k) h w = bind m (fun a => bind (k a) h) w.
Proof. unfold bind. destruct (m w) as [w1 [a|e| |]]; reflexivity. Qed.

Lemma bind_ext {A B} (m : M A) (k k' : A -> M B) w :
  (forall a w', k a w' = k' a w') -> bind m k w = bind m k' w.
Proof. intros H. unfold bind. destruct (m w) as [w1 [a|e| |]]; auto. Qed.

(** X27: a range can be written in two parts.  Writing start..mid and,
    if that returns, mid + 1..length is the same, in final state and
    in outcome, as writing start..length in one call. *)
Theorem WriteFrame_range_split av fuel audio_fuel reader start mid length w :
  INT_MIN <= start -> start <= mid + 1 -> mid <= length -> length < INT_MAX ->
  (Z.to_nat (length - start + 1) < fuel)%nat ->
  (WriteFrame_range av fuel audio_fuel reader start mid ;;
   WriteFrame_range av fuel audio_fuel reader (mid + 1) length) w
  = WriteFrame_range av fuel audio_fuel reader start length w.
Proof.
  intros Hmin Hlo Hhi Hmax. unfold WriteFrame_range.
  revert start w Hmin Hlo.
  assert (Hgen : forall fuel1 fuel2 number w,
            INT_MIN <= number -> number <= mid + 1 ->
            (Z.to_nat (length - number + 1) < fuel1)%nat ->
            (Z.to_nat (length - number + 1) < fuel2)%nat ->
            bind (WriteFrame_loop av fuel1 audio_fuel reader number mid)
                 (fun _ => WriteFrame_loop av fuel2 audio_fuel reader (mid + 1) length) w
            = WriteFrame_loop av fuel1 audio_fuel reader number length w).
  { induction fuel1 as [|fuel1 IH]; intros fuel2 number w Hmin Hlo H1 H2; [lia|].
    simpl. destruct (number <=? mid) eqn:Hle.
    - apply Z.leb_le in Hle. replace (number <=? length) with true by lia.
      rewrite bind_assoc. apply bind_ext. intros _ w1.
      rewrite bind_assoc. apply bind_ext. intros _ w2.
      rewrite int_succ_id by lia.
      apply (IH fuel2 (number + 1) w2); lia.
    - apply Z.leb_gt in Hle. assert (number = mid + 1) by lia. subst number.
      erewrite bind_ok by reflexivity.
      apply (WriteFrame_loop_fuel av audio_fuel reader length Hmax fuel2 (S fuel1));
        lia. }
  intros start w Hmin Hlo Hfuel. apply Hgen; lia.
Qed.

Lemma WriteFrame_range_split_witness :
  (WriteFrame_range demo_av 8 8 (fun _ => demo_frame 1) 3 4 ;;
   WriteFrame_range demo_av 8 8 (fun _ => demo_frame 1) (4 + 1) 6) demo_opened
  = WriteFrame_range demo_av 8 8 (fun _ => demo_frame 1) 3 6 demo_opened.
Proof.
  apply WriteFrame_range_split; unfold INT_MIN, INT_MAX; simpl; lia.
Defined.

(** ** The life cycle *)

Lemma default_codec_name_found av id current :
  default_codec_name av id current
  = if encoder_found av id
    then Ok (if codec_id_eqb id CODEC_ID_NONE then current
             else match avcodec_find_encoder av id with
                  | Some codec => AVCodec.name codec
                  | None => current
                  end)
    else Undefined.
Proof.
  unfold default_codec_name, encoder_found.
  destruct (codec_id_eqb id CODEC_ID_NONE); [reflexivity|].
  destruct (avcodec_find_encoder av id); reflexivity.
Qed.

(** X28: every way the constructor ends.  It throws InvalidFormat when
    no container format can be deduced from the path, and OutOfMemory when
    a format is deduced but the format context cannot be allocated; these
    are the only exceptions.  With a format and a context, it dereferences
    a null pointer (undefined behaviour) when the library has no encoder
    for one of the format's default codecs, and otherwise constructs an
    output for the given path with the deduced format, a live format
    context, no open file, and the names of the default encoders in the
    option store (a default of CODEC_ID_NONE leaving the name as it was).
    The writer it constructs has both media kinds disabled, no stream and
    null stream pointers, whatever the base class put into the option
    store.  Until an option setter enables a kind, PrepareStreams and
    WriteHeader throw InvalidOptions and change nothing, SetOption rejects
    every option that is not one of the five named ones, and WriteFrame
    returns without writing anything. *)
Theorem FFmpegWriter_new_fresh avf av cleared file :
  let r := FFmpegWriter_new avf av cleared file in
  (av_guess_format avf file = None -> r = Throw InvalidFormat)
  /\ (forall fm, av_guess_format avf file = Some fm ->
        avformat_alloc_context avf = false -> r = Throw OutOfMemory)
  /\ (forall fm, av_guess_format avf file = Some fm ->
        avformat_alloc_context avf = true ->
        encoder_found av (AVOutputFormat.video_codec fm)
        && encoder_found av (AVOutputFormat.audio_codec fm) = false ->
        r = Undefined)
  /\ (forall fm, av_guess_format avf file = Some fm ->
        avformat_alloc_context avf = true ->
        encoder_found av (AVOutputFormat.video_codec fm)
        && encoder_found av (AVOutputFormat.audio_codec fm) = true ->
        exists o,
          r = Ok o
          /\ path o = file /\ fmt (writer o) = fm
          /\ oc_live o = true /\ pb_open o = false /\ calls o = [FeRegisterAll]
          /\ FileInfo.vcodec (info (writer o))
             = (if codec_id_eqb (AVOutputFormat.video_codec fm) CODEC_ID_NONE
                then FileInfo.vcodec cleared
                else match avcodec_find_encoder av (AVOutputFormat.video_codec fm) with
                     | Some codec => AVCodec.name codec
                     | None => FileInfo.vcodec cleared
                     end)
          /\ FileInfo.acodec (info (writer o))
             = (if codec_id_eqb (AVOutputFormat.audio_codec fm) CODEC_ID_NONE
                then FileInfo.acodec cleared
                else match avcodec_find_encoder av (AVOutputFormat.audio_codec fm) with
                     | Some codec => AVCodec.name codec
                     | None => FileInfo.acodec cleared
                     end))
  /\ (forall e, r = Throw e ->
        (e = InvalidFormat /\ av_guess_format avf file = None)
        \/ (e = OutOfMemory /\ avformat_alloc_context avf = false))
  /\ (forall o, r = Ok o ->
        let w := writer o in
        FileInfo.has_audio (info w) = false /\ FileInfo.has_video (info w) = false
        /\ oc_streams w = [] /\ audio_st w = None /\ video_st w = None
        /\ av_guess_format avf file = Some (fmt w)
        /\ PrepareStreams av w = (w, Throw InvalidOptions)
        /\ WriteHeader avf o = (o, Throw InvalidOptions)
        /\ (forall stream name value,
              is_named_option name = false ->
              SetOption av stream name value w = (w, Throw InvalidOptions))
        /\ (forall fuel frame, WriteFrame av fuel frame w = (w, Ok tt))).
Proof.
  cbv zeta. unfold FFmpegWriter_new, auto_detect_format.
  destruct (av_guess_format avf file) as [fm|] eqn:Hguess.
  2: { split; [reflexivity|]. split; [intros fm H; discriminate H|].
       split; [intros fm H; discriminate H|]. split; [intros fm H; discriminate H|].
       split; [intros e [= <-]; left; split; reflexivity | intros o H; discriminate H]. }
  split; [intros H; discriminate H|].
  destruct (avformat_alloc_context avf) eqn:Halloc.
  2: { split; [reflexivity|]. split; [intros fm' _ H; discriminate H|].
       split; [intros fm' _ H; discriminate H|].
       split; [intros e [= <-]; right; split; reflexivity | intros o H; discriminate H]. }
  split; [intros fm' _ H; discriminate H|].
  rewrite default_codec_name_found.
  destruct (encoder_found av (AVOutputFormat.video_codec fm)) eqn:Hv.
  all: cbv beta iota; rewrite ?default_codec_name_found.
  2: { split; [intros fm' [= <-] _ _; reflexivity|].
       split; [intros fm' [= <-] _ H; rewrite Hv in H; discriminate H|].
       split; [intros e H; discriminate H | intros o H; discriminate H]. }
  destruct (encoder_found av (AVOutputFormat.audio_codec fm)) eqn:Ha.
  2: { split; [intros fm' [= <-] _ _; reflexivity|].
       split; [intros fm' [= <-] _ H; rewrite Hv, Ha in H; discriminate H|].
       split; [intros e H; discriminate H | intros o H; discriminate H]. }
  split; [intros fm' [= <-] _ H; rewrite Hv, Ha in H; discriminate H|].
  split.
  { intros fm' [= <-] _ _. eexists. split; [reflexivity|].
    destruct cleared. cbn. repeat split. }
  split; [intros e H; discriminate H|].
  intros o [= <-]. cbv zeta. cbn [writer].
  destruct cleared. cbn.
  repeat split.
  - intros stream name value Hname.
    rewrite SetOption_disabled by (destruct stream; reflexivity).
    rewrite Hname. reflexivity.
Qed.

Lemma FFmpegWriter_new_fresh_witness :
  FFmpegWriter_new demo_avf_unknown demo_av demo_info "out" = Throw InvalidFormat
  /\ FFmpegWriter_new demo_avf_no_memory demo_av demo_info "out.mp4" = Throw OutOfMemory
  /\ exists o,
       FFmpegWriter_new demo_avf demo_av demo_info "out.mp4" = Ok o
       /\ FileInfo.vcodec (info (writer o)) = "mpeg4"%string
       /\ PrepareStreams demo_av (writer o) = (writer o, Throw InvalidOptions).
Proof.
  split; [|split].
  - destruct (FFmpegWriter_new_fresh demo_avf_unknown demo_av demo_info "out")
      as [Hformat _].
    exact (Hformat eq_refl).
  - destruct (FFmpegWriter_new_fresh demo_avf_no_memory demo_av demo_info "out.mp4")
      as (_ & Hmemory & _).
    exact (Hmemory _ eq_refl eq_refl).
  - destruct (FFmpegWriter_new_fresh demo_avf demo_av demo_info "out.mp4")
      as (_ & _ & _ & Hbuilt & _ & Hfresh).
    destruct (Hbuilt _ eq_refl eq_refl eq_refl) as (o & Hnew & _ & _ & _ & _ & _ & Hvcodec & _).
    exists o. split; [exact Hnew|]. split; [exact Hvcodec|].
    apply (Hfresh o Hnew).
Defined.

Lemma closed_codecs_app l1 l2 : closed_codecs (l1 ++ l2) = closed_codecs l1 ++ closed_codecs l2.
Proof. apply flat_map_app. Qed.

Lemma freed_streams_app l1 l2 : freed_streams (l1 ++ l2) = freed_streams l1 ++ freed_streams l2.
Proof. apply flat_map_app. Qed.

Lemma freed_streams_map l : freed_streams (map FeFreeStream l) = l.
Proof. induction l as [|s l IH]; simpl; [reflexivity | rewrite IH; reflexivity]. Qed.

Lemma closed_codecs_map l : closed_codecs (map FeFreeStream l) = [].
Proof. induction l as [|s l IH]; simpl; [reflexivity | exact IH]. Qed.

Lemma file_closes_app l1 l2 : file_closes (l1 ++ l2) = (file_closes l1 + file_closes l2)%nat.
Proof. unfold file_closes. rewrite flat_map_app, length_app. reflexivity. Qed.

Lemma file_closes_map l : file_closes (map FeFreeStream l) = 0%nat.
Proof. induction l as [|s l IH]; simpl; [reflexivity | exact IH]. Qed.

(** The codec contexts Close hands to avcodec_close: those of the streams
    the two stream pointers point to, video first. *)
Lemma Close_closed_form o (sv sa : option AVStream.t) :
  oc_live o = true ->
  video_st (writer o) ≫= (oc_streams (writer o) !!.) = sv ->
  audio_st (writer o) ≫= (oc_streams (writer o) !!.) = sa ->
  (is_Some (video_st (writer o)) -> is_Some sv) ->
  (is_Some (audio_st (writer o)) -> is_Some sa) ->
  let needs_file := Z.land (AVOutputFormat.flags (fmt (writer o))) AVFMT_NOFILE =? 0 in
  Close o
  = (mkOutput (path o)
       (set_oc_streams []
          (if sa is Some _ then set_audio_outbuf [] (set_samples [] (writer o)) else writer o))
       false
       (if needs_file then false else pb_open o)
       (calls o
        ++ (if sv is Some s then [FeCloseCodec (AVStream.codec s)] else [])
        ++ (if sa is Some s then [FeCloseCodec (AVStream.codec s)] else [])
        ++ map FeFreeStream (oc_streams (writer o))
        ++ (if needs_file then [FeCloseFile] else [])
        ++ [FeFreeContext]),
     Ok tt).
Proof.
  intros Hlive Hsv Hsa Hv Ha. cbv zeta. unfold Close, close_video, close_audio.
  destruct o as [p w live pb cl]. simpl in *. subst live.
  destruct w as [i fm l a v sm ob fs ps ifs r ev]. simpl in *.
  destruct v as [jv|]; simpl in *.
  - try rewrite bool_decide_true by eauto. rewrite Hsv.
    destruct (Hv ltac:(eauto)) as [s1 ->]. simpl.
    destruct a as [ja|]; simpl in *.
    + try rewrite bool_decide_true by eauto. rewrite Hsa.
      destruct (Ha ltac:(eauto)) as [s2 ->]. simpl.
      unfold free_streams, called, set_pb_open, set_oc_live, set_writer. simpl.
      destruct (Z.land (AVOutputFormat.flags fm) AVFMT_NOFILE =? 0); simpl;
        rewrite <- ?app_assoc; reflexivity.
    + subst sa. simpl.
      unfold free_streams, called, set_pb_open, set_oc_live, set_writer. simpl.
      destruct (Z.land (AVOutputFormat.flags fm) AVFMT_NOFILE =? 0); simpl;
        rewrite <- ?app_assoc; reflexivity.
  - subst sv. simpl.
    destruct a as [ja|]; simpl in *.
    + try rewrite bool_decide_true by eauto. rewrite Hsa.
      destruct (Ha ltac:(eauto)) as [s2 ->]. simpl.
      unfold free_streams, called, set_pb_open, set_oc_live, set_writer. simpl.
      destruct (Z.land (AVOutputFormat.flags fm) AVFMT_NOFILE =? 0); simpl;
        rewrite <- ?app_assoc; reflexivity.
    + subst sa. simpl.
      unfold free_streams, called, set_pb_open, set_oc_live, set_writer. simpl.
      destruct (Z.land (AVOutputFormat.flags fm) AVFMT_NOFILE =? 0); simpl;
        rewrite <- ?app_assoc; reflexivity.
Qed.

Lemma Close_returns o :
  snd (Close o) = Ok tt ->
  oc_live o = true
  /\ (is_Some (video_st (writer o)) ->
      is_Some (video_st (writer o) ≫= (oc_streams (writer o) !!.)))
  /\ (is_Some (audio_st (writer o)) ->
      is_Some (audio_st (writer o) ≫= (oc_streams (writer o) !!.))).
Proof.
  unfold Close, close_video, close_audio.
  destruct o as [p w live pb cl]. simpl.
  destruct (video_st w) as [jv|] eqn:Hv; simpl.
  - try rewrite bool_decide_true by eauto.
    destruct (oc_streams w !! jv) as [s1|] eqn:Hs1; simpl; [|intros H; discriminate H].
    destruct (audio_st w) as [ja|] eqn:Ha; simpl.
    + try rewrite bool_decide_true by eauto.
      destruct (oc_streams w !! ja) as [s2|] eqn:Hs2; simpl; [|intros H; discriminate H].
      destruct live; simpl; [|intros H; discriminate H].
      intros _. split; [reflexivity|]. split; intros _; eauto.
    + destruct live; simpl; [|intros H; discriminate H].
      intros _. split; [reflexivity|]. split; [intros _; eauto | intros [x Hx]; discriminate Hx].
  - destruct (audio_st w) as [ja|] eqn:Ha; simpl.
    + try rewrite bool_decide_true by eauto.
      destruct (oc_streams w !! ja) as [s2|] eqn:Hs2; simpl; [|intros H; discriminate H].
      destruct live; simpl; [|intros H; discriminate H].
      intros _. split; [reflexivity|]. split; [intros [x Hx]; discriminate Hx | intros _; eauto].
    + destruct live; simpl; [|intros H; discriminate H].
      intros _. split; [reflexivity|]. split; intros [x Hx]; discriminate Hx.
Qed.

(** X29: what a Close call that returns has released.  Every stream of
    the container is freed, each once and in order, but a codec is closed
    only for the streams the two stream pointers point to, so for two at
    most: streams left behind by an earlier PrepareStreams call or by a
    failed add_audio_stream are freed with their codec never closed.  The
    output file is closed exactly when the container format uses a file,
    whether or not WriteHeader had opened one.  The format context is freed
    last, and the stream pointers are left as they were, pointing to freed
    streams. *)
Theorem Close_releases o :
  snd (Close o) = Ok tt ->
  let o' := fst (Close o) in
  let w := writer o in
  let added := drop (length (calls o)) (calls o') in
  calls o' = calls o ++ added
  /\ freed_streams added = oc_streams w
  /\ closed_codecs added
     = (if video_st w ≫= (oc_streams w !!.) is Some s then [AVStream.codec s] else [])
       ++ (if audio_st w ≫= (oc_streams w !!.) is Some s then [AVStream.codec s] else [])
  /\ (length (closed_codecs added) <= 2)%nat
  /\ file_closes added
     = (if Z.land (AVOutputFormat.flags (fmt w)) AVFMT_NOFILE =? 0 then 1%nat else 0%nat)
  /\ last added = Some FeFreeContext
  /\ oc_live o' = false
  /\ oc_streams (writer o') = []
  /\ video_st (writer o') = video_st w
  /\ audio_st (writer o') = audio_st w.
Proof.
  intros Hok. cbv zeta.
  destruct (Close_returns o Hok) as (Hlive & Hv & Ha).
  rewrite (Close_closed_form o _ _ Hlive eq_refl eq_refl Hv Ha). cbn [fst calls].
  rewrite drop_app_length.
  set (sv := video_st (writer o) ≫= (oc_streams (writer o) !!.)).
  set (sa := audio_st (writer o) ≫= (oc_streams (writer o) !!.)).
  set (needs_file := Z.land (AVOutputFormat.flags (fmt (writer o))) AVFMT_NOFILE =? 0).
  split; [reflexivity|].
  split.
  { rewrite !freed_streams_app, freed_streams_map.
    destruct sv, sa, needs_file; simpl; rewrite ?app_nil_r; reflexivity. }
  split.
  { rewrite !closed_codecs_app, closed_codecs_map.
    destruct sv, sa, needs_file; reflexivity. }
  split.
  { rewrite !closed_codecs_app, closed_codecs_map.
    destruct sv, sa, needs_file; simpl; lia. }
  split.
  { rewrite !file_closes_app, file_closes_map.
    destruct sv, sa, needs_file; reflexivity. }
  split.
  { rewrite !app_assoc. apply last_snoc. }
  destruct sa; destruct (writer o); repeat split.
Qed.

Lemma Close_releases_witness :
  let o := mkOutput "out.mp4" (fst (PrepareStreams demo_av demo_prepared)) true false
             [FeRegisterAll] in
  let added := drop (length (calls o)) (calls (fst (Close o))) in
  length (freed_streams added) = 4%nat /\ (length (closed_codecs added) <= 2)%nat.
Proof.
  cbv zeta.
  destruct (Close_releases
              (mkOutput "out.mp4" (fst (PrepareStreams demo_av demo_prepared)) true false
                 [FeRegisterAll]))
    as (_ & Hfreed & _ & Hclosed & _).
  - vm_compute. reflexivity.
  - split; [rewrite Hfreed; vm_compute; reflexivity | exact Hclosed].
Defined.

(** X30: Close leaves an object that can no longer be used.  After a
    Close call that returned, a second Close, WriteTrailer and
    OutputStreamInfo are undefined behaviour, reading the freed format
    context or a freed stream; so is WriteHeader as soon as a media kind is
    enabled, and so is WriteFrame for every kind that was enabled and
    prepared, because the stream pointers still point to the freed
    streams.  None of them throws. *)
Theorem Close_then_use avf av o :
  snd (Close o) = Ok tt ->
  let o' := fst (Close o) in
  let w := writer o in
  snd (Close o') = Undefined
  /\ snd (WriteTrailer o') = Undefined
  /\ snd (OutputStreamInfo o') = Undefined
  /\ (FileInfo.has_audio (info w) = true \/ FileInfo.has_video (info w) = true ->
      snd (WriteHeader avf o') = Undefined)
  /\ (FileInfo.has_video (info w) = true /\ is_Some (video_st w)
      \/ FileInfo.has_audio (info w) = true /\ is_Some (audio_st w) ->
      forall fuel frame, snd (WriteFrame av fuel frame (writer o')) = Undefined).
Proof.
  intros Hok. cbv zeta.
  destruct (Close_returns o Hok) as (Hlive & Hv & Ha).
  rewrite (Close_closed_form o _ _ Hlive eq_refl eq_refl Hv Ha). cbn [fst].
  set (sa := audio_st (writer o) ≫= (oc_streams (writer o) !!.)).
  set (w' := set_oc_streams [] _).
  assert (Hw' : info w' = info (writer o) /\ video_st w' = video_st (writer o)
                /\ audio_st w' = audio_st (writer o) /\ oc_streams w' = []).
  { subst w'. destruct sa; destruct (writer o); repeat split. }
  destruct Hw' as (Hi' & Hv' & Ha' & Hl').
  clearbody w'.
  split.
  { unfold Close, close_video, close_audio. cbn [writer oc_live].
    rewrite Hv'.
    destruct (video_st (writer o)) as [jv|]; simpl; rewrite ?Hl'; [reflexivity|].
    rewrite Ha'.
    destruct (audio_st (writer o)) as [ja|]; simpl; rewrite ?Hl'; reflexivity. }
  split; [reflexivity|]. split; [reflexivity|]. split.
  { intros Hon. unfold WriteHeader. cbn [writer oc_live]. rewrite Hi'.
    destruct Hon as [-> | ->]; simpl; rewrite ?andb_false_r; reflexivity. }
  intros Hused fuel frame. cbn [writer]. unfold WriteFrame.
  erewrite bind_ok by reflexivity. rewrite Hi', Hv'.
  destruct (FileInfo.has_video (info (writer o)) && bool_decide (is_Some (video_st (writer o))))
    eqn:Hvideo.
  - apply andb_true_iff in Hvideo. destruct Hvideo as [_ Hst].
    apply bool_decide_eq_true in Hst. destruct Hst as [jv Hst].
    erewrite bind_undefined; [reflexivity|].
    unfold when, write_video_packet. erewrite bind_ok by reflexivity.
    rewrite Hv', Hst.
    erewrite bind_undefined; [reflexivity|].
    apply stream_codec_null. rewrite Hl'. reflexivity.
  - destruct Hused as [[Hhv Hsv] | [Hha Hsa]].
    { rewrite Hhv, bool_decide_true in Hvideo by exact Hsv. discriminate Hvideo. }
    erewrite bind_ok by reflexivity.
    erewrite bind_ok by reflexivity.
    rewrite Hi', Ha', Hha, bool_decide_true by exact Hsa.
    destruct Hsa as [ja Hsa].
    unfold when, andb, write_audio_packet, prepare_audio.
    erewrite bind_undefined; [reflexivity|].
    erewrite bind_ok by reflexivity. rewrite Ha', Hsa.
    erewrite bind_undefined; [reflexivity|].
    apply stream_codec_null. rewrite Hl'. reflexivity.
Qed.

Lemma Close_then_use_witness :
  snd (Close (fst (Close demo_output))) = Undefined
  /\ snd (WriteFrame demo_av 8 (demo_frame 1) (writer (fst (Close demo_output)))) = Undefined.
Proof.
  destruct (Close_then_use demo_avf demo_av demo_output) as (Hclose & _ & _ & _ & Hframe).
  - vm_compute. reflexivity.
  - split; [exact Hclose|]. apply Hframe.
    left. split; [vm_compute; reflexivity | eexists; vm_compute; reflexivity].
Defined.
